(** * Double-entry ledger core: transaction store, CSV import, dedup

    A shallow embedding of [backend/ledger/repos.py],
    [backend/services/import_service.py] and
    [backend/services/account_service.py].

    Conventions of the embedding.
    - A Python [str] is a [string]; a character is a code point below 256.
    - A Python exception is a value of [exn]; a call that may raise returns a
      [result].
    - The relational store behind the Django ORM is a record of tables, each
      a list of rows in primary-key order; an ORM call is a function on that
      record, and [atomic] restores the record when its body raises.
    - [decimal.Decimal] is modelled for finite numbers, with the default
      context (28 digits, ROUND_HALF_EVEN).  The sign of a zero is not
      tracked (Python compares [-0] and [0] equal and no branch of the
      modelled code looks at it).  Literals of infinities and NaNs and
      exponents beyond the context limits are outside the model.
    - A [float] is a double, given by its mantissa and binary exponent;
      [float()] of a [Decimal] is the nearest double, ties to even.
    - Libraries whose algorithms are not part of this repository ([re],
      [csv], [yaml], [datetime]) enter as the fields of [ImportService.Libs]. *)

From Stdlib Require Import ZArith List String Ascii Lia Bool DecimalString.
From Stdlib Require Import Permutation Sorted.
Import ListNotations.

Open Scope string_scope.
Open Scope Z_scope.

(* ================================================================= *)
(** ** Python values shared by all modules *)

Module Py.

(** Exceptions raised by the modelled code, each with its [str()] text. *)
Inductive exn : Type :=
| ValidationError (msg : string)     (* repos.ValidationError *)
| NotFoundError (msg : string)       (* repos.NotFoundError *)
| InvalidOperation (msg : string)    (* decimal.InvalidOperation *)
| ValueError (msg : string)
| TypeError (msg : string)
| AttributeError (msg : string)
| IntegrityError (msg : string).     (* django.db.IntegrityError *)

Definition exn_str (e : exn) : string :=
  match e with
  | ValidationError m | NotFoundError m | InvalidOperation m
  | ValueError m | TypeError m | AttributeError m | IntegrityError m => m
  end.

Definition is_ValidationError (e : exn) : bool :=
  match e with ValidationError _ => true | _ => false end.

Definition is_NotFoundError (e : exn) : bool :=
  match e with NotFoundError _ => true | _ => false end.

Inductive result (A : Type) : Type :=
| Ok (a : A)
| Raise (e : exn).
Arguments Ok {A} a.
Arguments Raise {A} e.

Definition bind {A B : Type} (r : result A) (k : A -> result B) : result B :=
  match r with
  | Ok a => k a
  | Raise e => Raise e
  end.

(** *** Characters and strings *)

Definition code (c : ascii) : Z := Z.of_N (N_of_ascii c).

Definition chr (n : Z) : ascii := ascii_of_N (Z.to_N n).

(** [str.isspace] on code points below 256. *)
Definition is_space (c : ascii) : bool :=
  let n := code c in
  ((9 <=? n) && (n <=? 13)) || ((28 <=? n) && (n <=? 32))
  || (n =? 133) || (n =? 160).

Definition is_digit (c : ascii) : bool :=
  let n := code c in (48 <=? n) && (n <=? 57).

(** [str.lower] on code points below 256. *)
Definition lower_char (c : ascii) : ascii :=
  let n := code c in
  if ((65 <=? n) && (n <=? 90))
     || ((192 <=? n) && (n <=? 222) && negb (n =? 215))
  then chr (n + 32) else c.

Fixpoint lower (s : string) : string :=
  match s with
  | EmptyString => EmptyString
  | String c r => String (lower_char c) (lower r)
  end.

Definition is_empty (s : string) : bool :=
  match s with EmptyString => true | _ => false end.

Fixpoint lstrip (s : string) : string :=
  match s with
  | EmptyString => EmptyString
  | String c r => if is_space c then lstrip r else s
  end.

Fixpoint rstrip (s : string) : string :=
  match s with
  | EmptyString => EmptyString
  | String c r =>
      let r' := rstrip r in
      if is_space c && is_empty r' then EmptyString else String c r'
  end.

(** [s.strip()] *)
Definition strip (s : string) : string := rstrip (lstrip s).

(** [s.replace(c, "")] for a one-character [c]. *)
Fixpoint remove_char (x : ascii) (s : string) : string :=
  match s with
  | EmptyString => EmptyString
  | String c r =>
      if Ascii.eqb c x then remove_char x r else String c (remove_char x r)
  end.

(** [s.startswith(p)] *)
Fixpoint startswith (p s : string) : bool :=
  match p, s with
  | EmptyString, _ => true
  | String a p', String b s' => Ascii.eqb a b && startswith p' s'
  | String _ _, EmptyString => false
  end.

(** [p in s] for strings. *)
Fixpoint contains (p s : string) : bool :=
  startswith p s ||
  match s with
  | EmptyString => false
  | String _ r => contains p r
  end.

(** [s.endswith(c)] for a one-character [c]. *)
Fixpoint endswith_char (x : ascii) (s : string) : bool :=
  match s with
  | EmptyString => false
  | String c EmptyString => Ascii.eqb c x
  | String _ r => endswith_char x r
  end.

Fixpoint drop_last (s : string) : string :=
  match s with
  | EmptyString => EmptyString
  | String _ EmptyString => EmptyString
  | String c r => String c (drop_last r)
  end.

(** [s[1:-1]] *)
Definition slice_1_m1 (s : string) : string :=
  match s with
  | EmptyString => EmptyString
  | String _ r => drop_last r
  end.

(** [s.split(c)] for a one-character separator. *)
Fixpoint split (x : ascii) (s : string) : list string :=
  match s with
  | EmptyString => [EmptyString]
  | String c r =>
      if Ascii.eqb c x then EmptyString :: split x r
      else match split x r with
           | h :: t => String c h :: t
           | [] => [String c EmptyString]
           end
  end.

Fixpoint all_chars (p : ascii -> bool) (s : string) : bool :=
  match s with
  | EmptyString => true
  | String c r => p c && all_chars p r
  end.

(** [str(n)] for an [int]. *)
Definition str_of_nonneg (n : Z) : string :=
  NilZero.string_of_uint (N.to_uint (Z.to_N n)).

Definition str_of_int (n : Z) : string :=
  if n <? 0 then "-" ++ str_of_nonneg (- n) else str_of_nonneg n.

Fixpoint repeat_char (c : ascii) (n : nat) : string :=
  match n with
  | O => EmptyString
  | S k => String c (repeat_char c k)
  end.

Fixpoint take (n : nat) (s : string) : string :=
  match n, s with
  | S k, String c r => String c (take k r)
  | _, _ => EmptyString
  end.

Fixpoint drop (n : nat) (s : string) : string :=
  match n, s with
  | S k, String _ r => drop k r
  | _, _ => s
  end.

End Py.

Import Py.

(* ================================================================= *)
(** ** [decimal.Decimal], default context *)

Module PyDecimal.

(** A finite decimal is [coef * 10 ^ expo]. *)
Record Decimal : Type := mkDec { coef : Z; expo : Z }.

(** [getcontext().prec] *)
Definition prec : Z := 28.

(** [Decimal("0.00")] and [Decimal("0.01")]'s exponent. *)
Definition zero2 : Decimal := mkDec 0 (-2).
Definition cents : Z := -2.

Definition dec_is_zero (d : Decimal) : bool := coef d =? 0.

(** The value negated, exactly ([copy_negate]). *)
Definition dec_neg (d : Decimal) : Decimal := mkDec (- coef d) (expo d).

(** Both coefficients at the smaller of the two exponents. *)
Definition align (a b : Decimal) : Z * Z :=
  let e := Z.min (expo a) (expo b) in
  (coef a * 10 ^ (expo a - e), coef b * 10 ^ (expo b - e)).

(** [a == b], [a != b], [a < b]: comparisons are by numeric value. *)
Definition dec_eqb (a b : Decimal) : bool :=
  let (x, y) := align a b in x =? y.

Definition dec_neb (a b : Decimal) : bool := negb (dec_eqb a b).

Definition dec_ltb (a b : Decimal) : bool :=
  let (x, y) := align a b in x <? y.

(** [n / d] rounded to the nearest integer, ties to the even one
    (ROUND_HALF_EVEN), for [0 < d]. *)
Definition round_half_even (n d : Z) : Z :=
  let q := n / d in
  let r := n mod d in
  if 2 * r <? d then q
  else if d <? 2 * r then q + 1
  else if Z.even q then q else q + 1.

(** The coefficient of [d] at exponent [e], rounded when digits are lost. *)
Definition rescale (d : Decimal) (e : Z) : Z :=
  if e <=? expo d then coef d * 10 ^ (expo d - e)
  else round_half_even (coef d) (10 ^ (e - expo d)).

Definition quantize_error : exn :=
  InvalidOperation "[<class 'decimal.InvalidOperation'>]".

(** [d.quantize(Decimal("0.01"))]: the result has exponent -2; a result
    of more than [prec] digits raises [InvalidOperation]. *)
Definition quantize (d : Decimal) : result Decimal :=
  let q := rescale d cents in
  if Z.abs q <? 10 ^ prec then Ok (mkDec q cents) else Raise quantize_error.

(** Number of decimal digits of the coefficient ([len(d._int)]). *)
Definition ndigits (n : Z) : Z :=
  Z.of_nat (String.length (str_of_nonneg (Z.abs n))).

(** [Decimal._fix]: a coefficient of more than [prec] digits is rounded
    to [prec] digits. *)
Definition fix_prec (d : Decimal) : Decimal :=
  if Z.abs (coef d) <? 10 ^ prec then d
  else
    let k := ndigits (coef d) - prec in
    let q := round_half_even (coef d) (10 ^ k) in
    if Z.abs q <? 10 ^ prec then mkDec q (expo d + k)
    else mkDec (q / 10) (expo d + k + 1).

(** [a + b]: the exact sum at the smaller exponent, then [_fix]. *)
Definition dec_add (a b : Decimal) : Decimal :=
  let (x, y) := align a b in
  fix_prec (mkDec (x + y) (Z.min (expo a) (expo b))).

(** [sum(ds)]: Python starts from the integer 0. *)
Definition py_sum (ds : list Decimal) : Decimal :=
  fold_left dec_add ds (mkDec 0 0).

(** *** [str(d)]  ([Decimal.__str__], scientific notation) *)

Definition dec_str (d : Decimal) : string :=
  let sign := if coef d <? 0 then "-" else "" in
  let digits := str_of_nonneg (Z.abs (coef d)) in
  let len := Z.of_nat (String.length digits) in
  let leftdigits := expo d + len in
  let dotplace :=
    if (expo d <=? 0) && (-6 <? leftdigits) then leftdigits else 1 in
  let intpart :=
    if dotplace <=? 0 then "0"
    else if len <=? dotplace
         then digits ++ repeat_char "0" (Z.to_nat (dotplace - len))
         else take (Z.to_nat dotplace) digits in
  let fracpart :=
    if dotplace <=? 0
    then "." ++ repeat_char "0" (Z.to_nat (- dotplace)) ++ digits
    else if len <=? dotplace then ""
         else "." ++ drop (Z.to_nat dotplace) digits in
  let e := leftdigits - dotplace in
  let exp :=
    if e =? 0 then ""
    else "E" ++ (if e <? 0 then "-" else "+") ++ str_of_nonneg (Z.abs e) in
  sign ++ intpart ++ fracpart ++ exp.

(** *** [Decimal(s)] for a string [s] *)

(** Leading run of digits, and what follows it. *)
Fixpoint span_digits (s : string) : string * string :=
  match s with
  | EmptyString => (EmptyString, EmptyString)
  | String c r =>
      if is_digit c
      then let (d, t) := span_digits r in (String c d, t)
      else (EmptyString, s)
  end.

(** Value of a string of digits, most significant first. *)
Fixpoint digits_value (acc : Z) (s : string) : Z :=
  match s with
  | EmptyString => acc
  | String c r => digits_value (acc * 10 + (code c - 48)) r
  end.

(** Optional sign: [true] for "-". *)
Definition split_sign (s : string) : bool * string :=
  match s with
  | String "-" r => (true, r)
  | String "+" r => (false, r)
  | _ => (false, s)
  end.

(** The exponent part: empty, or [E], an optional sign, and digits to the
    end of the string. *)
Definition parse_exponent (s : string) : option Z :=
  match s with
  | EmptyString => Some 0
  | String c r =>
      if Ascii.eqb c "e" || Ascii.eqb c "E" then
        let (neg, t) := split_sign r in
        let (ds, rest) := span_digits t in
        if negb (is_empty ds) && is_empty rest
        then Some (if neg then - digits_value 0 ds else digits_value 0 ds)
        else None
      else None
  end.

(** The numeric alternative of the [decimal] module's literal grammar: an
    optional sign, digits with an optional point among them (at least one
    digit), and an optional exponent part. *)
Definition parse_number (s : string) : option Decimal :=
  let (neg, s1) := split_sign s in
  let (ip, r1) := span_digits s1 in
  let '(fp, r2) :=
    match r1 with
    | String "." t => span_digits t
    | _ => (EmptyString, r1)
    end in
  if is_empty ip && is_empty fp then None
  else
    match parse_exponent r2 with
    | None => None
    | Some e =>
        let c := digits_value 0 (ip ++ fp) in
        Some (mkDec (if neg then - c else c)
                    (e - Z.of_nat (String.length fp)))
    end.

(** [Decimal(s)]: surrounding whitespace and underscores are dropped
    first; [None] is [InvalidOperation] (ConversionSyntax). *)
Definition Decimal_of_string (s : string) : option Decimal :=
  parse_number (remove_char "_" (strip s)).

Definition conversion_error : exn :=
  InvalidOperation "[<class 'decimal.ConversionSyntax'>]".

End PyDecimal.

Import PyDecimal.

(** The values an amount arrives as: a string, an [int] or a [Decimal]. *)
Inductive PyVal : Type :=
| PyStr (s : string)
| PyInt (n : Z)
| PyDec (d : Decimal).

(** [str(v)] *)
Definition py_str (v : PyVal) : string :=
  match v with
  | PyStr s => s
  | PyInt n => str_of_int n
  | PyDec d => dec_str d
  end.

(** [Decimal(str(v))].  For a [Decimal] argument this is the argument
    itself: [str] and the constructor round-trip on finite decimals. *)
Definition Decimal_of_str (v : PyVal) : option Decimal :=
  match v with
  | PyDec d => Some d
  | _ => Decimal_of_string (py_str v)
  end.

(* ================================================================= *)
(** ** [float] (IEEE 754 binary64) *)

Module PyFloat.

(** A finite double is [mant * 2 ^ bexp].  A normal one has
    [2 ^ 52 <= |mant| < 2 ^ 53]; a subnormal one has [bexp = -1074] and a
    smaller [mant]; zero is [0 * 2 ^ 0] (the sign of a zero is not
    tracked).  Infinities are outside the type: the amounts of the store
    are far below [2 ^ 1024]. *)
Record float : Type := mkFloat { mant : Z; bexp : Z }.

(** The fraction [n / (d * 2 ^ k)], numerator and denominator. *)
Definition scaled_num (n k : Z) : Z := if k <? 0 then n * 2 ^ (- k) else n.

Definition scaled_den (d k : Z) : Z := if k <? 0 then d else d * 2 ^ k.

(** The double nearest to [n / d], ties to the even mantissa, for
    [0 < d]: the binary exponent [k] is the one that puts [|n| / d / 2 ^ k]
    between [2 ^ 52] and [2 ^ 53], and not below the subnormal exponent;
    a mantissa rounded up to [2 ^ 53] moves to the next exponent. *)
Definition nearest (n d : Z) : float :=
  let a := Z.abs n in
  let k1 := Z.log2 a - Z.log2 d - 52 in
  let k :=
    if 2 ^ 52 * scaled_den d k1 <=? scaled_num a k1 then k1 else k1 - 1 in
  let k := Z.max k (-1074) in
  let m := round_half_even (scaled_num a k) (scaled_den d k) in
  if m =? 0 then mkFloat 0 0
  else if m =? 2 ^ 53 then mkFloat (Z.sgn n * 2 ^ 52) (k + 1)
  else mkFloat (Z.sgn n * m) k.

(** [float(d)] for a [Decimal]: the conversion goes through [str(d)] and
    the correctly rounded reading of a decimal literal. *)
Definition float_of_decimal (d : Decimal) : float :=
  if 0 <=? expo d then nearest (coef d * 10 ^ expo d) 1
  else nearest (coef d) (10 ^ (- expo d)).

End PyFloat.

Import PyFloat.

(* ================================================================= *)
(** ** [hashlib.sha256] (FIPS 180-4) *)

Module Sha256.

Definition w32 (x : Z) : Z := x mod 2 ^ 32.

Definition add32 (x y : Z) : Z := w32 (x + y).

Definition rotr (n x : Z) : Z :=
  Z.lor (Z.shiftr x n) (w32 (Z.shiftl x (32 - n))).

Definition not32 (x : Z) : Z := Z.lxor x 0xffffffff.

Definition Ch (x y z : Z) : Z :=
  Z.lxor (Z.land x y) (Z.land (not32 x) z).

Definition Maj (x y z : Z) : Z :=
  Z.lxor (Z.lxor (Z.land x y) (Z.land x z)) (Z.land y z).

Definition Sigma0 (x : Z) : Z :=
  Z.lxor (Z.lxor (rotr 2 x) (rotr 13 x)) (rotr 22 x).

Definition Sigma1 (x : Z) : Z :=
  Z.lxor (Z.lxor (rotr 6 x) (rotr 11 x)) (rotr 25 x).

Definition sigma0 (x : Z) : Z :=
  Z.lxor (Z.lxor (rotr 7 x) (rotr 18 x)) (Z.shiftr x 3).

Definition sigma1 (x : Z) : Z :=
  Z.lxor (Z.lxor (rotr 17 x) (rotr 19 x)) (Z.shiftr x 10).

(** The primes below 312, the first 64 of them. *)
Definition primes : list Z :=
  filter (fun p => forallb (fun d => negb (p mod d =? 0))
                           (map Z.of_nat (seq 2 (Z.to_nat p - 2))))
         (map Z.of_nat (seq 2 310)).

(** The integer cube root of [x], for [x] below [2 ^ 120], by bisection. *)
Fixpoint cube_root (fuel : nat) (lo hi x : Z) : Z :=
  match fuel with
  | O => lo
  | S f =>
      let m := (lo + hi + 1) / 2 in
      if m * m * m <=? x then cube_root f m hi x
      else cube_root f lo (m - 1) x
  end.

(** The round constants: the first 32 bits of the fractional parts of
    the cube roots of the first 64 primes. *)
Definition K : list Z :=
  Eval vm_compute in
    map (fun p => w32 (cube_root 41 0 (2 ^ 40) (p * 2 ^ 96))) primes.

(** The initial hash value: the first 32 bits of the fractional parts of
    the square roots of the first 8 primes. *)
Definition H0 : list Z :=
  Eval vm_compute in
    map (fun p => w32 (Z.sqrt (p * 2 ^ 64))) (firstn 8 primes).

(** Bytes of a byte string. *)
Fixpoint bytes_of (s : string) : list Z :=
  match s with
  | EmptyString => []
  | String c r => code c :: bytes_of r
  end.

(** Big-endian bytes of [x], [n] of them. *)
Fixpoint be_bytes (n : nat) (x : Z) : list Z :=
  match n with
  | O => []
  | S k => ((x / 256 ^ Z.of_nat k) mod 256) :: be_bytes k x
  end.

(** The message, a one bit, zero bits up to 56 modulo 64 bytes, and the
    bit length on 8 bytes. *)
Definition pad (msg : list Z) : list Z :=
  let len := Z.of_nat (List.length msg) in
  let zeros := Z.to_nat ((55 - len) mod 64) in
  (msg ++ [128] ++ repeat 0 zeros ++ be_bytes 8 (8 * len))%list.

(** Big-endian 32-bit words of a block. *)
Fixpoint words_of (fuel : nat) (bs : list Z) : list Z :=
  match fuel, bs with
  | S f, b0 :: b1 :: b2 :: b3 :: r =>
      (((b0 * 256 + b1) * 256 + b2) * 256 + b3) :: words_of f r
  | _, _ => []
  end.

Definition nthw (l : list Z) (i : nat) : Z := nth i l 0.

(** The message schedule: 16 block words extended to 64. *)
Fixpoint extend (n : nat) (w : list Z) : list Z :=
  match n with
  | O => w
  | S k =>
      let t := List.length w in
      let x := add32 (add32 (sigma1 (nthw w (t - 2))) (nthw w (t - 7)))
                     (add32 (sigma0 (nthw w (t - 15))) (nthw w (t - 16))) in
      extend k (w ++ [x])%list
  end.

Definition state : Type := (Z * Z * Z * Z * Z * Z * Z * Z)%type.

Definition round (s : state) (kw : Z * Z) : state :=
  let '(a, b, c, d, e, f, g, h) := s in
  let (k, w) := kw in
  let t1 := add32 (add32 (add32 h (Sigma1 e)) (add32 (Ch e f g) k)) w in
  let t2 := add32 (Sigma0 a) (Maj a b c) in
  (add32 t1 t2, a, b, c, add32 d t1, e, f, g).

Definition state_of (l : list Z) : state :=
  (nthw l 0, nthw l 1, nthw l 2, nthw l 3,
   nthw l 4, nthw l 5, nthw l 6, nthw l 7).

Definition list_of (s : state) : list Z :=
  let '(a, b, c, d, e, f, g, h) := s in [a; b; c; d; e; f; g; h]%list.

(** One block of 64 bytes folded into the chaining value. *)
Definition compress (hv : list Z) (block : list Z) : list Z :=
  let w := extend 48 (words_of 16 block) in
  let s := fold_left round (combine K w) (state_of hv) in
  map (fun p => add32 (fst p) (snd p)) (combine hv (list_of s)).

Fixpoint blocks (fuel : nat) (bs : list Z) : list (list Z) :=
  match fuel, bs with
  | S f, _ :: _ => firstn 64 bs :: blocks f (skipn 64 bs)
  | _, _ => []
  end.

Definition sha256 (msg : list Z) : list Z :=
  let p := pad msg in
  fold_left compress (blocks (List.length p) p) H0.

Definition hex_digit (n : Z) : ascii :=
  if n <? 10 then chr (48 + n) else chr (87 + n).

Fixpoint hex_of (n : nat) (x : Z) : string :=
  match n with
  | O => EmptyString
  | S k => String (hex_digit ((x / 16 ^ Z.of_nat k) mod 16)) (hex_of k x)
  end.

(** *** The hash object: the bytes fed so far. *)

Definition hasher : Type := string.

Definition new : hasher := EmptyString.

Definition update (h : hasher) (data : string) : hasher := h ++ data.

Definition hexdigest (h : hasher) : string :=
  concat "" (map (hex_of 8) (sha256 (bytes_of h))).

End Sha256.


(* ================================================================= *)
(** ** The relational store ([backend/ledger/models.py]) *)

Module Store.

(** A [datetime.date], as its proleptic ordinal. *)
Definition date : Type := Z.

Record Ledger : Type := mkLedger { ledgerID : Z; username : string }.

Record Account : Type := mkAccount {
  accountID : Z;
  acc_ledger : Z;                 (* ledger, foreign key *)
  acc_name : string;              (* name *)
  account_type : string;
  acc_parent : option Z;          (* parent, foreign key or NULL *)
  is_active : bool
}.

Record Transaction : Type := mkTransaction {
  transactionID : Z;
  tx_ledger : Z;                  (* ledger, foreign key *)
  tx_date : date;                 (* date *)
  tx_desc : string;               (* desc *)
  tx_necessary : bool             (* necessary *)
}.

(** [Split.amount] is a [FloatField]: the column holds [split_value],
    the double that [float()] makes of the normalized amount.
    [split_amount] is not a column: it is the [Decimal] that the
    repository hands to [float()], kept beside the row to state what the
    row was made from. *)
Record Split : Type := mkSplit {
  split_id : Z;
  split_transaction : Z;          (* transaction, foreign key *)
  split_account : Z;              (* account, foreign key *)
  split_amount : Decimal;         (* the argument of float() *)
  split_value : float             (* amount *)
}.

Record Tag : Type := mkTag { tag_id : Z; tag_name : string }.

Record Rule : Type := mkRule {
  rule_id : Z;
  rule_matcher : string;
  rule_matcher_type : string;
  rule_category : string;
  rule_necessary : bool
}.

Record ImportRecord : Type := mkImportRecord {
  import_id : Z;
  file_hash : string;
  filename : option string;
  imported_count : Z;
  meta_tx_ids : list Z;           (* meta["tx_ids"] *)
  meta_errors : list string       (* meta["errors"] *)
}.

(** The tables, each in primary-key order, and the next automatic key of
    each.  [transaction_tags] is the many-to-many table of
    [Transaction.tags].  The tables of budgets, alerts and wallets, which
    the [post_save] receivers write to, are not part of the model. *)
Record DB : Type := mkDB {
  ledgers : list Ledger;
  accounts : list Account;
  transactions : list Transaction;
  splits : list Split;
  tags : list Tag;
  transaction_tags : list (Z * Z);
  rules : list Rule;
  import_records : list ImportRecord;
  next_ledger : Z;
  next_account : Z;
  next_transaction : Z;
  next_split : Z;
  next_tag : Z;
  next_import : Z
}.

Definition empty_db : DB :=
  mkDB [] [] [] [] [] [] [] [] 1 1 1 1 1 1.

(** *** Store-passing computations that may raise *)

Definition M (A : Type) : Type := DB -> result A * DB.

Definition ret {A : Type} (a : A) : M A := fun db => (Ok a, db).

Definition raise {A : Type} (e : exn) : M A := fun db => (Raise e, db).

Definition mbind {A B : Type} (m : M A) (k : A -> M B) : M B :=
  fun db =>
    match m db with
    | (Ok a, db') => k a db'
    | (Raise e, db') => (Raise e, db')
    end.

(** [with transaction.atomic(): m] -- an exception leaving the block
    rolls the store back to its state on entry, the key counters
    included. *)
Definition atomic {A : Type} (m : M A) : M A :=
  fun db =>
    match m db with
    | (Ok a, db') => (Ok a, db')
    | (Raise e, _) => (Raise e, db)
    end.

(** A pure call that may raise, inside a computation. *)
Definition lift {A : Type} (r : result A) : M A := fun db => (r, db).

(** [for x in xs: body x] *)
Fixpoint for_each {A : Type} (xs : list A) (body : A -> M unit) : M unit :=
  match xs with
  | [] => ret tt
  | x :: r => mbind (body x) (fun _ => for_each r body)
  end.

Declare Scope store_scope.
Delimit Scope store_scope with store.
Notation "x <- m ;; k" := (mbind m (fun x => k))
  (at level 61, m at next level, right associativity) : store_scope.
Notation "m ;;; k" := (mbind m (fun _ => k))
  (at level 61, right associativity) : store_scope.
Open Scope store_scope.

(** *** ORM calls *)

(** [Ledger.objects.filter(pk=k).first()] *)
Definition find_ledger (db : DB) (k : Z) : option Ledger :=
  find (fun l => ledgerID l =? k) (ledgers db).

(** [Account.objects.filter(pk=k).first()] *)
Definition find_account (db : DB) (k : Z) : option Account :=
  find (fun a => accountID a =? k) (accounts db).

(** [Account.objects.filter(name=n).first()]: the row of that name with
    the smallest key. *)
Definition find_account_by_name (db : DB) (n : string) : option Account :=
  find (fun a => String.eqb (acc_name a) n) (accounts db).

Definition find_tag (db : DB) (n : string) : option Tag :=
  find (fun t => String.eqb (tag_name t) n) (tags db).

(** [ImportRecord.objects.filter(file_hash=h).first()] *)
Definition find_import (db : DB) (h : string) : option ImportRecord :=
  find (fun r => String.eqb (file_hash r) h) (import_records db).

(** [Ledger.objects.get_or_create(pk=k, defaults={"username": u})] *)
Definition ledger_get_or_create (k : Z) (u : string) : M Ledger :=
  fun db =>
    match find_ledger db k with
    | Some l => (Ok l, db)
    | None =>
        let l := mkLedger k u in
        (Ok l,
         mkDB (ledgers db ++ [l]) (accounts db) (transactions db) (splits db)
              (tags db) (transaction_tags db) (rules db) (import_records db)
              (Z.max (next_ledger db) (k + 1)) (next_account db)
              (next_transaction db) (next_split db) (next_tag db)
              (next_import db))
    end.

(** [Account.objects.create(...)]: the model declares no uniqueness
    constraint, the row is always inserted. *)
Definition account_insert (n ty : string) (p : option Z) (active : bool)
  (l : Z) : M Account :=
  fun db =>
    let a := mkAccount (next_account db) l n ty p active in
    (Ok a,
     mkDB (ledgers db) (accounts db ++ [a]) (transactions db) (splits db)
          (tags db) (transaction_tags db) (rules db) (import_records db)
          (next_ledger db) (next_account db + 1)
          (next_transaction db) (next_split db) (next_tag db)
          (next_import db)).

Definition date_null_error : exn :=
  IntegrityError "NOT NULL constraint failed: ledger_transaction.date".

(** [Transaction.objects.create(...)]; [date] is a NOT NULL column. *)
Definition transaction_insert (l : Z) (d : option date) (de : string)
  (nec : bool) : M Transaction :=
  fun db =>
    match d with
    | None => (Raise date_null_error, db)
    | Some d =>
        let t := mkTransaction (next_transaction db) l d de nec in
        (Ok t,
         mkDB (ledgers db) (accounts db) (transactions db ++ [t]) (splits db)
              (tags db) (transaction_tags db) (rules db) (import_records db)
              (next_ledger db) (next_account db)
              (next_transaction db + 1) (next_split db) (next_tag db)
              (next_import db))
    end.

(** [Split.objects.create(transaction=tx, account=a, amount=float(x))]:
    the row stores [float(x)]. *)
Definition split_insert (tx acc : Z) (x : Decimal) : M unit :=
  fun db =>
    let s := mkSplit (next_split db) tx acc x (float_of_decimal x) in
    (Ok tt,
     mkDB (ledgers db) (accounts db) (transactions db) (splits db ++ [s])
          (tags db) (transaction_tags db) (rules db) (import_records db)
          (next_ledger db) (next_account db)
          (next_transaction db) (next_split db + 1) (next_tag db)
          (next_import db)).

(** [Tag.objects.get_or_create(name=n)] *)
Definition tag_get_or_create (n : string) : M Tag :=
  fun db =>
    match find_tag db n with
    | Some t => (Ok t, db)
    | None =>
        let t := mkTag (next_tag db) n in
        (Ok t,
         mkDB (ledgers db) (accounts db) (transactions db) (splits db)
              (tags db ++ [t]) (transaction_tags db) (rules db)
              (import_records db)
              (next_ledger db) (next_account db)
              (next_transaction db) (next_split db) (next_tag db + 1)
              (next_import db))
    end.

(** [tx.tags.add(tag)]: a pair already present is not added again. *)
Definition tags_add (tx tag : Z) : M unit :=
  fun db =>
    if existsb (fun p => (fst p =? tx) && (snd p =? tag))
               (transaction_tags db)
    then (Ok tt, db)
    else
      (Ok tt,
       mkDB (ledgers db) (accounts db) (transactions db) (splits db)
            (tags db) (transaction_tags db ++ [(tx, tag)]) (rules db)
            (import_records db)
            (next_ledger db) (next_account db)
            (next_transaction db) (next_split db) (next_tag db)
            (next_import db)).

(** [ImportRecord.objects.create(...)] *)
Definition import_insert (h : string) (fname : option string) (count : Z)
  (ids : list Z) (errs : list string) : M ImportRecord :=
  fun db =>
    let r := mkImportRecord (next_import db) h fname count ids errs in
    (Ok r,
     mkDB (ledgers db) (accounts db) (transactions db) (splits db)
          (tags db) (transaction_tags db) (rules db)
          (import_records db ++ [r])
          (next_ledger db) (next_account db)
          (next_transaction db) (next_split db) (next_tag db)
          (next_import db + 1)).

(** [record.delete()] *)
Definition import_delete (r : ImportRecord) : M unit :=
  fun db =>
    (Ok tt,
     mkDB (ledgers db) (accounts db) (transactions db) (splits db)
          (tags db) (transaction_tags db) (rules db)
          (filter (fun x => negb (import_id x =? import_id r))
                  (import_records db))
          (next_ledger db) (next_account db)
          (next_transaction db) (next_split db) (next_tag db)
          (next_import db)).

(** The splits of a transaction ([tx.splits.all()]). *)
Definition splits_of (db : DB) (tx : Z) : list Split :=
  filter (fun s => split_transaction s =? tx) (splits db).

(** The tag names of a transaction ([tx.tags.all()]). *)
Definition tag_names_of (db : DB) (tx : Z) : list string :=
  map tag_name
    (filter (fun t => existsb (fun p => (fst p =? tx) && (snd p =? tag_id t))
                              (transaction_tags db))
            (tags db)).

End Store.

Import Store.

(* ================================================================= *)
(** ** [backend/ledger/repos.py] *)

(** A split as the caller passes it: a dict with the keys ['amount'],
    ['account_id'], ['account_name'], each present or not. *)
Record SplitDict : Type := mkSplitDict {
  amount : option PyVal;
  account_id : option Z;
  account_name : option string
}.

(** The keyword filters of [list], each [filters.get(...)] or [None]. *)
Record Filters : Type := mkFilters {
  date_from : option date;
  date_to : option date;
  f_account_id : option Z;        (* account_id *)
  f_tag : option string           (* tag *)
}.

Definition no_filters : Filters := mkFilters None None None None.

(** Truth value of an optional [int] and of an optional [str]. *)
Definition truthy_int (x : option Z) : bool :=
  match x with Some n => negb (n =? 0) | None => false end.

Definition truthy_str (x : option string) : bool :=
  match x with Some s => negb (is_empty s) | None => false end.

(** The text of a split dict inside a message (keys in the order
    ['account_id'], ['account_name']; the amount is absent where this is
    used). *)
Definition repr_split (s : SplitDict) : string :=
  let id :=
    match account_id s with
    | Some k => ["'account_id': " ++ str_of_int k]
    | None => []
    end in
  let nm :=
    match account_name s with
    | Some n => ["'account_name': '" ++ n ++ "'"]
    | None => []
    end in
  "{" ++ concat ", " (id ++ nm)%list ++ "}".

Module DjangoAccountsRepo.

(** [create(name, account_type, parent=None, is_active=True, ledger_id=1)] *)
Definition create (name account_type : string) (parent : option Z)
  (is_active : bool) (ledger_id : Z) : M Account :=
  fun db =>
    let parent_obj :=
      if truthy_int parent
      then match parent with
           | Some p => option_map accountID (find_account db p)
           | None => None
           end
      else None in
    (_ <- ledger_get_or_create ledger_id "default" ;;
     account_insert name account_type parent_obj is_active ledger_id) db.

Definition get (db : DB) (pk : Z) : option Account := find_account db pk.

Definition get_by_name (db : DB) (name : string) : option Account :=
  find_account_by_name db name.

End DjangoAccountsRepo.

Module DjangoTransactionsRepo.

Definition _normalize_amount (raw : PyVal) : result Decimal :=
  match Decimal_of_str raw with
  | None => Raise (ValidationError ("Invalid amount value: " ++ py_str raw))
  | Some d => quantize d
  end.

(** Lines 133-141: the loop that normalizes the amounts and adds them up.
    [acc] is [decimal_splits], [total] the running total. *)
Fixpoint normalize_splits (splits : list SplitDict)
  (acc : list (SplitDict * Decimal)) (total : Decimal)
  : result (list (SplitDict * Decimal) * Decimal) :=
  match splits with
  | [] => Ok (acc, total)
  | s :: rest =>
      match amount s with
      | None =>
          Raise (ValidationError
                   ("Missing 'amount' in split: " ++ repr_split s))
      | Some raw =>
          bind (_normalize_amount raw) (fun a =>
          normalize_splits rest (acc ++ [(s, a)])%list (dec_add total a))
      end
  end.

(** Lines 130-145: everything before the atomic block. *)
Definition validate (splits : list SplitDict)
  : result (list (SplitDict * Decimal)) :=
  match splits with
  | [] => Raise (ValidationError "Transaction must have at least one split.")
  | _ =>
      bind (normalize_splits splits [] zero2) (fun '(decimal_splits, total) =>
      bind (quantize total) (fun total =>
      if dec_neb total zero2
      then Raise (ValidationError
                    ("Transaction not balanced: splits sum to "
                     ++ dec_str total))
      else Ok decimal_splits))
  end.

(** Lines 162-173: the account a split refers to. *)
Definition resolve_account (db : DB) (s : SplitDict) : result Account :=
  match account_id s, account_name s with
  | Some k, _ =>
      match find_account db k with
      | Some a => Ok a
      | None =>
          Raise (ValidationError
                   ("Account id " ++ str_of_int k ++ " not found"))
      end
  | None, Some n =>
      match find_account_by_name db n with
      | Some a => Ok a
      | None =>
          Raise (ValidationError ("Account name '" ++ n ++ "' not found"))
      end
  | None, None =>
      Raise (ValidationError
               "Each split requires 'account_id' or 'account_name'")
  end.

(** Lines 161-176, one iteration. *)
Definition create_split (tx : Transaction) (sa : SplitDict * Decimal)
  : M unit :=
  fun db =>
    match resolve_account db (fst sa) with
    | Raise e => (Raise e, db)
    | Ok a => split_insert (transactionID tx) (accountID a) (snd sa) db
    end.

(** Lines 179-182, one iteration. *)
Definition attach_tag (tx : Transaction) (t : string) : M unit :=
  tag_obj <- tag_get_or_create t ;;
  tags_add (transactionID tx) (tag_id tag_obj).

(** [create], with its keyword arguments [ledger_id], [date],
    [description], [splits], [tags], [necessary].
    [description] is a [str], so [description or ""] is [description];
    [tags] is a list, [None] behaving like the empty one. *)
Definition create (ledger_id : Z) (date : option date)
  (description : string) (splits : list SplitDict) (tags : list string)
  (necessary : bool) : M Transaction :=
  fun db =>
    match validate splits with
    | Raise e => (Raise e, db)
    | Ok decimal_splits =>
        atomic
          (fun db =>
             match find_ledger db ledger_id with
             | None =>
                 (Raise (ValidationError
                           ("Ledger id " ++ str_of_int ledger_id
                            ++ " not found")), db)
             | Some ledger =>
                 (tx <- transaction_insert (ledgerID ledger) date
                                           description necessary ;;
                  for_each decimal_splits (create_split tx) ;;;
                  for_each tags (attach_tag tx) ;;;
                  ret tx) db
             end) db
    end.

Definition get (db : DB) (pk : Z) : option Transaction :=
  find (fun t => transactionID t =? pk) (transactions db).

(** The filters of [list], lines 201-209.  A [date] is always true as a
    condition; an [account_id] of 0 and an empty [tag] are not. *)
Definition matches (db : DB) (f : Filters) (t : Transaction) : bool :=
  (match date_from f with Some d => d <=? tx_date t | None => true end)
  && (match date_to f with Some d => tx_date t <=? d | None => true end)
  && (if truthy_int (f_account_id f)
      then match f_account_id f with
           | Some k =>
               existsb (fun s => (split_transaction s =? transactionID t)
                                 && (split_account s =? k)) (splits db)
           | None => true
           end
      else true)
  && (if truthy_str (f_tag f)
      then match f_tag f with
           | Some n => existsb (String.eqb n)
                               (tag_names_of db (transactionID t))
           | None => true
           end
      else true).

(** The queryset of [list] before [order_by("-date")]. *)
Definition list_query (db : DB) (f : Filters) : list Transaction :=
  filter (matches db f) (transactions db).


End DjangoTransactionsRepo.

(** *** In-memory repositories *)

Module InMemory.

Record _AccountStub : Type := mkAccountStub {
  a_id : Z;                       (* id *)
  a_name : string;                (* name *)
  a_type : string;                (* type *)
  a_ledger_id : Z                 (* ledger_id *)
}.

Record _SplitStub : Type := mkSplitStub {
  s_account_id : Z;               (* account_id *)
  s_amount : Decimal              (* amount *)
}.

Record _TransactionStub : Type := mkTransactionStub {
  t_id : Z;                       (* id *)
  t_date : date;                  (* date *)
  t_description : string;         (* description *)
  t_necessary : bool;             (* necessary *)
  t_tags : list string;           (* tags *)
  t_splits : list _SplitStub;     (* splits *)
  t_ledger_id : Z                 (* ledger_id *)
}.

(** The two repositories; the transactions repository holds a reference
    to the accounts repository, so both live in one state.  A [_store]
    dict is the list of its values in insertion order; keys are handed out
    by an increasing counter and never reused. *)
Record Mem : Type := mkMem {
  acc_store : list _AccountStub;  (* InMemoryAccountsRepo._store *)
  acc_next : Z;                   (* InMemoryAccountsRepo._next *)
  tx_store : list _TransactionStub; (* InMemoryTransactionsRepo._store *)
  tx_next : Z                     (* InMemoryTransactionsRepo._next *)
}.

Definition empty_mem : Mem := mkMem [] 1 [] 1.

Module InMemoryAccountsRepo.

Definition create (name type : string) (ledger_id : Z) (m : Mem)
  : _AccountStub * Mem :=
  let obj := mkAccountStub (acc_next m) name type ledger_id in
  (obj, mkMem (acc_store m ++ [obj]) (acc_next m + 1) (tx_store m)
              (tx_next m)).

Definition get (m : Mem) (pk : Z) : option _AccountStub :=
  find (fun a => a_id a =? pk) (acc_store m).

Definition get_by_name (m : Mem) (name : string) : option _AccountStub :=
  find (fun a => String.eqb (a_name a) name) (acc_store m).

(** [sorted(list(self._store.values()), key=lambda a: a.name)]: names
    compare by code point and the sort is stable, so accounts of one name
    keep the order of the store. *)
Fixpoint insert_by_name (x : _AccountStub) (l : list _AccountStub)
  : list _AccountStub :=
  match l with
  | [] => [x]
  | y :: r =>
      if String.ltb (a_name y) (a_name x) then y :: insert_by_name x r
      else x :: l
  end.

(** [list]; named [list_accounts], [list] being the type of lists. *)
Definition list_accounts (m : Mem) : list _AccountStub :=
  fold_right insert_by_name [] (acc_store m).

End InMemoryAccountsRepo.

Module InMemoryTransactionsRepo.

(** The [try] covers the conversion and the quantization. *)
Definition _normalize_amount (raw : PyVal) : result Decimal :=
  let invalid := Raise (ValidationError ("Invalid amount: " ++ py_str raw)) in
  match Decimal_of_str raw with
  | None => invalid
  | Some d =>
      match quantize d with
      | Ok q => Ok q
      | Raise _ => invalid
      end
  end.

(** Lines 297-306: the account id of a split. *)
Definition resolve_account_id (m : Mem) (s : SplitDict) : result Z :=
  match account_id s, account_name s with
  | Some k, _ => Ok k
  | None, Some n =>
      match InMemoryAccountsRepo.get_by_name m n with
      | Some acc => Ok (a_id acc)
      | None =>
          Raise (ValidationError ("Account name '" ++ n ++ "' not found"))
      end
  | None, None =>
      Raise (ValidationError
               "Each split needs 'account_id' or 'account_name'")
  end.

(** Lines 293-309: the loop over the splits. *)
Fixpoint build_splits (m : Mem) (splits : list SplitDict)
  (acc : list _SplitStub) (total : Decimal)
  : result (list _SplitStub * Decimal) :=
  match splits with
  | [] => Ok (acc, total)
  | s :: rest =>
      match amount s with
      | None => Raise (ValidationError "Missing amount in split")
      | Some raw =>
          bind (_normalize_amount raw) (fun amt =>
          bind (resolve_account_id m s) (fun account_id =>
          build_splits m rest (acc ++ [mkSplitStub account_id amt])%list
                       (dec_add total amt)))
      end
  end.

(** [create]; [description] is a [str] and [tags] a list, as for the
    Django repository.  Nothing is stored before the last check. *)
Definition create (ledger_id : Z) (date : date) (description : string)
  (splits : list SplitDict) (tags : list string) (necessary : bool)
  (m : Mem) : result _TransactionStub * Mem :=
  match splits with
  | [] => (Raise (ValidationError "Transaction must have splits"), m)
  | _ =>
      match build_splits m splits [] zero2 with
      | Raise e => (Raise e, m)
      | Ok (decimal_splits, total) =>
          match quantize total with
          | Raise e => (Raise e, m)
          | Ok total =>
              if dec_neb total zero2
              then (Raise (ValidationError
                             ("Transaction not balanced: sum="
                              ++ dec_str total)), m)
              else
                let tx := mkTransactionStub (tx_next m) date description
                            necessary tags decimal_splits ledger_id in
                (Ok tx,
                 mkMem (acc_store m) (acc_next m) (tx_store m ++ [tx])
                       (tx_next m + 1))
          end
      end
  end.

Definition get (m : Mem) (pk : Z) : option _TransactionStub :=
  find (fun t => t_id t =? pk) (tx_store m).

(** Lines 338-345: the four list comprehensions. *)
Definition matches (f : Filters) (r : _TransactionStub) : bool :=
  (match date_from f with Some d => d <=? t_date r | None => true end)
  && (match date_to f with Some d => t_date r <=? d | None => true end)
  && (if truthy_int (f_account_id f)
      then match f_account_id f with
           | Some k => existsb (fun s => s_account_id s =? k) (t_splits r)
           | None => true
           end
      else true)
  && (if truthy_str (f_tag f)
      then match f_tag f with
           | Some n => existsb (String.eqb n) (t_tags r)
           | None => true
           end
      else true).

(** [sorted(results, key=lambda r: r.date, reverse=True)]: the sort is
    stable, also with [reverse=True], so records of one date keep their
    order in [results]. *)
Fixpoint insert_desc (x : _TransactionStub) (l : list _TransactionStub)
  : list _TransactionStub :=
  match l with
  | [] => [x]
  | y :: r => if t_date x <? t_date y then y :: insert_desc x r else x :: l
  end.

Definition sorted_by_date_desc (l : list _TransactionStub)
  : list _TransactionStub :=
  fold_right insert_desc [] l.

(** [list]; named [list_transactions], [list] being the type of lists. *)
Definition list_transactions (m : Mem) (f : Filters)
  : list _TransactionStub :=
  sorted_by_date_desc (filter (matches f) (tx_store m)).

End InMemoryTransactionsRepo.

End InMemory.

(* ================================================================= *)
(** ** [backend/services/import_service.py] *)

Module ImportService.

(** A rule as the matcher sees it: a dict whose keys may be absent. *)
Record RuleDict : Type := mkRuleDict {
  matcher_type : option string;
  matcher : option string;
  category : option string;
  necessary : option bool
}.

(** A row of [csv.DictReader], a dict.  [columns] holds the names of the
    header in file order, each with its cell, [None] for a cell that a
    short line does not have.  A line with more cells than the header has
    names gets one more key, [None], with the list of the surplus cells:
    [restkey] is that entry when the dict has it. *)
Record Row : Type := mkRow {
  columns : list (string * option string);
  restkey : option (list string)          (* row[None] *)
}.

(** The value under a key of the rules document, or the list a loader
    returns: a list of rules, or [None]. *)
Definition Rules : Type := option (list RuleDict).

(** What [yaml.safe_load] hands to [_load_rules_from_yaml_bytes]: an
    empty document ([None]), a mapping, given by what it has under the
    key "rules" (nothing, [null], or a list of rules), or a list of
    rules.  Documents of other shapes, and rules whose fields are not
    strings and booleans, are outside the model. *)
Inductive Yaml : Type :=
| YNone
| YDict (rules_key : option Rules)      (* "rules" in parsed, parsed["rules"] *)
| YList (l : list RuleDict).

(** The library calls of the module.
    - [re_search p t] is [re.search(p, t, flags=re.IGNORECASE)]: [None]
      when [p] does not compile ([re.error]), else whether a match exists;
    - [csv_DictReader b] is the rows of
      [csv.DictReader(io.StringIO(b.decode("utf-8-sig", errors="replace")))];
    - [yaml_safe_load b] is [yaml.safe_load(b.decode("utf-8"))];
    - [strptime s f] is [datetime.strptime(s, f).date()] and
      [fromisoformat s] is [datetime.fromisoformat(s).date()], [None] when
      they raise;
    - [today] is [timezone.now().date()]. *)
Record Libs : Type := mkLibs {
  re_search : string -> string -> option bool;
  csv_DictReader : string -> list Row;
  yaml_safe_load : string -> result Yaml;
  strptime : string -> string -> option date;
  fromisoformat : string -> option date;
  today : date
}.

Definition _compute_hash (file_bytes : string) (rules_bytes : option string)
  : string :=
  let h := Sha256.new in
  let h := Sha256.update h file_bytes in
  let h :=
    if truthy_str rules_bytes
    then match rules_bytes with
         | Some r => Sha256.update (Sha256.update h "::RULES::") r
         | None => h
         end
    else h in
  Sha256.hexdigest h.

Definition _parse_amount (s : option string) : result Decimal :=
  match s with
  | None => Raise (ValueError "Amount missing")
  | Some s =>
      let s := strip s in
      let s := remove_char "," s in
      let s :=
        if startswith "(" s && endswith_char ")" s
        then "-" ++ slice_1_m1 s
        else s in
      match Decimal_of_string s with
      | Some d => Ok d
      | None => Raise conversion_error
      end
  end.

Section WithLibs.

Context (L : Libs).

Definition _parse_date (s : option string) : option date :=
  let s := strip (match s with Some x => x | None => "" end) in
  if is_empty s then None
  else
    let fmts := ["%Y-%m-%d"; "%d/%m/%Y"; "%m/%d/%Y"; "%d-%m-%Y"]%list in
    let fix try (fs : list string) : option date :=
      match fs with
      | [] => fromisoformat L s
      | f :: r =>
          match strptime L s f with
          | Some d => Some d
          | None => try r
          end
      end in
    try fmts.

(** The value returned is the list of the document, an empty list for
    an empty document or a mapping without the key "rules", and whatever
    the mapping has under "rules" otherwise, [None] included. *)
Definition _load_rules_from_yaml_bytes (b : string) : result Rules :=
  if is_empty b then Ok (Some [])
  else
    bind (yaml_safe_load L b) (fun parsed =>
    match parsed with
    | YNone => Ok (Some [])
    | YDict (Some rs) => Ok rs            (* parsed.get("rules", []) *)
    | YDict None => Ok (Some [])
    | YList rs => Ok (Some rs)
    end).

(** [[k.strip() for k in matcher.split(",") if k.strip()]] *)
Definition keywords (matcher : string) : list string :=
  map strip (filter (fun k => negb (is_empty (strip k))) (split "," matcher)).

Fixpoint _match_rule (text : string) (rules_list : list RuleDict)
  : option RuleDict :=
  let txt := lower text in
  match rules_list with
  | [] => None
  | r :: rest =>
      let mt := match matcher_type r with Some t => t | None => "keyword" end in
      if truthy_str (matcher r) then
        match matcher r with
        | Some m =>
            if String.eqb mt "keyword" then
              if existsb (fun kw => contains (lower kw) txt) (keywords m)
              then Some r
              else _match_rule text rest
            else if String.eqb mt "regex" then
              match re_search L m text with
              | Some true => Some r
              | Some false => _match_rule text rest
              | None => _match_rule text rest        (* re.error *)
              end
            else _match_rule text rest
        | None => _match_rule text rest
        end
      else _match_rule text rest
  end.

Definition _ensure_account (account_name fallback_type : string)
  (ledger_id : Z) : M Account :=
  fun db =>
    match DjangoAccountsRepo.get_by_name db account_name with
    | Some acc =>
        if acc_ledger acc =? ledger_id then (Ok acc, db)
        else DjangoAccountsRepo.create account_name fallback_type None true
               ledger_id db
    | None =>
        DjangoAccountsRepo.create account_name fallback_type None true
          ledger_id db
    end.

Record CSVImportResult : Type := mkCSVImportResult {
  created_count : Z;
  skipped : bool;
  import_record : option ImportRecord;
  errors : list string
}.

Definition detect_type_from_name (name : string) : string :=
  let n := lower name in
  if contains "asset" n then "ASSET"
  else if contains "liabil" n then "LIABILITY"
  else if contains "income" n then "INCOME"
  else if contains "expense" n then "EXPENSE"
  else "ASSET".

(** *** One row of the loop *)

(** [row.get(k)] and [k in row], for a string [k] *)
Definition row_get (row : Row) (k : string) : option string :=
  match find (fun p => String.eqb (fst p) k) (columns row) with
  | Some (_, v) => v
  | None => None
  end.

Definition row_has (row : Row) (k : string) : bool :=
  existsb (fun p => String.eqb (fst p) k) (columns row).

Definition none_has_no_lower : exn :=
  AttributeError "'NoneType' object has no attribute 'lower'".

(** Line 197, [low_keys = {k.lower(): k for k in row.keys()}]: the key
    [None] of a row with surplus cells has no [lower]. *)
Definition low_keys (row : Row) : result unit :=
  match restkey row with
  | Some _ => Raise none_has_no_lower
  | None => Ok tt
  end.

(** [low_keys.get(c)], once [low_keys] is built: of the columns whose
    lower-cased name is [c], the last one. *)
Definition low_keys_get (row : Row) (c : string) : option string :=
  find (fun k => String.eqb (lower k) c) (rev (map fst (columns row))).

(** [a or b or ...] over optional column names. *)
Fixpoint first_key (row : Row) (cs : list string) : option string :=
  match cs with
  | [] => None
  | c :: r =>
      match low_keys_get row c with
      | Some k => if is_empty k then first_key row r else Some k
      | None => first_key row r
      end
  end.

(** Lines 198-205, reached when line 197 did not raise. *)
Definition find_amount_key (row : Row) : option string :=
  match first_key row ["amount"; "amt"; "value"; "transaction amount"] with
  | Some k => Some k
  | None =>
      find (fun k => startswith "amount" (lower k)) (map fst (columns row))
  end.

(** Lines 197-205: the column of the amount, [None] when the row has
    none. *)
Definition detect_amount_key (row : Row) : result (option string) :=
  bind (low_keys row) (fun _ => Ok (find_amount_key row)).

(** [str(v or "")] for a cell. *)
Definition cell_text (v : option string) : string :=
  match v with Some s => s | None => "" end.

(** Lines 268-275. *)
Definition parse_tags (row : Row) (tag_key : option string) : list string :=
  match tag_key with
  | None => []
  | Some k =>
      if truthy_str (row_get row k) then
        let tag_string := cell_text (row_get row k) in
        let sep := if contains "|" tag_string then "|"%char else ","%char in
        filter (fun t => negb (is_empty t)) (map strip (split sep tag_string))
      else []
  end.

(** [-amount]: the context rounds the result of unary minus. *)
Definition py_neg (d : Decimal) : Decimal := fix_prec (dec_neg d).

Definition none_not_iterable : exn :=
  TypeError "argument of type 'NoneType' is not iterable".

Definition none_object_not_iterable : exn :=
  TypeError "'NoneType' object is not iterable".

(** [_match_rule(text, rules_list)] for what a loader returned: the loop
    of [_match_rule] over [None] raises. *)
Definition match_rules (text : string) (rules_list : Rules)
  : result (option RuleDict) :=
  match rules_list with
  | Some l => Ok (_match_rule text l)
  | None => Raise none_object_not_iterable
  end.

(** Lines 212-286: the body of the [try] once an amount column is found.
    It returns the created transaction or raises. *)
Definition row_body (rules_list : Rules) (ledger_id : Z)
  (asset_acc : Account) (row : Row) (amount_key : string) : M Transaction :=
  let date_key := first_key row ["date"; "transaction date"] in
  let payee_key := first_key row ["payee"; "description"; "merchant"] in
  let tag_key := first_key row ["tags"; "tag"] in
  amount <- lift (_parse_amount (row_get row amount_key)) ;;
  let tx_date :=
    match date_key with
    | Some k => _parse_date (row_get row k)
    | None => Some (today L)
    end in
  let payee_text :=
    match payee_key with
    | Some k => if row_has row k then cell_text (row_get row k) else ""
    | None => ""
    end in
  let desc_text :=
    if row_has row "desc" then cell_text (row_get row "desc")
    else match low_keys_get row "description" with
         | Some desc_key => cell_text (row_get row desc_key)
         | None => ""
         end in
  let combined_text := strip (payee_text ++ " " ++ desc_text) in
  let combined_text :=
    if is_empty combined_text then "Imported Transaction"
    else combined_text in
  matched_rule <- lift (match_rules combined_text rules_list) ;;
  let '(category, necessary) :=
    match matched_rule with
    | Some matched_rule =>
        (category matched_rule,
         match necessary matched_rule with Some b => b | None => false end)
    | None =>
        (Some (if dec_ltb amount (mkDec 0 0)
               then "Expenses:Uncategorized"
               else "Income:Uncategorized"), false)
    end in
  category <- lift (match category with
                    | Some c => Ok c
                    | None => Raise none_not_iterable
                    end) ;;
  let '(category_name, cat_type) :=
    if negb (contains ":" category) then
      if dec_ltb amount (mkDec 0 0)
      then ("Expenses:" ++ category, "EXPENSE")
      else ("Income:" ++ category, "INCOME")
    else (category, detect_type_from_name category) in
  category_acc <- _ensure_account category_name cat_type ledger_id ;;
  let splits :=
    [ mkSplitDict (Some (PyDec amount)) (Some (accountID asset_acc)) None;
      mkSplitDict (Some (PyDec (py_neg amount)))
                  (Some (accountID category_acc)) None ]%list in
  let tags := parse_tags row tag_key in
  DjangoTransactionsRepo.create ledger_id tx_date combined_text splits tags
    necessary.

(** The counters of the loop: [created], [errors], [created_tx_ids]. *)
Record Progress : Type := mkProgress {
  created : Z;
  row_errors : list string;
  created_tx_ids : list Z
}.

(** One iteration, with its [try]/[except]: an exception ends the row and
    is recorded, that of line 197 included; what the row stored outside an
    atomic block stays. *)
Definition process_row (rules_list : Rules) (ledger_id : Z)
  (asset_acc : Account) (idx : Z) (row : Row) (p : Progress) : M Progress :=
  fun db =>
    match detect_amount_key row with
    | Raise e =>
        (Ok (mkProgress (created p)
               (row_errors p
                ++ ["row " ++ str_of_int idx ++ ": " ++ exn_str e])
               (created_tx_ids p)), db)
    | Ok None =>
        (Ok (mkProgress (created p)
               (row_errors p
                ++ ["row " ++ str_of_int idx ++ ": No amount column found"])
               (created_tx_ids p)), db)
    | Ok (Some amount_key) =>
        match row_body rules_list ledger_id asset_acc row amount_key db with
        | (Ok tx, db') =>
            (Ok (mkProgress (created p + 1) (row_errors p)
                   (created_tx_ids p ++ [transactionID tx])), db')
        | (Raise e, db') =>
            (Ok (mkProgress (created p)
                   (row_errors p
                    ++ ["row " ++ str_of_int idx ++ ": " ++ exn_str e])
                   (created_tx_ids p)), db')
        end
    end.

Fixpoint process_rows (rules_list : Rules) (ledger_id : Z)
  (asset_acc : Account) (idx : Z) (rows : list Row) (p : Progress)
  : M Progress :=
  match rows with
  | [] => ret p
  | row :: rest =>
      p' <- process_row rules_list ledger_id asset_acc idx row p ;;
      process_rows rules_list ledger_id asset_acc (idx + 1) rest p'
  end.

(** Lines 164-170: the rules of the store, by [id]. *)
Definition rules_from_db (db : DB) : list RuleDict :=
  map (fun r => mkRuleDict (Some (rule_matcher_type r))
                           (Some (rule_matcher r))
                           (Some (rule_category r))
                           (Some (rule_necessary r)))
      (rules db).

(** Lines 152-303: the import proper, after the idempotency check. *)
Definition run_import (file_bytes : string) (file_name : option string)
  (rules_bytes : option string) (file_hash : string) (ledger_id : Z)
  (asset_account_name : string) : M CSVImportResult :=
  _ <- ledger_get_or_create ledger_id ("ledger_" ++ str_of_int ledger_id) ;;
  rules_list <-
    (fun db =>
       match rules_bytes with
       | Some b =>
           if negb (is_empty b)
           then (_load_rules_from_yaml_bytes b, db)
           else (Ok (Some (rules_from_db db)), db)
       | None => (Ok (Some (rules_from_db db)), db)
       end) ;;
  let reader := csv_DictReader L file_bytes in
  let asset_type := detect_type_from_name asset_account_name in
  asset_acc <- _ensure_account asset_account_name asset_type ledger_id ;;
  p <- process_rows rules_list ledger_id asset_acc 1 reader
         (mkProgress 0 [] []) ;;
  ir <- atomic (import_insert file_hash file_name (created p)
                              (created_tx_ids p) (row_errors p)) ;;
  ret (mkCSVImportResult (created p) false (Some ir) (row_errors p)).

(** [ImportService.import_csv].  [fileobj] is given by the bytes it reads
    and its [name]; [rules_fileobj] by the bytes it reads, when there is
    one; [force_delete_existing] is the instance attribute
    [_force_delete_existing] that the view sets. *)
Definition import_csv (force_delete_existing : bool)
  (file_bytes : string) (file_name : option string)
  (rules_fileobj : option string) (ledger_id : Z)
  (asset_account_name : string) : M CSVImportResult :=
  fun db =>
    let rules_bytes := rules_fileobj in
    let file_hash := _compute_hash file_bytes rules_bytes in
    let rerun :=
      run_import file_bytes file_name rules_bytes file_hash ledger_id
        asset_account_name in
    match find_import db file_hash with
    | Some existing =>
        if force_delete_existing then
          (import_delete existing ;;; rerun) db
        else if 0 <? imported_count existing then
          (Ok (mkCSVImportResult (imported_count existing) true
                 (Some existing) []), db)
        else
          (import_delete existing ;;; rerun) db
    | None => rerun db
    end.

End WithLibs.

End ImportService.

(* ================================================================= *)
(** ** [backend/services/account_service.py] *)

Module AccountService.

(** How a call ends.  The module uses the name [ValidationError] without
    defining or importing it, so both of its [raise] statements end in a
    [NameError]; an exception of the repository passes through. *)
Inductive outcome (A : Type) : Type :=
| Returned (a : A)
| Raised (e : exn)
| NameError (msg : string).

Arguments Returned {A} a.
Arguments Raised {A} e.
Arguments NameError {A} msg.

Definition account_types : list string :=
  ["ASSET"; "LIABILITY"; "EQUITY"; "INCOME"; "EXPENSE"].

Definition undefined_name : string := "name 'ValidationError' is not defined".

(** [create_account(name, account_type, parent, is_active)]; the
    repository is called without [ledger_id], which defaults to 1. *)
Definition create_account (name account_type : string) (parent : option Z)
  (is_active : bool) (db : DB) : outcome Account * DB :=
  if is_empty name then (NameError undefined_name, db)
  else if negb (existsb (String.eqb account_type) account_types)
  then (NameError undefined_name, db)
  else
    match DjangoAccountsRepo.create name account_type parent is_active 1 db
    with
    | (Ok account, db') => (Returned account, db')
    | (Raise e, db') => (Raised e, db')
    end.

(** [get_account] *)
Definition get_account (db : DB) (account_id : Z) : option Account :=
  DjangoAccountsRepo.get db account_id.

End AccountService.

Import InMemory.
Import ImportService.

(* ================================================================= *)
(** ** Notions used to state the properties *)

(** A decimal as [_normalize_amount] returns it: two decimal places,
    at most [prec] digits. *)
Definition normalized (d : Decimal) : Prop :=
  expo d = cents /\ Z.abs (coef d) < 10 ^ prec.

(** The amounts of the splits after normalization by [norm], when every
    split has an amount that [norm] accepts. *)
Fixpoint normalized_amounts (norm : PyVal -> result Decimal)
  (splits : list SplitDict) : option (list Decimal) :=
  match splits with
  | [] => Some []
  | s :: rest =>
      match amount s with
      | None => None
      | Some raw =>
          match norm raw, normalized_amounts norm rest with
          | Ok a, Some l => Some (a :: l)
          | _, _ => None
          end
      end
  end.





(** No two accounts with the same ledger and name. *)
Definition unique_ledger_name (db : DB) : Prop :=
  NoDup (map (fun a => (acc_ledger a, acc_name a)) (accounts db)).

(** Referential integrity of the keys handed out so far: no split refers
    to a transaction that does not exist yet. *)
Definition splits_wf (db : DB) : Prop :=
  Forall (fun s => split_transaction s < next_transaction db) (splits db).

(** Whether a split's account reference resolves in the store. *)
Definition resolves (db : DB) (s : SplitDict) : bool :=
  match DjangoTransactionsRepo.resolve_account db s with
  | Ok _ => true
  | Raise _ => false
  end.




(** Letters, digits and the space: a pattern made of them matches as a
    case-insensitive substring. *)
Definition literal_char (c : ascii) : bool :=
  let n := code c in
  is_digit c || (n =? 32) || ((65 <=? n) && (n <=? 90))
  || ((97 <=? n) && (n <=? 122)).

(** A stand-in for the libraries in closed examples.  Its [re_search]
    agrees with [re] on the empty pattern and on patterns of letters,
    digits and spaces; the examples use no other pattern and no file
    content. *)
Definition example_libs : Libs :=
  mkLibs (fun p t => if all_chars literal_char p
                     then Some (contains (lower p) (lower t))
                     else None)
         (fun _ => [])
         (fun _ => Ok YNone)
         (fun _ _ => None)
         (fun _ => None)
         738000.

(** What the loops of the atomic block of [create] leave alone. *)
Definition keeps_accounts_and_transactions (db db' : DB) : Prop :=
  accounts db' = accounts db
  /\ transactions db' = transactions db
  /\ next_transaction db' = next_transaction db
  /\ ledgers db' = ledgers db
  /\ import_records db' = import_records db.

(** The error of the first split whose account does not resolve. *)
Fixpoint first_unresolved (db : DB) (splits : list SplitDict) : option exn :=
  match splits with
  | [] => None
  | s :: rest =>
      match DjangoTransactionsRepo.resolve_account db s with
      | Raise e => Some e
      | Ok _ => first_unresolved db rest
      end
  end.

(** *** Stores and inputs of the closed examples *)

(** A store with ledger 1 and, in it, the account "Cash" with key 1. *)
Definition example_db : DB :=
  snd (DjangoAccountsRepo.create "Cash" "ASSET" None true 1 empty_db).

(** The in-memory repositories with the account "Cash", key 1. *)
Definition example_mem : Mem :=
  snd (InMemoryAccountsRepo.create "Cash" "ASSET" 1 empty_mem).

Definition example_date : date := 738000.

(** A split dict with a string amount and an account key. *)
Definition split_by_id (a : string) (k : Z) : SplitDict :=
  mkSplitDict (Some (PyStr a)) (Some k) None.

(** A split dict with a string amount and an account name. *)
Definition split_by_name (a n : string) : SplitDict :=
  mkSplitDict (Some (PyStr a)) None (Some n).

(** The store of the examples after an import of the file [date,amount]
    that created three transactions. *)
Definition example_import_db : DB :=
  snd (import_insert (_compute_hash "date,amount" None) (Some "bank.csv") 3
         [1; 2; 3] [] example_db).

(** The same after an import that created nothing. *)
Definition example_stale_db : DB :=
  snd (import_insert (_compute_hash "date,amount" None) (Some "bank.csv") 0
         [] ["row 1: No amount column found"] example_db).





(** The store after "Cash" is created twice in ledger 1. *)
Definition example_twice_db : DB :=
  snd (DjangoAccountsRepo.create "Cash" "ASSET" None true 1 example_db).


(** Libraries for scenario 1: whatever the bytes, the reader yields the
    one row of that scenario, and the first date format reads its date. *)
Definition scenario_row : Row :=
  mkRow [("date", Some "2024-01-15"); ("description", Some "Grocery Store");
         ("amount", Some "-50.00")] None.

Definition scenario_libs : Libs :=
  mkLibs (re_search example_libs)
         (fun _ => [scenario_row])
         (fun _ => Ok YNone)
         (fun s f => if String.eqb s "2024-01-15" && String.eqb f "%Y-%m-%d"
                     then Some 738900 else None)
         (fun _ => None)
         example_date.

(** *** Invariants of the stores *)

(** Keys come from the counters: every stored transaction and account has
    a key below the next one to be handed out. *)
Definition keys_wf (db : DB) : Prop :=
  Forall (fun t => transactionID t < next_transaction db) (transactions db)
  /\ Forall (fun a => accountID a < next_account db) (accounts db).

Definition mem_keys_wf (m : Mem) : Prop :=
  Forall (fun t => t_id t < tx_next m) (tx_store m)
  /\ Forall (fun a => a_id a < acc_next m) (acc_store m).

(** [Tag.name] is unique. *)
Definition unique_tag_names (db : DB) : Prop :=
  NoDup (map tag_name (tags db)).

(** [ImportRecord.file_hash] is unique, and so is the key. *)
Definition unique_hashes (db : DB) : Prop :=
  NoDup (map file_hash (import_records db)).

(** Tag keys come from the counter and are not repeated, and no tag is
    attached to a transaction that does not exist yet. *)
Definition tags_wf (db : DB) : Prop :=
  NoDup (map tag_id (tags db))
  /\ Forall (fun t => tag_id t < next_tag db) (tags db)
  /\ Forall (fun p => fst p < next_transaction db) (transaction_tags db).

(** What the loop over the tags of [create] may change: it adds tags and
    attachments and leaves the rest alone. *)
Definition only_tags_grow (db db' : DB) : Prop :=
  (exists t1, tags db' = (tags db ++ t1)%list)
  /\ (exists p1, transaction_tags db' = (transaction_tags db ++ p1)%list)
  /\ keeps_accounts_and_transactions db db'
  /\ splits db' = splits db
  /\ rules db' = rules db
  /\ next_account db' = next_account db
  /\ next_split db' = next_split db.

(** What [_ensure_account] may change: it adds an account, and the ledger
    of that account when it is missing. *)
Definition only_accounts_grow (db db' : DB) : Prop :=
  (exists new, accounts db' = (accounts db ++ new)%list)
  /\ transactions db' = transactions db
  /\ splits db' = splits db
  /\ tags db' = tags db
  /\ transaction_tags db' = transaction_tags db
  /\ import_records db' = import_records db
  /\ rules db' = rules db
  /\ next_transaction db' = next_transaction db
  /\ next_import db' = next_import db.

(** A character of [hexdigest]. *)
Definition is_lower_hex (c : ascii) : bool :=
  let n := code c in
  is_digit c || ((97 <=? n) && (n <=? 102)).

(** Whether a string holds a decimal digit. *)
Fixpoint has_digit (s : string) : bool :=
  match s with
  | EmptyString => false
  | String c r => is_digit c || has_digit r
  end.

(** A column the importer reads the amount from: its name, lower-cased,
    is one of the four candidates or starts with "amount". *)
Definition amount_candidates : list string :=
  ["amount"; "amt"; "value"; "transaction amount"].

Definition is_amount_column (k : string) : bool :=
  existsb (String.eqb (lower k)) amount_candidates
  || startswith "amount" (lower k).

(** The account types the importer assigns. *)
Definition importer_types : list string :=
  ["ASSET"; "LIABILITY"; "INCOME"; "EXPENSE"].

(** A balanced transaction with one tag, stored in both repositories. *)
Definition example_splits : list SplitDict :=
  [split_by_id "5.00" 1; split_by_id "-5.00" 1].

Definition example_tx : Transaction :=
  mkTransaction 1 1 example_date "lunch" true.

Definition example_created_db : DB :=
  snd (DjangoTransactionsRepo.create 1 (Some example_date) "lunch"
         example_splits ["food"] true example_db).

Definition example_stub : _TransactionStub :=
  mkTransactionStub 1 example_date "lunch" true ["food"]
    [mkSplitStub 1 (mkDec 500 (-2)); mkSplitStub 1 (mkDec (-500) (-2))] 1.

Definition example_created_mem : Mem :=
  snd (InMemoryTransactionsRepo.create 1 example_date "lunch" example_splits
         ["food"] true example_mem).

(** The import of scenario 1, its result and the store it leaves. *)
Definition scenario_import : result CSVImportResult * DB :=
  import_csv scenario_libs false "bytes" (Some "bank.csv") None 1
    "ASSET:Bank" empty_db.

Definition scenario_result : CSVImportResult :=
  match fst scenario_import with
  | Ok res => res
  | Raise _ => mkCSVImportResult 0 false None []
  end.

Definition scenario_db : DB := snd scenario_import.

(** An account as the importer creates it: in the ledger of the import,
    of one of the four types, without parent, active. *)
Definition imported_account (l : Z) (a : Account) : Prop :=
  acc_ledger a = l
  /\ In (account_type a) importer_types
  /\ acc_parent a = None
  /\ is_active a = true.

(** An account as [AccountService.create_account] lets it through: a
    name that is not empty and one of the five account types. *)
Definition service_account (a : Account) : Prop :=
  acc_name a <> "" /\ In (account_type a) AccountService.account_types.

(** A tag or keyword as the importer keeps it: not empty, no whitespace
    around it. *)
Definition trimmed (t : string) : Prop := t <> "" /\ strip t = t.


(** Libraries for a rules file that is not UTF-8: decoding it raises a
    [UnicodeDecodeError], which is a [ValueError]. *)
Definition undecodable_rules : string := String "255"%char EmptyString.

Definition undecodable_libs : Libs :=
  mkLibs (re_search example_libs)
         (fun _ => [scenario_row])
         (fun _ => Raise (ValueError "'utf-8' codec can't decode byte 0xff in position 0: invalid start byte"))
         (strptime scenario_libs)
         (fun _ => None)
         example_date.

(** Libraries for a rules file that reads [rules: null]: the mapping
    has [None] under the key "rules". *)
Definition null_rules_libs : Libs :=
  mkLibs (re_search example_libs)
         (fun _ => [scenario_row])
         (fun _ => Ok (YDict (Some None)))
         (strptime scenario_libs)
         (fun _ => None)
         example_date.


(* ================================================================= *)
(** ** The model on known values *)

Section KnownValues.

Example decimal_literals :
  map Decimal_of_string
    [" 1_234.50 "; "-.5e-3"; "5."; "1E+3"; "."; "1e"; "--5"; "(5)"; ""]
  = [Some (mkDec 123450 (-2)); Some (mkDec (-5) (-4)); Some (mkDec 5 0);
     Some (mkDec 1 3); None; None; None; None; None].
Proof. reflexivity. Qed.

Example decimal_texts :
  map dec_str
    [mkDec 15000 (-2); mkDec (-5) (-2); mkDec 0 (-2); mkDec 5 0;
     mkDec 1 30; mkDec 123 (-10); mkDec 5 (-7); mkDec 15 3]
  = ["150.00"; "-0.05"; "0.00"; "5"; "1E+30"; "1.23E-8"; "5E-7"; "1.5E+4"].
Proof. reflexivity. Qed.

(** [str] and the constructor round-trip. *)
Example decimal_round_trip :
  map (fun d => Decimal_of_string (dec_str d))
    [mkDec 15000 (-2); mkDec (-5) (-2); mkDec 1 30; mkDec 123 (-10)]
  = map Some [mkDec 15000 (-2); mkDec (-5) (-2); mkDec 1 30; mkDec 123 (-10)].
Proof. reflexivity. Qed.

(** Ties go to the even neighbour: 0.005, 0.015, 0.025, -0.015. *)
Example quantize_ties :
  map quantize [mkDec 5 (-3); mkDec 15 (-3); mkDec 25 (-3); mkDec (-15) (-3)]
  = map Ok [mkDec 0 (-2); mkDec 2 (-2); mkDec 2 (-2); mkDec (-2) (-2)].
Proof. reflexivity. Qed.

(** The largest magnitude that still quantizes, and the next power of
    ten. *)
Example quantize_limit :
  quantize (mkDec 1 25) = Ok (mkDec (10 ^ 27) (-2))
  /\ quantize (mkDec 1 26) = Raise quantize_error.
Proof. split; reflexivity. Qed.

(** A sum of 29 digits is rounded to 28. *)
Example addition_rounds :
  dec_add (mkDec (10 ^ 28 - 1) (-2)) (mkDec 5 (-2)) = mkDec (10 ^ 27) (-1).
Proof. reflexivity. Qed.

Example sha256_of_empty :
  Sha256.hexdigest ""
  = "e3b0c44298fc1c149afbf4c8996fb92427ae41e4649b934ca495991b7852b855".
Proof. vm_compute. reflexivity. Qed.

Example sha256_of_abc :
  Sha256.hexdigest "abc"
  = "ba7816bf8f01cfea414140de5dae2223b00361a396177a9cb410ff61f20015ad".
Proof. vm_compute. reflexivity. Qed.

(** Scenario 1: the row of -50.00 for "Grocery Store", no rules: one
    transaction, the asset account at -50.00 and
    "Expenses:Uncategorized", an EXPENSE account, at 50.00. *)
Example scenario_1 :
  let '(r, db) :=
    import_csv scenario_libs false "bytes" (Some "bank.csv") None 1
      "ASSET:Bank" empty_db in
  option_map created_count
    (match r with Ok x => Some x | Raise _ => None end) = Some 1
  /\ option_map errors
       (match r with Ok x => Some x | Raise _ => None end) = Some []
  /\ map (fun a => (acc_name a, account_type a)) (accounts db)
     = [("ASSET:Bank", "ASSET"); ("Expenses:Uncategorized", "EXPENSE")]
  /\ map (fun s => (split_account s, split_amount s)) (splits db)
     = [(1, mkDec (-5000) (-2)); (2, mkDec 5000 (-2))]
  /\ map (fun t => (tx_date t, tx_desc t)) (transactions db)
     = [(738900, "Grocery Store Grocery Store")].
Proof. vm_compute. repeat (split; [reflexivity|]). reflexivity. Qed.

(** Scenario 2: the same upload a second time is skipped, returns the
    prior count, and stores no further transaction. *)
Example scenario_2 :
  let db1 :=
    snd (import_csv scenario_libs false "bytes" (Some "bank.csv") None 1
           "ASSET:Bank" empty_db) in
  let '(r, db2) :=
    import_csv scenario_libs false "bytes" (Some "bank.csv") None 1
      "ASSET:Bank" db1 in
  option_map (fun x => (created_count x, skipped x))
    (match r with Ok x => Some x | Raise _ => None end) = Some (1, true)
  /\ db2 = db1.
Proof. vm_compute. split; reflexivity. Qed.

(** [float()] of decimals: 0.1 and -50.00; 90071992547409.93 and
    90071992547409.94 give the same double, which is neither. *)
Example float_of_decimals :
  map float_of_decimal
    [mkDec 1 (-1); mkDec (-5000) (-2); mkDec 9007199254740993 (-2);
     mkDec 9007199254740994 (-2); mkDec 0 (-2)]
  = [mkFloat 7205759403792794 (-56); mkFloat (-7036874417766400) (-47);
     mkFloat 5764607523034236 (-6); mkFloat 5764607523034236 (-6);
     mkFloat 0 0].
Proof. vm_compute. reflexivity. Qed.

(** A rules file that reads [rules: null]: the loader returns [None],
    every row fails in the rule matcher and the import returns. *)
Example rules_null :
  let '(r, db) :=
    import_csv null_rules_libs false "bytes" (Some "bank.csv")
      (Some "rules: null") 1 "ASSET:Bank" empty_db in
  option_map (fun x => (created_count x, errors x))
    (match r with Ok x => Some x | Raise _ => None end)
  = Some (0, ["row 1: 'NoneType' object is not iterable"])
  /\ transactions db = [].
Proof. vm_compute. split; reflexivity. Qed.

End KnownValues.

(* ================================================================= *)
(** ** Facts about decimals *)

Section DecimalFacts.

Lemma pow10_prec_pos : 0 < 10 ^ prec.
Proof. unfold prec. lia. Qed.

Lemma quantize_normalized (d q : Decimal) :
  quantize d = Ok q -> normalized q.
Proof.
  unfold quantize, normalized.
  destruct (Z.abs (rescale d cents) <? 10 ^ prec) eqn:E; intros H;
    inversion H; subst; simpl.
  apply Z.ltb_lt in E. split; [reflexivity | exact E].
Qed.


Lemma quantize_raises (d : Decimal) (e : exn) :
  quantize d = Raise e ->
  e = quantize_error /\ 10 ^ prec <= Z.abs (rescale d cents).
Proof.
  unfold quantize.
  destruct (Z.abs (rescale d cents) <? 10 ^ prec) eqn:E; intros H;
    inversion H; subst.
  apply Z.ltb_ge in E. split; [reflexivity | exact E].
Qed.

(** Re-quantizing a normalized decimal changes nothing. *)
Lemma quantize_idem (d : Decimal) :
  normalized d -> quantize d = Ok d.
Proof.
  destruct d as [c e]. unfold normalized, quantize, rescale. simpl.
  intros [He Hc]. subst e. simpl.
  rewrite Z.mul_1_r.
  apply Z.ltb_lt in Hc. rewrite Hc. reflexivity.
Qed.

Lemma fix_prec_small (d : Decimal) :
  Z.abs (coef d) < 10 ^ prec -> fix_prec d = d.
Proof.
  intros H. unfold fix_prec. apply Z.ltb_lt in H. rewrite H. reflexivity.
Qed.

(** Adding two decimals of exponent -2 whose sum has at most [prec]
    digits is exact. *)
Lemma dec_add_cents (a b : Decimal) :
  expo a = cents -> expo b = cents ->
  Z.abs (coef a + coef b) < 10 ^ prec ->
  dec_add a b = mkDec (coef a + coef b) cents.
Proof.
  intros Ha Hb H. unfold dec_add, align. rewrite Ha, Hb.
  rewrite Z.min_id, Z.sub_diag. simpl Z.pow. rewrite !Z.mul_1_r.
  apply fix_prec_small. exact H.
Qed.

Lemma dec_add_zero2_l (a : Decimal) :
  normalized a -> dec_add zero2 a = a.
Proof.
  intros [He Hc]. rewrite dec_add_cents; simpl; auto.
  destruct a; simpl in *; subst; reflexivity.
Qed.

(** The integer 0 that [sum] starts from behaves like [Decimal("0.00")]
    in front of a normalized amount. *)
Lemma dec_add_int0_l (a : Decimal) :
  normalized a -> dec_add (mkDec 0 0) a = a.
Proof.
  destruct a as [c e]. intros [He Hc]. simpl in *. subst e.
  unfold dec_add, align. simpl expo. simpl coef.
  replace (Z.min 0 cents) with cents by reflexivity.
  replace (cents - cents) with 0 by reflexivity.
  rewrite Z.mul_0_l, Z.add_0_l. simpl Z.pow. rewrite Z.mul_1_r.
  apply fix_prec_small. exact Hc.
Qed.

Lemma py_sum_from_zero2 (ds : list Decimal) :
  ds <> [] -> Forall normalized ds ->
  py_sum ds = fold_left dec_add ds zero2.
Proof.
  destruct ds as [|a l]; [congruence|].
  intros _ H. inversion H; subst. unfold py_sum. simpl.
  rewrite dec_add_int0_l, dec_add_zero2_l by assumption. reflexivity.
Qed.


Lemma dec_eqb_zero2 (t : Decimal) :
  expo t = cents -> (dec_eqb t zero2 = true <-> coef t = 0).
Proof.
  intros He. unfold dec_eqb, align, zero2. rewrite He. simpl expo. simpl coef.
  rewrite Z.min_id, Z.sub_diag. simpl Z.pow. rewrite Z.mul_1_r.
  simpl. apply Z.eqb_eq.
Qed.

Lemma dec_neb_false_zero2 (t : Decimal) :
  expo t = cents -> dec_neb t zero2 = false -> t = zero2.
Proof.
  intros He H. unfold dec_neb in H. apply negb_false_iff in H.
  apply dec_eqb_zero2 in H; auto.
  destruct t; simpl in *; subst; reflexivity.
Qed.

End DecimalFacts.

(* ================================================================= *)
(** ** The validation loops *)

Section Validation.

Lemma django_normalize_normalized (raw : PyVal) (a : Decimal) :
  DjangoTransactionsRepo._normalize_amount raw = Ok a -> normalized a.
Proof.
  unfold DjangoTransactionsRepo._normalize_amount.
  destruct (Decimal_of_str raw); [apply quantize_normalized | discriminate].
Qed.

Lemma memory_normalize_normalized (raw : PyVal) (a : Decimal) :
  InMemoryTransactionsRepo._normalize_amount raw = Ok a -> normalized a.
Proof.
  unfold InMemoryTransactionsRepo._normalize_amount.
  destruct (Decimal_of_str raw) as [d|]; [|discriminate].
  destruct (quantize d) eqn:E; [|discriminate].
  intros H. inversion H; subst. eapply quantize_normalized; eauto.
Qed.

Lemma normalized_amounts_Forall (norm : PyVal -> result Decimal)
  (splits : list SplitDict) (ds : list Decimal) :
  (forall raw a, norm raw = Ok a -> normalized a) ->
  normalized_amounts norm splits = Some ds ->
  Forall normalized ds /\ List.length ds = List.length splits.
Proof.
  intros Hn. revert ds. induction splits as [|s rest IH]; intros ds H.
  - inversion H. split; [constructor | reflexivity].
  - simpl in H. destruct (amount s) as [raw|]; [|discriminate].
    destruct (norm raw) eqn:E; [|discriminate].
    destruct (normalized_amounts norm rest) as [l|]; [|discriminate].
    inversion H; subst. destruct (IH l eq_refl) as [HF HL].
    split; [constructor; eauto | simpl; congruence].
Qed.

(** The Django loop, run on splits whose amounts all normalize. *)
Lemma normalize_splits_spec (splits : list SplitDict) :
  forall acc total ds,
  normalized_amounts DjangoTransactionsRepo._normalize_amount splits = Some ds ->
  DjangoTransactionsRepo.normalize_splits splits acc total
  = Ok ((acc ++ combine splits ds)%list, fold_left dec_add ds total).
Proof.
  induction splits as [|s rest IH]; intros acc total ds H.
  - inversion H. simpl. rewrite app_nil_r. reflexivity.
  - simpl in H. simpl. destruct (amount s) as [raw|]; [|discriminate].
    destruct (DjangoTransactionsRepo._normalize_amount raw) eqn:E;
      [|discriminate].
    destruct (normalized_amounts _ rest) as [l|] eqn:El; [|discriminate].
    inversion H; subst. simpl. rewrite (IH _ _ l eq_refl).
    rewrite <- app_assoc. reflexivity.
Qed.

Lemma normalize_splits_inv (splits : list SplitDict) :
  forall acc total acc' total',
  DjangoTransactionsRepo.normalize_splits splits acc total = Ok (acc', total') ->
  exists ds,
    normalized_amounts DjangoTransactionsRepo._normalize_amount splits
    = Some ds
    /\ acc' = (acc ++ combine splits ds)%list
    /\ total' = fold_left dec_add ds total.
Proof.
  induction splits as [|s rest IH]; intros acc total acc' total' H.
  - inversion H; subst. exists []. simpl. rewrite app_nil_r. auto.
  - simpl in H. destruct (amount s) as [raw|] eqn:Ea; [|discriminate].
    destruct (DjangoTransactionsRepo._normalize_amount raw) eqn:E;
      [|discriminate].
    simpl in H. apply IH in H. destruct H as [l [Hl [Hacc Ht]]].
    exists (a :: l). simpl. rewrite Ea, E, Hl.
    rewrite <- app_assoc in Hacc. auto.
Qed.

(** What the Django repository accepts: a non-empty list of splits whose
    amounts normalize, with a total that quantizes to 0.00. *)
Lemma validate_ok_iff (splits : list SplitDict)
  (dsl : list (SplitDict * Decimal)) :
  DjangoTransactionsRepo.validate splits = Ok dsl <->
  splits <> [] /\
  exists ds,
    normalized_amounts DjangoTransactionsRepo._normalize_amount splits
    = Some ds
    /\ dsl = combine splits ds
    /\ quantize (fold_left dec_add ds zero2) = Ok zero2.
Proof.
  unfold DjangoTransactionsRepo.validate. split.
  - destruct splits as [|s rest]; [discriminate|].
    remember (s :: rest) as sp eqn:Hsp.
    destruct (DjangoTransactionsRepo.normalize_splits sp [] zero2)
      as [[acc total]|] eqn:E; [|discriminate].
    simpl. destruct (quantize total) as [t|] eqn:Eq; [|discriminate].
    simpl. destruct (dec_neb t zero2) eqn:En; [discriminate|].
    intros H. inversion H; subst dsl. split; [subst; discriminate|].
    apply normalize_splits_inv in E. destruct E as [ds [Hds [Hacc Ht]]].
    exists ds. simpl in Hacc. repeat split; auto. subst total.
    rewrite Eq. f_equal. apply dec_neb_false_zero2; auto.
    apply quantize_normalized in Eq. apply Eq.
  - intros [Hne [ds [Hds [Hd Hq]]]].
    destruct splits as [|s rest]; [congruence|].
    remember (s :: rest) as sp eqn:Hsp.
    rewrite (normalize_splits_spec sp [] zero2 ds Hds). simpl.
    rewrite Hq. simpl. subst dsl. reflexivity.
Qed.

(** A total that quantizes to a non-zero value is reported. *)
Lemma validate_unbalanced (splits : list SplitDict) (ds : list Decimal)
  (t : Decimal) :
  normalized_amounts DjangoTransactionsRepo._normalize_amount splits = Some ds ->
  quantize (fold_left dec_add ds zero2) = Ok t ->
  dec_neb t zero2 = true ->
  DjangoTransactionsRepo.validate splits
  = Raise (ValidationError
             ("Transaction not balanced: splits sum to " ++ dec_str t)).
Proof.
  intros Hds Hq Hn. unfold DjangoTransactionsRepo.validate.
  destruct splits as [|s rest].
  - inversion Hds; subst. simpl in Hq. inversion Hq; subst. discriminate.
  - remember (s :: rest) as sp.
    rewrite (normalize_splits_spec sp [] zero2 ds Hds). simpl.
    rewrite Hq. simpl. rewrite Hn. reflexivity.
Qed.

(** The in-memory loop: on success the stubs carry the normalized
    amounts, in order. *)
Lemma build_splits_inv (m : Mem) (splits : list SplitDict) :
  forall acc total acc' total',
  InMemoryTransactionsRepo.build_splits m splits acc total
  = Ok (acc', total') ->
  exists ds,
    normalized_amounts InMemoryTransactionsRepo._normalize_amount splits
    = Some ds
    /\ map s_amount acc' = (map s_amount acc ++ ds)%list
    /\ total' = fold_left dec_add ds total.
Proof.
  induction splits as [|s rest IH]; intros acc total acc' total' H.
  - inversion H; subst. exists []. simpl. rewrite app_nil_r. auto.
  - simpl in H. destruct (amount s) as [raw|] eqn:Ea; [|discriminate].
    destruct (InMemoryTransactionsRepo._normalize_amount raw) eqn:E;
      [|discriminate].
    simpl in H.
    destruct (InMemoryTransactionsRepo.resolve_account_id m s) eqn:Er;
      [|discriminate].
    simpl in H. apply IH in H. destruct H as [l [Hl [Hacc Ht]]].
    exists (a :: l). simpl. rewrite Ea, E, Hl.
    rewrite map_app in Hacc. simpl in Hacc. rewrite <- app_assoc in Hacc.
    auto.
Qed.

(** When every account reference resolves, the in-memory loop gets to
    the end and the total is the sum of the normalized amounts. *)
Lemma build_splits_spec (m : Mem) (splits : list SplitDict) :
  forall acc total ds,
  normalized_amounts InMemoryTransactionsRepo._normalize_amount splits
  = Some ds ->
  Forall (fun s => exists k,
            InMemoryTransactionsRepo.resolve_account_id m s = Ok k) splits ->
  exists acc',
    InMemoryTransactionsRepo.build_splits m splits acc total
    = Ok (acc', fold_left dec_add ds total).
Proof.
  induction splits as [|s rest IH]; intros acc total ds H HF.
  - inversion H. simpl. eauto.
  - simpl in H. simpl. destruct (amount s) as [raw|]; [|discriminate].
    destruct (InMemoryTransactionsRepo._normalize_amount raw) eqn:E;
      [|discriminate].
    destruct (normalized_amounts _ rest) as [l|] eqn:El; [|discriminate].
    inversion H; subst. inversion HF as [|? ? [k Hk] HF']; subst.
    simpl. rewrite Hk. simpl. apply IH; auto.
Qed.

(** Whatever the in-memory loop raises is a [ValidationError]. *)
Lemma build_splits_raises (m : Mem) (splits : list SplitDict) :
  forall acc total e,
  InMemoryTransactionsRepo.build_splits m splits acc total = Raise e ->
  is_ValidationError e = true.
Proof.
  induction splits as [|s rest IH]; intros acc total e H.
  - discriminate.
  - simpl in H. destruct (amount s) as [raw|].
    + unfold InMemoryTransactionsRepo._normalize_amount in H.
      destruct (Decimal_of_str raw) as [d|].
      * destruct (quantize d).
        -- simpl in H.
           unfold InMemoryTransactionsRepo.resolve_account_id in H.
           destruct (account_id s).
           ++ simpl in H. eapply IH; eauto.
           ++ destruct (account_name s).
              ** destruct (InMemoryAccountsRepo.get_by_name m s0).
                 --- simpl in H. eapply IH; eauto.
                 --- inversion H. reflexivity.
              ** inversion H. reflexivity.
        -- inversion H. reflexivity.
      * inversion H. reflexivity.
    + inversion H. reflexivity.
Qed.

End Validation.

(* ================================================================= *)
(** ** The atomic block of [DjangoTransactionsRepo.create] *)

Section AtomicBlock.

Lemma keeps_refl (db : DB) : keeps_accounts_and_transactions db db.
Proof. unfold keeps_accounts_and_transactions. auto. Qed.

Lemma keeps_trans (a b c : DB) :
  keeps_accounts_and_transactions a b ->
  keeps_accounts_and_transactions b c ->
  keeps_accounts_and_transactions a c.
Proof.
  unfold keeps_accounts_and_transactions.
  intros [? [? [? [? ?]]]] [? [? [? [? ?]]]].
  repeat split; congruence.
Qed.

Lemma resolve_account_ext (db db' : DB) (s : SplitDict) :
  accounts db' = accounts db ->
  DjangoTransactionsRepo.resolve_account db' s
  = DjangoTransactionsRepo.resolve_account db s.
Proof.
  intros H. unfold DjangoTransactionsRepo.resolve_account,
    find_account, find_account_by_name. rewrite H. reflexivity.
Qed.

Lemma resolve_account_kind (db : DB) (s : SplitDict) (e : exn) :
  DjangoTransactionsRepo.resolve_account db s = Raise e ->
  is_ValidationError e = true.
Proof.
  unfold DjangoTransactionsRepo.resolve_account.
  destruct (account_id s) as [k|].
  - destruct (find_account db k); intros H; inversion H; reflexivity.
  - destruct (account_name s) as [n|].
    + destruct (find_account_by_name db n); intros H; inversion H;
        reflexivity.
    + intros H; inversion H; reflexivity.
Qed.

(** The split loop, when it completes, appends one row per split, in
    order, with the normalized amounts, all for the new transaction. *)
Lemma create_splits_ok (tx : Transaction)
  (dsl : list (SplitDict * Decimal)) :
  forall db db' u,
  for_each dsl (DjangoTransactionsRepo.create_split tx) db = (Ok u, db') ->
  keeps_accounts_and_transactions db db'
  /\ exists news,
       splits db' = (splits db ++ news)%list
       /\ map split_amount news = map snd dsl
       /\ Forall (fun s => split_transaction s = transactionID tx) news
       /\ Forall (fun sa => resolves db (fst sa) = true) dsl.
Proof.
  induction dsl as [|[s a] rest IH]; intros db db' u H.
  - simpl in H. inversion H; subst. split; [apply keeps_refl|].
    exists []. rewrite app_nil_r. repeat split; constructor.
  - simpl in H. unfold mbind in H.
    unfold DjangoTransactionsRepo.create_split in H at 1. simpl fst in H.
    simpl snd in H.
    destruct (DjangoTransactionsRepo.resolve_account db s) as [acc|] eqn:Er;
      [|discriminate].
    unfold split_insert in H at 1.
    match type of H with
    | for_each _ _ ?d = _ => remember d as db1 eqn:Hdb1
    end.
    apply IH in H. destruct H as [Hk [news [Hs [Ha [Ht Hr]]]]].
    assert (K1 : keeps_accounts_and_transactions db db1).
    { subst db1. unfold keeps_accounts_and_transactions. simpl. auto. }
    split; [eapply keeps_trans; eauto|].
    exists (mkSplit (next_split db) (transactionID tx) (accountID acc) a
              (float_of_decimal a)
            :: news).
    repeat split.
    + rewrite Hs. subst db1. simpl. rewrite <- app_assoc. reflexivity.
    + simpl. f_equal. exact Ha.
    + constructor; [reflexivity | exact Ht].
    + constructor.
      * unfold resolves. simpl. rewrite Er. reflexivity.
      * eapply Forall_impl; [|exact Hr]. intros sa Hsa.
        unfold resolves in *. destruct K1 as [Hacc _].
        rewrite (resolve_account_ext db db1) in Hsa; auto.
Qed.

(** The split loop stops at the first split whose account does not
    resolve, with the error of that split. *)
Lemma create_splits_raises (tx : Transaction)
  (dsl : list (SplitDict * Decimal)) :
  forall db0 db e,
  accounts db = accounts db0 ->
  first_unresolved db0 (map fst dsl) = Some e ->
  exists db', for_each dsl (DjangoTransactionsRepo.create_split tx) db
              = (Raise e, db').
Proof.
  induction dsl as [|[s a] rest IH]; intros db0 db e Hacc H.
  - discriminate.
  - simpl in H. simpl. unfold mbind.
    unfold DjangoTransactionsRepo.create_split at 1. simpl fst. simpl snd.
    rewrite (resolve_account_ext db0 db s Hacc).
    destruct (DjangoTransactionsRepo.resolve_account db0 s) as [acc|] eqn:Er.
    + unfold split_insert at 1. eapply IH; eauto.
    + inversion H; subst. eauto.
Qed.

Lemma first_unresolved_exists (db : DB) (splits : list SplitDict) :
  (exists s, In s splits /\ resolves db s = false) ->
  exists e, first_unresolved db splits = Some e
            /\ is_ValidationError e = true.
Proof.
  induction splits as [|s rest IH]; intros [x [Hin Hx]].
  - destruct Hin.
  - simpl. destruct (DjangoTransactionsRepo.resolve_account db s) eqn:Er.
    + apply IH. destruct Hin as [->|Hin].
      * unfold resolves in Hx. rewrite Er in Hx. discriminate.
      * eauto.
    + exists e. split; [reflexivity|]. eapply resolve_account_kind; eauto.
Qed.

Lemma create_splits_raise_kind (tx : Transaction)
  (dsl : list (SplitDict * Decimal)) :
  forall db db' e,
  for_each dsl (DjangoTransactionsRepo.create_split tx) db = (Raise e, db') ->
  is_ValidationError e = true.
Proof.
  induction dsl as [|[s a] rest IH]; intros db db' e H.
  - discriminate.
  - simpl in H. unfold mbind in H.
    unfold DjangoTransactionsRepo.create_split in H at 1. simpl fst in H.
    simpl snd in H.
    destruct (DjangoTransactionsRepo.resolve_account db s) as [acc|] eqn:Er.
    + unfold split_insert in H at 1. eapply IH; eauto.
    + inversion H; subst. eapply resolve_account_kind; eauto.
Qed.

(** Attaching tags never raises and touches neither splits nor
    transactions. *)
Lemma attach_tags_ok (tx : Transaction) (tgs : list string) :
  forall db,
  exists db',
    for_each tgs (DjangoTransactionsRepo.attach_tag tx) db = (Ok tt, db')
    /\ keeps_accounts_and_transactions db db'
    /\ splits db' = splits db.
Proof.
  induction tgs as [|t rest IH]; intros db.
  - exists db. simpl. split; [reflexivity|]. split; [apply keeps_refl|auto].
  - simpl. unfold mbind.
    unfold DjangoTransactionsRepo.attach_tag at 1. unfold mbind.
    unfold tag_get_or_create, tags_add.
    destruct (find_tag db t) as [tg|].
    + destruct (existsb _ (transaction_tags db)).
      * apply IH.
      * match goal with
        | |- context [for_each _ _ ?d] => destruct (IH d) as [db' [H1 [H2 H3]]]
        end.
        exists db'. split; [exact H1|]. split; [|exact H3].
        eapply keeps_trans; [|exact H2].
        unfold keeps_accounts_and_transactions; simpl; auto.
    + simpl.
      match goal with
      | |- context [if ?c then _ else _] => destruct c
      end.
      * match goal with
        | |- context [for_each _ _ ?d] => destruct (IH d) as [db' [H1 [H2 H3]]]
        end.
        exists db'. split; [exact H1|]. split; [|exact H3].
        eapply keeps_trans; [|exact H2].
        unfold keeps_accounts_and_transactions; simpl; auto.
      * match goal with
        | |- context [for_each _ _ ?d] => destruct (IH d) as [db' [H1 [H2 H3]]]
        end.
        exists db'. split; [exact H1|]. split; [|exact H3].
        eapply keeps_trans; [|exact H2].
        unfold keeps_accounts_and_transactions; simpl; auto.
Qed.

End AtomicBlock.

(* ================================================================= *)
(** ** [DjangoTransactionsRepo.create] as a whole *)

Section DjangoCreate.

Lemma normalize_splits_raise_kind (splits : list SplitDict) :
  forall acc total e,
  DjangoTransactionsRepo.normalize_splits splits acc total = Raise e ->
  is_ValidationError e = true \/ e = quantize_error.
Proof.
  induction splits as [|s rest IH]; intros acc total e H.
  - discriminate.
  - simpl in H. destruct (amount s) as [raw|].
    + unfold DjangoTransactionsRepo._normalize_amount in H.
      destruct (Decimal_of_str raw) as [d|].
      * destruct (quantize d) eqn:Eq.
        -- simpl in H. eapply IH; eauto.
        -- simpl in H. inversion H; subst. right.
           apply quantize_raises in Eq. apply Eq.
      * inversion H. left. reflexivity.
    + inversion H. left. reflexivity.
Qed.

Lemma validate_raise_kind (splits : list SplitDict) (e : exn) :
  DjangoTransactionsRepo.validate splits = Raise e ->
  is_ValidationError e = true \/ e = quantize_error.
Proof.
  unfold DjangoTransactionsRepo.validate.
  destruct splits as [|s rest].
  - intros H; inversion H. left. reflexivity.
  - remember (s :: rest) as sp.
    destruct (DjangoTransactionsRepo.normalize_splits sp [] zero2)
      as [[acc total]|] eqn:E.
    + simpl. destruct (quantize total) as [t|] eqn:Eq.
      * simpl. destruct (dec_neb t zero2); intros H; inversion H.
        left. reflexivity.
      * simpl. intros H; inversion H; subst. right.
        apply quantize_raises in Eq. apply Eq.
    + simpl. intros H; inversion H; subst.
      eapply normalize_splits_raise_kind; eauto.
Qed.

(** A failing [create] leaves the store as it found it, and raises a
    [ValidationError], the [InvalidOperation] of a quantization, or the
    [IntegrityError] of a missing date. *)
Lemma create_raises (l : Z) (d : option date) (de : string)
  (sp : list SplitDict) (tg : list string) (nec : bool) (db db' : DB)
  (e : exn) :
  DjangoTransactionsRepo.create l d de sp tg nec db = (Raise e, db') ->
  db' = db
  /\ (is_ValidationError e = true \/ e = quantize_error
      \/ e = date_null_error).
Proof.
  unfold DjangoTransactionsRepo.create.
  destruct (DjangoTransactionsRepo.validate sp) as [dsl|e0] eqn:Ev.
  - unfold atomic.
    match goal with
    | |- (match ?x with _ => _ end) = _ -> _ => destruct x as [[tx|e1] db1] eqn:Eb
    end.
    + discriminate.
    + intros H; inversion H as [[He Hd]]; clear H. subst e1. subst db'.
      split; [reflexivity|].
      destruct (find_ledger db l) as [ledger|].
      * unfold mbind in Eb. unfold transaction_insert in Eb at 1.
        destruct d as [dv|].
        -- match type of Eb with
           | context [for_each dsl ?f ?d0] =>
               destruct (for_each dsl f d0) as [[u|e2] db2] eqn:Ef
           end.
           ++ match type of Eb with
              | context [for_each tg ?f ?d0] =>
                  destruct (attach_tags_ok
                              (mkTransaction (next_transaction db)
                                 (ledgerID ledger) dv de nec) tg d0)
                    as [db3 [Ht _]]
              end.
              rewrite Ht in Eb. discriminate.
           ++ inversion Eb; subst. left.
              eapply create_splits_raise_kind; eauto.
        -- inversion Eb; subst. right. right. reflexivity.
      * inversion Eb. left. reflexivity.
  - intros H; inversion H; subst. split; [reflexivity|].
    destruct (validate_raise_kind _ _ Ev); auto.
Qed.

(** What a successful [create] has done. *)
Lemma create_ok_inv (l : Z) (d : option date) (de : string)
  (sp : list SplitDict) (tg : list string) (nec : bool) (db db' : DB)
  (tx : Transaction) :
  DjangoTransactionsRepo.create l d de sp tg nec db = (Ok tx, db') ->
  exists ds dv ledger news,
    sp <> []
    /\ normalized_amounts DjangoTransactionsRepo._normalize_amount sp = Some ds
    /\ quantize (fold_left dec_add ds zero2) = Ok zero2
    /\ d = Some dv
    /\ find_ledger db l = Some ledger
    /\ tx = mkTransaction (next_transaction db) (ledgerID ledger) dv de nec
    /\ transactions db' = (transactions db ++ [tx])%list
    /\ splits db' = (splits db ++ news)%list
    /\ map split_amount news = ds
    /\ Forall (fun s => split_transaction s = transactionID tx) news
    /\ Forall (fun s => resolves db s = true) sp
    /\ next_transaction db' = next_transaction db + 1.
Proof.
  unfold DjangoTransactionsRepo.create.
  destruct (DjangoTransactionsRepo.validate sp) as [dsl|e0] eqn:Ev;
    [|discriminate].
  apply validate_ok_iff in Ev. destruct Ev as [Hne [ds [Hds [Hdsl Hq]]]].
  unfold atomic.
  match goal with
  | |- (match ?x with _ => _ end) = _ -> _ => destruct x as [[tx1|e1] db1] eqn:Eb
  end; [|discriminate].
  intros H; inversion H; subst tx1 db1. clear H.
  destruct (find_ledger db l) as [ledger|] eqn:El; [|discriminate].
  unfold mbind in Eb. unfold transaction_insert in Eb at 1.
  destruct d as [dv|]; [|discriminate].
  match type of Eb with
  | context [for_each dsl ?f ?d0] =>
      destruct (for_each dsl f d0) as [[u|e2] db2] eqn:Ef; [|discriminate]
  end.
  match type of Eb with
  | context [for_each tg ?f ?d0] =>
      destruct (attach_tags_ok
                  (mkTransaction (next_transaction db)
                     (ledgerID ledger) dv de nec) tg d0)
        as [db3 [Ht [Hk3 Hs3]]]
  end.
  rewrite Ht in Eb. unfold ret in Eb. inversion Eb; subst tx db3. clear Eb.
  apply create_splits_ok in Ef.
  destruct Ef as [Hk2 [news [Hs2 [Ha [Htx Hr]]]]].
  assert (Hlen : List.length ds = List.length sp).
  { eapply normalized_amounts_Forall; eauto.
    apply django_normalize_normalized. }
  exists ds, dv, ledger, news.
  destruct Hk2 as [A2 [T2 [N2 _]]]. destruct Hk3 as [A3 [T3 [N3 _]]].
  simpl in *.
  assert (Hamounts : map split_amount news = ds).
  { rewrite Ha, Hdsl. clear -Hlen. revert ds Hlen.
    induction sp as [|s r IH]; intros [|a ds] Hlen; simpl in *;
      try discriminate; auto.
    f_equal. apply IH. congruence. }
  assert (Hresolve : Forall (fun s => resolves db s = true) sp).
  { subst dsl. clear -Hr Hlen. revert ds Hlen Hr.
    induction sp as [|s r IH]; intros [|a ds] Hlen Hr; simpl in *;
      try discriminate; constructor.
    - inversion Hr; subst. simpl in *.
      unfold resolves in *. erewrite <- resolve_account_ext; eauto.
    - inversion Hr; subst. eapply IH; eauto. }
  repeat split; auto; congruence.
Qed.

(** When every account reference resolves the split loop completes. *)
Lemma create_splits_succeed (tx : Transaction)
  (dsl : list (SplitDict * Decimal)) :
  forall db0 db,
  accounts db = accounts db0 ->
  Forall (fun sa => resolves db0 (fst sa) = true) dsl ->
  exists db', for_each dsl (DjangoTransactionsRepo.create_split tx) db
              = (Ok tt, db').
Proof.
  induction dsl as [|[s a] rest IH]; intros db0 db Hacc HF.
  - simpl. unfold ret. eauto.
  - inversion HF as [|? ? Hs Hrest]; subst. simpl. unfold mbind.
    unfold DjangoTransactionsRepo.create_split at 1. simpl fst. simpl snd.
    simpl in Hs. unfold resolves in Hs.
    rewrite (resolve_account_ext db0 db s Hacc).
    destruct (DjangoTransactionsRepo.resolve_account db0 s) as [acc|];
      [|discriminate].
    unfold split_insert at 1. eapply IH; eauto.
Qed.

(** Validation passed, ledger present, date given, accounts resolved:
    [create] succeeds. *)
Lemma create_succeeds (l : Z) (dv : date) (de : string)
  (sp : list SplitDict) (tg : list string) (nec : bool) (db : DB)
  (dsl : list (SplitDict * Decimal)) (ledger : Ledger) :
  DjangoTransactionsRepo.validate sp = Ok dsl ->
  find_ledger db l = Some ledger ->
  Forall (fun s => resolves db s = true) sp ->
  exists db',
    DjangoTransactionsRepo.create l (Some dv) de sp tg nec db
    = (Ok (mkTransaction (next_transaction db) (ledgerID ledger) dv de nec),
       db').
Proof.
  intros Hv Hl Hr. unfold DjangoTransactionsRepo.create. rewrite Hv.
  unfold atomic. rewrite Hl. unfold mbind.
  unfold transaction_insert at 1.
  apply validate_ok_iff in Hv. destruct Hv as [_ [ds [Hds [Hdsl _]]]].
  assert (HF : Forall (fun sa => resolves db (fst sa) = true) dsl).
  { subst dsl. clear -Hr. revert ds.
    induction sp as [|s r IH]; intros [|a ds]; simpl; constructor.
    - inversion Hr; auto.
    - inversion Hr; subst. apply IH; auto. }
  match goal with
  | |- context [for_each dsl ?f ?d0] =>
      destruct (create_splits_succeed
                  (mkTransaction (next_transaction db) (ledgerID ledger)
                     dv de nec) dsl db d0 eq_refl HF) as [db2 E2]
  end.
  rewrite E2.
  destruct (attach_tags_ok
              (mkTransaction (next_transaction db) (ledgerID ledger)
                 dv de nec) tg db2) as [db3 [E3 _]].
  rewrite E3. unfold ret. eauto.
Qed.

(** With a split whose account does not resolve, [create] fails, and
    when all the earlier steps pass it fails with the error of the first
    such split. *)
Lemma create_unresolved (l : Z) (dv : date) (de : string)
  (sp : list SplitDict) (tg : list string) (nec : bool) (db : DB)
  (dsl : list (SplitDict * Decimal)) (ledger : Ledger) (e : exn) :
  DjangoTransactionsRepo.validate sp = Ok dsl ->
  find_ledger db l = Some ledger ->
  first_unresolved db sp = Some e ->
  DjangoTransactionsRepo.create l (Some dv) de sp tg nec db = (Raise e, db).
Proof.
  intros Hv Hl Hu. unfold DjangoTransactionsRepo.create. rewrite Hv.
  unfold atomic. rewrite Hl. unfold mbind.
  unfold transaction_insert at 1.
  apply validate_ok_iff in Hv. destruct Hv as [_ [ds [Hds [Hdsl _]]]].
  assert (Hlen : List.length ds = List.length sp).
  { eapply normalized_amounts_Forall; eauto.
    apply django_normalize_normalized. }
  assert (Hfst : map fst dsl = sp).
  { subst dsl. clear -Hlen. revert ds Hlen.
    induction sp as [|s r IH]; intros [|a ds] Hlen; simpl in *;
      try discriminate; auto.
    f_equal. apply IH. congruence. }
  rewrite <- Hfst in Hu.
  match goal with
  | |- context [for_each dsl ?f ?d0] =>
      destruct (create_splits_raises
                  (mkTransaction (next_transaction db) (ledgerID ledger)
                     dv de nec) dsl db d0 e eq_refl Hu) as [db2 E2]
  end.
  rewrite E2. reflexivity.
Qed.

(** The integrity condition on splits holds in the empty store and
    [create] keeps it. *)
Lemma splits_wf_empty : splits_wf empty_db.
Proof. constructor. Qed.

Lemma create_keeps_splits_wf (l : Z) (d : option date) (de : string)
  (sp : list SplitDict) (tg : list string) (nec : bool) (db db' : DB)
  (r : result Transaction) :
  splits_wf db ->
  DjangoTransactionsRepo.create l d de sp tg nec db = (r, db') ->
  splits_wf db'.
Proof.
  intros Hwf Hc. destruct r as [tx|e].
  - apply create_ok_inv in Hc.
    destruct Hc as [ds [dv [ledger [news Hi]]]].
    destruct Hi as [_ [_ [_ [_ [_ [Htx [_ [Hs [_ [Hn [_ Hnext]]]]]]]]]]].
    unfold splits_wf in *. rewrite Hs, Hnext. apply Forall_app. split.
    + eapply Forall_impl; [|exact Hwf]. simpl. intros a Ha. lia.
    + eapply Forall_impl; [|exact Hn]. simpl. intros a Ha.
      rewrite Ha. subst tx. simpl. lia.
  - apply create_raises in Hc. destruct Hc as [-> _]. exact Hwf.
Qed.

End DjangoCreate.

(* ================================================================= *)
(** ** [InMemoryTransactionsRepo.create] as a whole *)

Section MemoryCreate.

Lemma memory_create_ok_inv (l : Z) (d : date) (de : string)
  (sp : list SplitDict) (tg : list string) (nec : bool) (m m' : Mem)
  (tx : _TransactionStub) :
  InMemoryTransactionsRepo.create l d de sp tg nec m = (Ok tx, m') ->
  exists ds,
    sp <> []
    /\ normalized_amounts InMemoryTransactionsRepo._normalize_amount sp
       = Some ds
    /\ quantize (fold_left dec_add ds zero2) = Ok zero2
    /\ map s_amount (t_splits tx) = ds
    /\ tx_store m' = (tx_store m ++ [tx])%list
    /\ t_id tx = tx_next m.
Proof.
  unfold InMemoryTransactionsRepo.create.
  destruct sp as [|s rest]; [discriminate|].
  remember (s :: rest) as sp0 eqn:Hsp.
  destruct (InMemoryTransactionsRepo.build_splits m sp0 [] zero2)
    as [[acc total]|] eqn:Eb; [|discriminate].
  destruct (quantize total) as [t|] eqn:Eq; [|discriminate].
  destruct (dec_neb t zero2) eqn:En; [discriminate|].
  intros H; inversion H; subst tx m'. clear H. simpl.
  apply build_splits_inv in Eb. destruct Eb as [ds [Hds [Hacc Ht]]].
  exists ds. simpl in Hacc. subst total.
  repeat split; auto.
  - subst sp0. discriminate.
  - rewrite Eq. f_equal. apply dec_neb_false_zero2; auto.
    apply quantize_normalized in Eq. apply Eq.
Qed.

Lemma memory_create_raises (l : Z) (d : date) (de : string)
  (sp : list SplitDict) (tg : list string) (nec : bool) (m m' : Mem)
  (e : exn) :
  InMemoryTransactionsRepo.create l d de sp tg nec m = (Raise e, m') ->
  m' = m /\ (is_ValidationError e = true \/ e = quantize_error).
Proof.
  unfold InMemoryTransactionsRepo.create.
  destruct sp as [|s rest].
  - intros H; inversion H. auto.
  - remember (s :: rest) as sp0 eqn:Hsp.
    destruct (InMemoryTransactionsRepo.build_splits m sp0 [] zero2)
      as [[acc total]|e0] eqn:Eb.
    + destruct (quantize total) as [t|] eqn:Eq.
      * destruct (dec_neb t zero2); intros H; inversion H. auto.
      * intros H; inversion H; subst. split; [reflexivity|]. right.
        apply quantize_raises in Eq. apply Eq.
    + intros H; inversion H; subst. split; [reflexivity|]. left.
      eapply build_splits_raises; eauto.
Qed.

End MemoryCreate.

(* ================================================================= *)
(** ** Strings *)

Section StringFacts.

Lemma startswith_refl (s : string) : startswith s s = true.
Proof.
  induction s as [|c r IH]; simpl; [reflexivity|].
  rewrite Ascii.eqb_refl. exact IH.
Qed.

Lemma startswith_app (p s : string) : startswith p (p ++ s) = true.
Proof.
  induction p as [|c r IH]; simpl; [reflexivity|].
  rewrite Ascii.eqb_refl. exact IH.
Qed.

(** A message built as [prefix ++ s] contains [s]. *)
Lemma contains_suffix (p s : string) : contains s (p ++ s) = true.
Proof.
  induction p as [|c r IH]; simpl.
  - destruct s; simpl; [reflexivity|].
    rewrite Ascii.eqb_refl, startswith_refl. reflexivity.
  - rewrite IH. apply orb_true_r.
Qed.

End StringFacts.

(* ================================================================= *)
(** ** The balance invariant *)

Section Balance.

Lemma splits_of_new (db db' : DB) (news : list Split) (k : Z) :
  splits_wf db ->
  k = next_transaction db ->
  splits db' = (splits db ++ news)%list ->
  Forall (fun s => split_transaction s = k) news ->
  splits_of db' k = news.
Proof.
  intros Hwf Hk Hs Hn. unfold splits_of. rewrite Hs, filter_app.
  assert (H1 : filter (fun s => split_transaction s =? k) (splits db) = []).
  { unfold splits_wf in Hwf. clear -Hwf Hk.
    induction (splits db) as [|s r IH]; [reflexivity|].
    inversion Hwf; subst. simpl.
    destruct (Z.eqb_spec (split_transaction s) (next_transaction db));
      [lia | auto]. }
  rewrite H1. simpl. clear -Hn.
  induction news as [|s r IH]; [reflexivity|].
  inversion Hn; subst. simpl. rewrite Z.eqb_refl. f_equal. auto.
Qed.

Lemma py_sum_total (ds : list Decimal) (t : Decimal) :
  Forall normalized ds ->
  quantize (py_sum ds) = Ok t -> dec_neb t zero2 = true ->
  ds <> [] /\ quantize (fold_left dec_add ds zero2) = Ok t.
Proof.
  intros HF Hq Hn. destruct ds as [|a l].
  - unfold py_sum in Hq. simpl in Hq. inversion Hq; subst. discriminate.
  - split; [discriminate|]. rewrite <- py_sum_from_zero2; auto.
    discriminate.
Qed.

(** The in-memory repository on splits whose normalized sum is not
    zero. *)
Lemma memory_create_unbalanced (l : Z) (de : string) (sp : list SplitDict)
  (tg : list string) (nec : bool) (d : date) (m : Mem) (ds : list Decimal)
  (t : Decimal) :
  normalized_amounts InMemoryTransactionsRepo._normalize_amount sp
  = Some ds ->
  quantize (py_sum ds) = Ok t -> dec_neb t zero2 = true ->
  exists msg,
    InMemoryTransactionsRepo.create l d de sp tg nec m
    = (Raise (ValidationError msg), m)
    /\ (Forall (fun s => exists k,
                  InMemoryTransactionsRepo.resolve_account_id m s
                  = Ok k) sp ->
        msg = "Transaction not balanced: sum=" ++ dec_str t
        /\ contains (dec_str t) msg = true).
Proof.
  intros Hds Hq Hn.
  destruct (normalized_amounts_Forall _ sp ds
              memory_normalize_normalized Hds) as [HF HL].
  destruct (py_sum_total ds t HF Hq Hn) as [Hne Hq'].
  destruct (InMemoryTransactionsRepo.create l d de sp tg nec m)
    as [[tx|e] m'] eqn:Ec.
  + exfalso. apply memory_create_ok_inv in Ec.
    destruct Ec as [ds' [_ [Hds' [Hq0 _]]]].
    rewrite Hds in Hds'. inversion Hds'; subst ds'.
    rewrite Hq' in Hq0. inversion Hq0; subst t. discriminate.
  + pose proof Ec as Ec'. apply memory_create_raises in Ec'.
    destruct Ec' as [Hm Hk]. subst m'.
    assert (Hv : exists msg, e = ValidationError msg).
    { destruct Hk as [Hk|Hk].
      - destruct e; try discriminate. eauto.
      - exfalso. subst e. revert Ec.
        unfold InMemoryTransactionsRepo.create.
        destruct sp as [|s rest]; [discriminate|].
        remember (s :: rest) as sp0.
        destruct (InMemoryTransactionsRepo.build_splits m sp0 [] zero2)
          as [[acc total]|e0] eqn:Eb.
        + apply build_splits_inv in Eb.
          destruct Eb as [ds' [Hds' [_ Ht]]].
          rewrite Hds in Hds'. inversion Hds'; subst ds'. subst total.
          rewrite Hq'. destruct (dec_neb t zero2); discriminate.
        + intros H; inversion H; subst e0.
          apply build_splits_raises in Eb. discriminate. }
    destruct Hv as [msg Hmsg]. subst e. exists msg.
    split; [reflexivity|]. intros Hres.
    revert Ec. unfold InMemoryTransactionsRepo.create.
    destruct sp as [|s rest];
      [simpl in Hds; inversion Hds; subst; congruence|].
    remember (s :: rest) as sp0.
    destruct (build_splits_spec m sp0 [] zero2 ds Hds Hres) as [acc' Eb].
    rewrite Eb, Hq', Hn. intros H.
    assert (Hm : msg = "Transaction not balanced: sum=" ++ dec_str t)
      by (inversion H; reflexivity).
    rewrite Hm. split; [reflexivity | apply contains_suffix].
Qed.

(** The balance invariant.  A transaction that [create] returns has split
    amounts whose sum, quantized to two places, is 0.00, in the Django
    store and in the in-memory one.  A list of splits whose normalized sum
    is not zero is refused with a [ValidationError] and the store stays as
    it was; the message carries the sum in the Django store, and in the
    in-memory store when every account reference resolves. *)
Theorem create_balance_invariant (l : Z) (de : string) (sp : list SplitDict)
  (tg : list string) (nec : bool) :
  (forall d db db' tx,
     splits_wf db ->
     DjangoTransactionsRepo.create l d de sp tg nec db = (Ok tx, db') ->
     quantize (py_sum (map split_amount (splits_of db' (transactionID tx))))
     = Ok zero2)
  /\ (forall d db ds t,
        normalized_amounts DjangoTransactionsRepo._normalize_amount sp
        = Some ds ->
        quantize (py_sum ds) = Ok t -> dec_neb t zero2 = true ->
        exists msg,
          DjangoTransactionsRepo.create l d de sp tg nec db
          = (Raise (ValidationError msg), db)
          /\ msg = "Transaction not balanced: splits sum to " ++ dec_str t
          /\ contains (dec_str t) msg = true)
  /\ (forall d m m' tx,
        InMemoryTransactionsRepo.create l d de sp tg nec m = (Ok tx, m') ->
        quantize (py_sum (map s_amount (t_splits tx))) = Ok zero2
        /\ tx_store m' = (tx_store m ++ [tx])%list)
  /\ (forall d m ds t,
        normalized_amounts InMemoryTransactionsRepo._normalize_amount sp
        = Some ds ->
        quantize (py_sum ds) = Ok t -> dec_neb t zero2 = true ->
        exists msg,
          InMemoryTransactionsRepo.create l d de sp tg nec m
          = (Raise (ValidationError msg), m)
          /\ (Forall (fun s => exists k,
                        InMemoryTransactionsRepo.resolve_account_id m s
                        = Ok k) sp ->
              msg = "Transaction not balanced: sum=" ++ dec_str t
              /\ contains (dec_str t) msg = true)).
Proof.
  split; [|split; [|split]].
  - intros d db db' tx Hwf H.
    apply create_ok_inv in H.
    destruct H as [ds [dv [ledger [news H]]]].
    destruct H as [Hne [Hds [Hq [_ [_ [Htx [_ [Hs [Ha [Hn _]]]]]]]]]].
    rewrite (splits_of_new db db' news (transactionID tx)); auto.
    + rewrite Ha.
      destruct (normalized_amounts_Forall _ sp ds
                  django_normalize_normalized Hds) as [HF HL].
      rewrite py_sum_from_zero2; auto.
      destruct ds; [|discriminate]. destruct sp; [congruence|discriminate].
    + subst tx. reflexivity.
  - intros d db ds t Hds Hq Hn.
    destruct (normalized_amounts_Forall _ sp ds
                django_normalize_normalized Hds) as [HF _].
    destruct (py_sum_total ds t HF Hq Hn) as [_ Hq'].
    exists ("Transaction not balanced: splits sum to " ++ dec_str t).
    split; [|split; [reflexivity | apply contains_suffix]].
    unfold DjangoTransactionsRepo.create.
    rewrite (validate_unbalanced sp ds t Hds Hq' Hn). reflexivity.
  - intros d m m' tx H. apply memory_create_ok_inv in H.
    destruct H as [ds [Hne [Hds [Hq [Ha [Hs _]]]]]].
    split; [|exact Hs]. rewrite Ha.
    destruct (normalized_amounts_Forall _ sp ds
                memory_normalize_normalized Hds) as [HF HL].
    rewrite py_sum_from_zero2; auto.
    destruct ds; [|discriminate]. destruct sp; [congruence|discriminate].
  - intros d m ds t Hds Hq Hn.
    eapply memory_create_unbalanced; eauto.
Qed.

End Balance.

Section BalanceExamples.

(** Scenario 3 in the Django repository: 100.00 and 50.00 are refused and
    the message names 150.00; 100.00 and -100.00 are stored and the stored
    amounts add up to 0.00. *)
Lemma create_balance_invariant_example :
  (exists msg,
     DjangoTransactionsRepo.create 1 (Some example_date) "rent"
       [split_by_id "100.00" 1; split_by_id "50.00" 1] [] true example_db
     = (Raise (ValidationError msg), example_db)
     /\ msg = "Transaction not balanced: splits sum to "
              ++ dec_str (mkDec 15000 (-2))
     /\ contains (dec_str (mkDec 15000 (-2))) msg = true)
  /\ quantize
       (py_sum
          (map split_amount
             (splits_of
                (snd (DjangoTransactionsRepo.create 1 (Some example_date)
                        "rent"
                        [split_by_id "100.00" 1; split_by_id "-100.00" 1]
                        [] true example_db)) 1)))
     = Ok zero2.
Proof.
  split.
  - destruct (create_balance_invariant 1 "rent"
                [split_by_id "100.00" 1; split_by_id "50.00" 1] [] true)
      as [_ [H _]].
    apply (H (Some example_date) example_db
             [mkDec 10000 (-2); mkDec 5000 (-2)] (mkDec 15000 (-2)));
      vm_compute; reflexivity.
  - destruct (create_balance_invariant 1 "rent"
                [split_by_id "100.00" 1; split_by_id "-100.00" 1] [] true)
      as [H _].
    apply (H (Some example_date) example_db
             (snd (DjangoTransactionsRepo.create 1 (Some example_date)
                     "rent"
                     [split_by_id "100.00" 1; split_by_id "-100.00" 1]
                     [] true example_db))
             (mkTransaction 1 1 example_date "rent" true)).
    + vm_compute. constructor.
    + vm_compute. reflexivity.
Defined.

(** C1.  The splits 100.00 and 50.00, normalized sum 150.00, given to both
    repositories with an account name that does not exist.  The Django
    repository refuses them for their sum, which its message carries.  The
    in-memory repository looks the account up inside the loop that adds
    the amounts, before it compares the total with 0.00: its
    [ValidationError] names the account and not the sum.  Both leave
    their store as it was. *)
Lemma C1_in_memory_failing_input :
  DjangoTransactionsRepo.create 1 (Some example_date) "rent"
    [split_by_name "100.00" "Ghost"; split_by_name "50.00" "Ghost"]
    [] true example_db
  = (Raise (ValidationError
              "Transaction not balanced: splits sum to 150.00"),
     example_db)
  /\ contains "150.00" "Transaction not balanced: splits sum to 150.00"
     = true
  /\ normalized_amounts InMemoryTransactionsRepo._normalize_amount
       [split_by_name "100.00" "Ghost"; split_by_name "50.00" "Ghost"]
     = Some [mkDec 10000 (-2); mkDec 5000 (-2)]
  /\ quantize (py_sum [mkDec 10000 (-2); mkDec 5000 (-2)])
     = Ok (mkDec 15000 (-2))
  /\ dec_str (mkDec 15000 (-2)) = "150.00"
  /\ InMemoryTransactionsRepo.create 1 example_date "rent"
       [split_by_name "100.00" "Ghost"; split_by_name "50.00" "Ghost"]
       [] true example_mem
     = (Raise (ValidationError "Account name 'Ghost' not found"),
        example_mem)
  /\ contains "150.00" "Account name 'Ghost' not found" = false.
Proof. vm_compute. repeat (split; [reflexivity|]). reflexivity. Qed.

End BalanceExamples.

(* ================================================================= *)
(** ** The number of splits *)

Section SplitCount.

Lemma single_total (q : Decimal) :
  normalized q -> quantize (fold_left dec_add [q] zero2) = Ok q.
Proof.
  intros H. simpl. rewrite dec_add_zero2_l by exact H.
  apply quantize_idem. exact H.
Qed.

Lemma dec_neb_zero2_nonzero (q : Decimal) :
  normalized q -> coef q <> 0 -> dec_neb q zero2 = true.
Proof.
  intros [He _] Hc. unfold dec_neb. apply negb_true_iff.
  destruct (dec_eqb q zero2) eqn:E; [|reflexivity].
  apply dec_eqb_zero2 in E; auto. contradiction.
Qed.

(** C2, as amended.  Both repositories refuse the empty list of splits
    with a [ValidationError] and store nothing.  A list of one split is
    refused as not balanced when its amount quantizes to a non-zero value;
    when it quantizes to 0.00 the transaction is stored with its one
    split (the ledger, the date and the account being there). *)
Theorem C2_fewer_than_two_splits (l : Z) (de : string) (tg : list string)
  (nec : bool) (s : SplitDict) :
  (forall d db,
     DjangoTransactionsRepo.create l d de [] tg nec db
     = (Raise (ValidationError "Transaction must have at least one split."),
        db))
  /\ (forall d m,
        InMemoryTransactionsRepo.create l d de [] tg nec m
        = (Raise (ValidationError "Transaction must have splits"), m))
  /\ (forall d db q,
        normalized_amounts DjangoTransactionsRepo._normalize_amount [s]
        = Some [q] ->
        coef q <> 0 ->
        DjangoTransactionsRepo.create l d de [s] tg nec db
        = (Raise (ValidationError
                    ("Transaction not balanced: splits sum to "
                     ++ dec_str q)), db))
  /\ (forall d m q,
        normalized_amounts InMemoryTransactionsRepo._normalize_amount [s]
        = Some [q] ->
        coef q <> 0 ->
        exists msg,
          InMemoryTransactionsRepo.create l d de [s] tg nec m
          = (Raise (ValidationError msg), m))
  /\ (forall dv db ledger,
        normalized_amounts DjangoTransactionsRepo._normalize_amount [s]
        = Some [zero2] ->
        find_ledger db l = Some ledger ->
        resolves db s = true ->
        exists tx db' row,
          DjangoTransactionsRepo.create l (Some dv) de [s] tg nec db
          = (Ok tx, db')
          /\ transactions db' = (transactions db ++ [tx])%list
          /\ splits db' = (splits db ++ [row])%list
          /\ split_transaction row = transactionID tx
          /\ split_amount row = zero2)
  /\ (forall d m k,
        normalized_amounts InMemoryTransactionsRepo._normalize_amount [s]
        = Some [zero2] ->
        InMemoryTransactionsRepo.resolve_account_id m s = Ok k ->
        exists tx m',
          InMemoryTransactionsRepo.create l d de [s] tg nec m = (Ok tx, m')
          /\ tx_store m' = (tx_store m ++ [tx])%list
          /\ t_splits tx = [mkSplitStub k zero2]).
Proof.
  repeat split.
  - intros d db q Hq Hc.
    destruct (normalized_amounts_Forall _ [s] [q]
                django_normalize_normalized Hq) as [HF _].
    inversion HF as [|? ? Hn _]; subst.
    unfold DjangoTransactionsRepo.create.
    rewrite (validate_unbalanced [s] [q] q Hq (single_total q Hn)
               (dec_neb_zero2_nonzero q Hn Hc)).
    reflexivity.
  - intros d m q Hq Hc.
    destruct (normalized_amounts_Forall _ [s] [q]
                memory_normalize_normalized Hq) as [HF _].
    inversion HF as [|? ? Hn _]; subst.
    destruct (memory_create_unbalanced l de [s] tg nec d m [q] q Hq)
      as [msg [Hm _]].
    + unfold py_sum. simpl. rewrite dec_add_int0_l by exact Hn.
      apply quantize_idem. exact Hn.
    + apply dec_neb_zero2_nonzero; assumption.
    + eauto.
  - intros dv db ledger Hq Hl Hr.
    assert (Hv : DjangoTransactionsRepo.validate [s]
                 = Ok (combine [s] [zero2])).
    { apply validate_ok_iff. split; [discriminate|].
      exists [zero2]. repeat split; auto. }
    destruct (create_succeeds l dv de [s] tg nec db _ ledger Hv Hl)
      as [db' Hc].
    { constructor; [exact Hr | constructor]. }
    pose proof Hc as Hi. apply create_ok_inv in Hi.
    destruct Hi as [ds [dv' [ledger' [news Hi]]]].
    destruct Hi as [_ [Hds [_ [_ [_ [_ [Ht [Hs [Ha [Hn _]]]]]]]]]].
    rewrite Hq in Hds. rewrite <- Ha in Hds.
    destruct news as [|row [|row2 rest]]; try discriminate.
    inversion Hds as [Hrow]. inversion Hn as [|? ? Hrt _]; subst.
    eexists _, db', row. repeat split; eauto.
  - intros d m k Hq Hr.
    unfold InMemoryTransactionsRepo.create. simpl.
    simpl in Hq. destruct (amount s) as [raw|]; [|discriminate].
    destruct (InMemoryTransactionsRepo._normalize_amount raw) as [a|];
      [|discriminate].
    inversion Hq; subst a. simpl. rewrite Hr. simpl.
    eexists _, _. split; [reflexivity|]. split; reflexivity.
Qed.

(** The store of the examples accepts a transaction whose only split has
    the amount 0.00, and keeps it. *)
Lemma C2_fewer_than_two_splits_witness :
  exists tx db' row,
    DjangoTransactionsRepo.create 1 (Some example_date) "note"
      [split_by_id "0.00" 1] [] true example_db = (Ok tx, db')
    /\ transactions db' = (transactions example_db ++ [tx])%list
    /\ splits db' = (splits example_db ++ [row])%list
    /\ split_transaction row = transactionID tx
    /\ split_amount row = zero2.
Proof.
  destruct (C2_fewer_than_two_splits 1 "note" [] true (split_by_id "0.00" 1))
    as [_ [_ [_ [_ [H _]]]]].
  apply (H example_date example_db (mkLedger 1 "default"));
    vm_compute; reflexivity.
Defined.

(** A transaction with one split of 0.00 is created and stored, by both
    repositories. *)
Lemma C2_counterexample :
  (exists tx db',
     DjangoTransactionsRepo.create 1 (Some example_date) "note"
       [split_by_id "0.00" 1] [] true example_db = (Ok tx, db')
     /\ transactions db' = [tx]
     /\ List.length (splits_of db' (transactionID tx)) = 1%nat)
  /\ (exists tx m',
        InMemoryTransactionsRepo.create 1 example_date "note"
          [split_by_id "0.00" 1] [] true example_mem = (Ok tx, m')
        /\ tx_store m' = [tx]
        /\ List.length (t_splits tx) = 1%nat).
Proof.
  split.
  - eexists _, _. vm_compute. split; [reflexivity|].
    split; reflexivity.
  - eexists _, _. vm_compute. split; [reflexivity|].
    split; reflexivity.
Qed.

End SplitCount.

(* ================================================================= *)
(** ** Where the quantization happens *)

Section QuantizationPoint.





End QuantizationPoint.

(* ================================================================= *)
(** ** Account references that do not resolve *)

Section Unresolved.

(** C4, as amended.  When some split's account reference does not
    resolve, [create] fails and the store is as before the call, neither
    the transaction nor a split nor a tag being kept.  The error is never
    a [NotFoundError]: when the checks before the atomic block pass and
    the ledger and the date are there, it is the [ValidationError] of the
    first reference that does not resolve. *)
Theorem C4_unresolved_account (l : Z) (d : option date) (de : string)
  (sp : list SplitDict) (tg : list string) (nec : bool) (db : DB) :
  (exists s, In s sp /\ resolves db s = false) ->
  exists e,
    DjangoTransactionsRepo.create l d de sp tg nec db = (Raise e, db)
    /\ is_NotFoundError e = false
    /\ (forall dsl dv ledger,
          DjangoTransactionsRepo.validate sp = Ok dsl ->
          d = Some dv ->
          find_ledger db l = Some ledger ->
          first_unresolved db sp = Some e
          /\ is_ValidationError e = true).
Proof.
  intros Hex.
  destruct (DjangoTransactionsRepo.create l d de sp tg nec db)
    as [[tx|e] db'] eqn:Ec.
  - exfalso. apply create_ok_inv in Ec.
    destruct Ec as [ds [dv [ledger [news Hi]]]].
    destruct Hi as [_ [_ [_ [_ [_ [_ [_ [_ [_ [_ [Hr _]]]]]]]]]]].
    destruct Hex as [s [Hin Hs]].
    rewrite Forall_forall in Hr. rewrite (Hr s Hin) in Hs. discriminate.
  - pose proof Ec as Ek. apply create_raises in Ek.
    destruct Ek as [Hdb Hk]. subst db'. exists e.
    split; [reflexivity|]. split.
    + destruct Hk as [Hk|[Hk|Hk]].
      * destruct e; try discriminate; reflexivity.
      * subst e. reflexivity.
      * subst e. reflexivity.
    + intros dsl dv ledger Hv Hd Hl. subst d.
      destruct (first_unresolved_exists db sp Hex) as [e' [He' Hv']].
      rewrite (create_unresolved l dv de sp tg nec db dsl ledger e' Hv Hl He')
        in Ec.
      inversion Ec; subst e'. auto.
Qed.

(** A balanced pair of splits, the second one on the missing account
    99. *)
Lemma C4_unresolved_account_witness :
  exists e,
    DjangoTransactionsRepo.create 1 (Some example_date) "rent"
      [split_by_id "100.00" 1; split_by_id "-100.00" 99] ["home"] true
      example_db
    = (Raise e, example_db)
    /\ is_NotFoundError e = false
    /\ (forall dsl dv ledger,
          DjangoTransactionsRepo.validate
            [split_by_id "100.00" 1; split_by_id "-100.00" 99] = Ok dsl ->
          Some example_date = Some dv ->
          find_ledger example_db 1 = Some ledger ->
          first_unresolved example_db
            [split_by_id "100.00" 1; split_by_id "-100.00" 99] = Some e
          /\ is_ValidationError e = true).
Proof.
  apply (C4_unresolved_account 1 (Some example_date) "rent"
           [split_by_id "100.00" 1; split_by_id "-100.00" 99] ["home"] true
           example_db).
  exists (split_by_id "-100.00" 99). split.
  - simpl. right. left. reflexivity.
  - vm_compute. reflexivity.
Defined.

(** The error for a missing account is a [ValidationError], and
    [NotFoundError] is not raised. *)
Lemma C4_counterexample :
  DjangoTransactionsRepo.create 1 (Some example_date) "rent"
    [split_by_id "100.00" 1; split_by_id "-100.00" 99] ["home"] true
    example_db
  = (Raise (ValidationError "Account id 99 not found"), example_db)
  /\ is_NotFoundError (ValidationError "Account id 99 not found") = false.
Proof. vm_compute. split; reflexivity. Qed.

End Unresolved.

(* ================================================================= *)
(** ** Idempotent import *)

Section Idempotency.

Context (L : Libs).

(** An import that runs ends by storing a record with the content hash
    and reports that it was not skipped. *)
Lemma run_import_records (file_bytes : string) (file_name : option string)
  (rules_bytes : option string) (h : string) (ledger_id : Z)
  (asset : string) (db db' : DB) (res : CSVImportResult) :
  run_import L file_bytes file_name rules_bytes h ledger_id asset db
  = (Ok res, db') ->
  skipped res = false
  /\ exists ir,
       import_record res = Some ir
       /\ file_hash ir = h
       /\ imported_count ir = created_count res
       /\ In ir (import_records db').
Proof.
  unfold run_import, mbind.
  destruct (ledger_get_or_create ledger_id _ db) as [[lg|e0] db0];
    [|discriminate].
  match goal with
  | |- (match ?x with _ => _ end) = _ -> _ =>
      destruct x as [[rules_list|e1] db1]; [|discriminate]
  end.
  destruct (_ensure_account asset _ ledger_id db1) as [[acc|e2] db2];
    [|discriminate].
  destruct (process_rows L rules_list ledger_id acc 1 _ _ db2)
    as [[p|e3] db3]; [|discriminate].
  unfold atomic, import_insert, ret. intros H; inversion H; subst.
  simpl. split; [reflexivity|]. eexists. repeat split.
  apply in_or_app. right. left. reflexivity.
Qed.

(** C5.  When a record with the content hash of the upload exists:
    without [force] and with a prior count of at least 1 the call returns
    at once, skipped, with the prior count, and the store is untouched;
    without [force] and with a prior count of 0, and always with [force],
    the record is deleted and the import runs on the store without it. *)
Theorem C5_import_idempotency (file_bytes : string)
  (file_name : option string) (rules_fileobj : option string)
  (ledger_id : Z) (asset : string) (db : DB) (existing : ImportRecord) :
  find_import db (_compute_hash file_bytes rules_fileobj) = Some existing ->
  let h := _compute_hash file_bytes rules_fileobj in
  let db1 := snd (import_delete existing db) in
  (1 <= imported_count existing ->
   import_csv L false file_bytes file_name rules_fileobj ledger_id asset db
   = (Ok (mkCSVImportResult (imported_count existing) true (Some existing)
            []), db))
  /\ (imported_count existing = 0 ->
      import_csv L false file_bytes file_name rules_fileobj ledger_id asset
        db
      = run_import L file_bytes file_name rules_fileobj h ledger_id asset
          db1)
  /\ import_csv L true file_bytes file_name rules_fileobj ledger_id asset db
     = run_import L file_bytes file_name rules_fileobj h ledger_id asset db1
  /\ ~ In existing (import_records db1)
  /\ transactions db1 = transactions db
  /\ splits db1 = splits db
  /\ accounts db1 = accounts db
  /\ (forall res db',
        run_import L file_bytes file_name rules_fileobj h ledger_id asset
          db1 = (Ok res, db') ->
        skipped res = false
        /\ exists ir,
             import_record res = Some ir
             /\ file_hash ir = h
             /\ imported_count ir = created_count res
             /\ In ir (import_records db')).
Proof.
  intros Hf h db1. subst h.
  repeat split.
  - intros Hc. unfold import_csv. cbv zeta. rewrite Hf.
    destruct (Z.ltb_spec 0 (imported_count existing)); [reflexivity | lia].
  - intros Hc. unfold import_csv. cbv zeta. rewrite Hf, Hc. reflexivity.
  - unfold import_csv. cbv zeta. rewrite Hf. reflexivity.
  - subst db1. unfold import_delete. simpl. intros Hin.
    apply filter_In in Hin. destruct Hin as [_ Hin].
    rewrite Z.eqb_refl in Hin. discriminate.
  - eapply run_import_records; eauto.
  - eapply run_import_records; eauto.
Qed.

End Idempotency.

Section IdempotencyExamples.

(** The file [date,amount] on the store that already imported it with
    three transactions: the call is skipped and returns 3.  On the store
    whose earlier import created nothing, the import runs again without
    the stale record. *)
Lemma C5_import_idempotency_witness :
  import_csv example_libs false "date,amount" (Some "bank.csv") None 1
    "ASSET:Bank" example_import_db
  = (Ok (mkCSVImportResult 3 true
           (Some (mkImportRecord 1 (_compute_hash "date,amount" None)
                    (Some "bank.csv") 3 [1; 2; 3] [])) []),
     example_import_db)
  /\ import_csv example_libs false "date,amount" (Some "bank.csv") None 1
       "ASSET:Bank" example_stale_db
     = run_import example_libs "date,amount" (Some "bank.csv") None
         (_compute_hash "date,amount" None) 1 "ASSET:Bank"
         (snd (import_delete
                 (mkImportRecord 1 (_compute_hash "date,amount" None)
                    (Some "bank.csv") 0 []
                    ["row 1: No amount column found"])
                 example_stale_db)).
Proof.
  split.
  - destruct (C5_import_idempotency example_libs "date,amount"
                (Some "bank.csv") None 1 "ASSET:Bank" example_import_db
                (mkImportRecord 1 (_compute_hash "date,amount" None)
                   (Some "bank.csv") 3 [1; 2; 3] []))
      as [H _].
    + vm_compute. reflexivity.
    + apply H. simpl. lia.
  - destruct (C5_import_idempotency example_libs "date,amount"
                (Some "bank.csv") None 1 "ASSET:Bank" example_stale_db
                (mkImportRecord 1 (_compute_hash "date,amount" None)
                   (Some "bank.csv") 0 []
                   ["row 1: No amount column found"]))
      as [_ [H _]].
    + vm_compute. reflexivity.
    + apply H. reflexivity.
Defined.

End IdempotencyExamples.

(* ================================================================= *)
(** ** The rule matcher *)

Section RuleMatcher.

Context (L : Libs).





End RuleMatcher.

Section RuleMatcherExamples.



End RuleMatcherExamples.

(* ================================================================= *)
(** ** Parsing amounts *)

Section ParseAmount.
















End ParseAmount.

Section ParseAmountExamples.



End ParseAmountExamples.

(* ================================================================= *)
(** ** Account names *)

Section AccountNames.

Lemma find_by_name_some (db : DB) (n : string) (a : Account) :
  find_account_by_name db n = Some a -> In a (accounts db) /\ acc_name a = n.
Proof.
  unfold find_account_by_name. intros H. apply find_some in H.
  destruct H as [Hin Hn]. apply String.eqb_eq in Hn. auto.
Qed.

(** [DjangoAccountsRepo.create] inserts a row, whatever is there. *)
Lemma accounts_create_spec (n ty : string) (l : Z) (db : DB) :
  exists db',
    DjangoAccountsRepo.create n ty None true l db
    = (Ok (mkAccount (next_account db) l n ty None true), db')
    /\ accounts db'
       = (accounts db ++ [mkAccount (next_account db) l n ty None true])%list.
Proof.
  unfold DjangoAccountsRepo.create, mbind, ledger_get_or_create. simpl.
  destruct (find_ledger db l); unfold account_insert; simpl;
    eexists; split; reflexivity.
Qed.

Lemma unique_after_insert (db db' : DB) (a : Account) :
  unique_ledger_name db ->
  accounts db' = (accounts db ++ [a])%list ->
  (forall x, In x (accounts db) -> acc_name x = acc_name a ->
             acc_ledger x <> acc_ledger a) ->
  unique_ledger_name db'.
Proof.
  unfold unique_ledger_name. intros Hu Ha Hx. rewrite Ha, map_app. simpl.
  apply Permutation_NoDup
    with (l := (acc_ledger a, acc_name a)
               :: map (fun x => (acc_ledger x, acc_name x)) (accounts db)).
  - apply Permutation_cons_append.
  - constructor; [|exact Hu]. intros Hin. apply in_map_iff in Hin.
    destruct Hin as [x [Hp Hin]]. inversion Hp.
    apply (Hx x Hin); auto.
Qed.

(** C8, as amended.  Get-or-create returns the account it finds by name
    when that account is in the target ledger, and creates nothing.  When
    no account of the target ledger has the name (the name is in other
    ledgers only, or nowhere), it creates a new account in the target
    ledger and returns that one, not an account of another ledger; if no
    two accounts shared a ledger and a name before, none do after.
    Creation itself inserts the account whatever the store holds. *)
Theorem C8_get_or_create (name ty : string) (ledger_id : Z) (db : DB) :
  (forall acc,
     DjangoAccountsRepo.get_by_name db name = Some acc ->
     acc_ledger acc = ledger_id ->
     _ensure_account name ty ledger_id db = (Ok acc, db))
  /\ ((forall a, In a (accounts db) -> acc_name a = name ->
                 acc_ledger a <> ledger_id) ->
      exists db',
        _ensure_account name ty ledger_id db
        = (Ok (mkAccount (next_account db) ledger_id name ty None true), db')
        /\ accounts db'
           = (accounts db
              ++ [mkAccount (next_account db) ledger_id name ty None true])%list
        /\ (unique_ledger_name db -> unique_ledger_name db'))
  /\ (exists db',
        DjangoAccountsRepo.create name ty None true ledger_id db
        = (Ok (mkAccount (next_account db) ledger_id name ty None true), db')
        /\ accounts db'
           = (accounts db
              ++ [mkAccount (next_account db) ledger_id name ty None true])%list).
Proof.
  split; [|split; [|apply accounts_create_spec]].
  - intros acc Hg Hl. unfold _ensure_account. rewrite Hg.
    apply Z.eqb_eq in Hl. rewrite Hl. reflexivity.
  - intros Hx.
    destruct (accounts_create_spec name ty ledger_id db) as [db' [Hc Ha]].
    exists db'. split; [|split; [exact Ha|]].
    + unfold _ensure_account.
      destruct (DjangoAccountsRepo.get_by_name db name) as [acc|] eqn:Hg;
        [|exact Hc].
      apply find_by_name_some in Hg. destruct Hg as [Hin Hn].
      destruct (Z.eqb_spec (acc_ledger acc) ledger_id) as [He|_];
        [|exact Hc].
      exfalso. exact (Hx acc Hin Hn He).
    + intros Hu. eapply unique_after_insert; eauto.
Qed.

End AccountNames.

Section AccountNamesExamples.

(** "Cash" exists in ledger 1 only; get-or-create for ledger 2 makes the
    new account 2 in ledger 2. *)
Lemma C8_get_or_create_witness :
  exists db',
    _ensure_account "Cash" "ASSET" 2 example_db
    = (Ok (mkAccount 2 2 "Cash" "ASSET" None true), db')
    /\ accounts db'
       = [mkAccount 1 1 "Cash" "ASSET" None true;
          mkAccount 2 2 "Cash" "ASSET" None true]
    /\ (unique_ledger_name example_db -> unique_ledger_name db').
Proof.
  destruct (C8_get_or_create "Cash" "ASSET" 2 example_db) as [_ [H _]].
  apply H. intros a Hin Hn. simpl in Hin.
  destruct Hin as [<-|[]]. simpl. discriminate.
Defined.

(** Creating the account "Cash" twice in ledger 1 succeeds twice, and the
    store then holds two accounts with that ledger and name. *)
Lemma C8_counterexample :
  fst (DjangoAccountsRepo.create "Cash" "ASSET" None true 1 empty_db)
  = Ok (mkAccount 1 1 "Cash" "ASSET" None true)
  /\ fst (DjangoAccountsRepo.create "Cash" "ASSET" None true 1 example_db)
     = Ok (mkAccount 2 1 "Cash" "ASSET" None true)
  /\ map (fun a => (acc_ledger a, acc_name a)) (accounts example_twice_db)
     = [(1, "Cash"); (1, "Cash")]
  /\ ~ unique_ledger_name example_twice_db.
Proof.
  repeat (split; [vm_compute; reflexivity|]).
  unfold unique_ledger_name. intros H.
  replace (map (fun a => (acc_ledger a, acc_name a))
               (accounts example_twice_db))
    with [(1, "Cash"); (1, "Cash")] in H by (vm_compute; reflexivity).
  inversion H as [|? ? Hn _]. apply Hn. left. reflexivity.
Qed.

(** The lookup by name spans all ledgers and returns the oldest account:
    with "Cash" in ledger 1 and in ledger 2, one more get-or-create for
    ledger 2 finds the account of ledger 1 and creates a third account. *)
Example ensure_account_again_in_second_ledger :
  let db1 := snd (_ensure_account "Cash" "ASSET" 2 example_db) in
  let db2 := snd (_ensure_account "Cash" "ASSET" 2 db1) in
  map (fun a => (accountID a, acc_ledger a, acc_name a)) (accounts db2)
  = [(1, 1, "Cash"); (2, 2, "Cash"); (3, 2, "Cash")].
Proof. vm_compute. reflexivity. Qed.

End AccountNamesExamples.

(* ================================================================= *)
(** ** Listing transactions *)

Section Listing.

Import InMemoryTransactionsRepo.

Lemma insert_desc_perm (x : _TransactionStub) (l : list _TransactionStub) :
  Permutation (insert_desc x l) (x :: l).
Proof.
  induction l as [|y r IH]; simpl; [apply Permutation_refl|].
  destruct (t_date x <? t_date y); [|apply Permutation_refl].
  eapply perm_trans; [apply perm_skip; exact IH | apply perm_swap].
Qed.

Lemma sorted_perm (l : list _TransactionStub) :
  Permutation (sorted_by_date_desc l) l.
Proof.
  induction l as [|x r IH]; simpl; [constructor|].
  eapply perm_trans; [apply insert_desc_perm | apply perm_skip; exact IH].
Qed.





Lemma truthy_int_some (k : Z) : truthy_int (Some k) = true <-> k <> 0.
Proof.
  simpl. rewrite negb_true_iff. split.
  - intros H ->. discriminate.
  - intros H. apply Z.eqb_neq. exact H.
Qed.

Lemma truthy_str_some (n : string) : truthy_str (Some n) = true <-> n <> "".
Proof.
  simpl. destruct n; simpl; split; try congruence; discriminate.
Qed.

Lemma existsb_eqb_In (n : string) (l : list string) :
  existsb (String.eqb n) l = true <-> In n l.
Proof.
  rewrite existsb_exists. split.
  - intros [x [Hin He]]. apply String.eqb_eq in He. subst. exact Hin.
  - intros H. exists n. split; [exact H | apply String.eqb_refl].
Qed.

(** The four comprehensions of the in-memory [list], read as
    conditions. *)
Lemma memory_matches_spec (f : Filters) (r : _TransactionStub) :
  matches f r = true <->
  (forall d, date_from f = Some d -> d <= t_date r)
  /\ (forall d, date_to f = Some d -> t_date r <= d)
  /\ (forall k, f_account_id f = Some k -> k <> 0 ->
      exists s, In s (t_splits r) /\ s_account_id s = k)
  /\ (forall n, f_tag f = Some n -> n <> "" -> In n (t_tags r)).
Proof.
  unfold matches. rewrite !andb_true_iff.
  destruct f as [df dt fa ft]. simpl date_from. simpl date_to.
  simpl f_account_id. simpl f_tag. split.
  - intros [[[H1 H2] H3] H4]. repeat split.
    + intros d Hd. subst df. apply Z.leb_le. exact H1.
    + intros d Hd. subst dt. apply Z.leb_le. exact H2.
    + intros k Hk Hne. subst fa.
      apply truthy_int_some in Hne. rewrite Hne in H3.
      apply existsb_exists in H3. destruct H3 as [s [Hin Hs]].
      exists s. split; [exact Hin | apply Z.eqb_eq; exact Hs].
    + intros n Hn Hne. subst ft.
      apply truthy_str_some in Hne. rewrite Hne in H4.
      apply existsb_eqb_In. exact H4.
  - intros [H1 [H2 [H3 H4]]]. repeat split.
    + destruct df as [d|]; [|reflexivity]. apply Z.leb_le. auto.
    + destruct dt as [d|]; [|reflexivity]. apply Z.leb_le. auto.
    + destruct fa as [k|]; [|reflexivity].
      destruct (truthy_int (Some k)) eqn:Et; [|reflexivity].
      apply truthy_int_some in Et.
      destruct (H3 k eq_refl Et) as [s [Hin Hs]].
      apply existsb_exists. exists s. split; [exact Hin|].
      apply Z.eqb_eq. exact Hs.
    + destruct ft as [n|]; [|reflexivity].
      destruct (truthy_str (Some n)) eqn:Et; [|reflexivity].
      apply truthy_str_some in Et. apply existsb_eqb_In. auto.
Qed.

(** The filters of the Django [list], read as conditions on the rows. *)
Lemma django_matches_spec (db : DB) (f : Filters) (t : Transaction) :
  DjangoTransactionsRepo.matches db f t = true <->
  (forall d, date_from f = Some d -> d <= tx_date t)
  /\ (forall d, date_to f = Some d -> tx_date t <= d)
  /\ (forall k, f_account_id f = Some k -> k <> 0 ->
      exists s, In s (splits db)
                /\ split_transaction s = transactionID t
                /\ split_account s = k)
  /\ (forall n, f_tag f = Some n -> n <> "" ->
      In n (tag_names_of db (transactionID t))).
Proof.
  unfold DjangoTransactionsRepo.matches. rewrite !andb_true_iff.
  destruct f as [df dt fa ft]. simpl date_from. simpl date_to.
  simpl f_account_id. simpl f_tag. split.
  - intros [[[H1 H2] H3] H4]. repeat split.
    + intros d Hd. subst df. apply Z.leb_le. exact H1.
    + intros d Hd. subst dt. apply Z.leb_le. exact H2.
    + intros k Hk Hne. subst fa.
      apply truthy_int_some in Hne. rewrite Hne in H3.
      apply existsb_exists in H3. destruct H3 as [s [Hin Hs]].
      apply andb_true_iff in Hs. destruct Hs as [Hs1 Hs2].
      exists s. repeat split; [exact Hin | |]; apply Z.eqb_eq; assumption.
    + intros n Hn Hne. subst ft.
      apply truthy_str_some in Hne. rewrite Hne in H4.
      apply existsb_eqb_In. exact H4.
  - intros [H1 [H2 [H3 H4]]]. repeat split.
    + destruct df as [d|]; [|reflexivity]. apply Z.leb_le. auto.
    + destruct dt as [d|]; [|reflexivity]. apply Z.leb_le. auto.
    + destruct fa as [k|]; [|reflexivity].
      destruct (truthy_int (Some k)) eqn:Et; [|reflexivity].
      apply truthy_int_some in Et.
      destruct (H3 k eq_refl Et) as [s [Hin [Hs1 Hs2]]].
      apply existsb_exists. exists s. split; [exact Hin|].
      apply andb_true_iff. split; apply Z.eqb_eq; assumption.
    + destruct ft as [n|]; [|reflexivity].
      destruct (truthy_str (Some n)) eqn:Et; [|reflexivity].
      apply truthy_str_some in Et. apply existsb_eqb_In. auto.
Qed.


End Listing.

Section ListingExamples.



End ListingExamples.

(* ================================================================= *)
(** ** The content hash *)

Section ContentHash.

Lemma append_assoc3 (a b c : string) : (a ++ b) ++ c = a ++ b ++ c.
Proof.
  induction a as [|x r IH]; simpl; [reflexivity|]. rewrite IH. reflexivity.
Qed.

(** C10, as amended.  The hash is the SHA-256 of the file bytes, followed
    by the marker and the rules bytes when the rules are not empty.  So
    for a file [f] and non-empty rules [r], the single file made of [f],
    the marker and [r], imported without rules, has the hash of [f]
    imported with the rules [r].  Absent rules and empty rules both give
    the hash of the file alone. *)
Theorem C10_hash_concatenation (f r : string) :
  r <> "" ->
  _compute_hash (f ++ "::RULES::" ++ r) None = _compute_hash f (Some r)
  /\ _compute_hash f (Some r) = Sha256.hexdigest (f ++ "::RULES::" ++ r)
  /\ _compute_hash f None = Sha256.hexdigest f
  /\ _compute_hash f (Some "") = Sha256.hexdigest f.
Proof.
  intros Hr. unfold _compute_hash, Sha256.update, Sha256.new.
  assert (Ht : truthy_str (Some r) = true) by (apply truthy_str_some; exact Hr).
  rewrite Ht. change (truthy_str None) with false.
  change (truthy_str (Some "")) with false. cbv iota.
  change ("" ++ f) with f.
  change ("" ++ (f ++ "::RULES::" ++ r)) with (f ++ "::RULES::" ++ r).
  rewrite append_assoc3.
  split; [reflexivity|]. split; [reflexivity|]. split; reflexivity.
Qed.

(** A statement file and a rules file, against the one file that holds
    both around the marker. *)
Lemma C10_hash_concatenation_witness :
  _compute_hash ("date,amount" ++ "::RULES::" ++ "rules: []") None
  = _compute_hash "date,amount" (Some "rules: []").
Proof.
  destruct (C10_hash_concatenation "date,amount" "rules: []") as [H _].
  - discriminate.
  - exact H.
Defined.

(** With the empty file and an empty rules file the two hashes differ. *)
Lemma C10_counterexample :
  _compute_hash ("" ++ "::RULES::" ++ "") None <> _compute_hash "" (Some "").
Proof. vm_compute. discriminate. Qed.

End ContentHash.

(* ================================================================= *)
(** ** The steps of a successful [create] *)

Section CreateSteps.

(** A successful [create] is the validation, the insert of the
    transaction, the loop over the splits and the loop over the tags. *)
Lemma create_ok_steps (l : Z) (d : option date) (de : string)
  (sp : list SplitDict) (tg : list string) (nec : bool) (db db' : DB)
  (tx : Transaction) :
  DjangoTransactionsRepo.create l d de sp tg nec db = (Ok tx, db') ->
  exists dsl dv ledger db1 db2,
    DjangoTransactionsRepo.validate sp = Ok dsl
    /\ d = Some dv
    /\ find_ledger db l = Some ledger
    /\ transaction_insert (ledgerID ledger) (Some dv) de nec db = (Ok tx, db1)
    /\ for_each dsl (DjangoTransactionsRepo.create_split tx) db1
       = (Ok tt, db2)
    /\ for_each tg (DjangoTransactionsRepo.attach_tag tx) db2 = (Ok tt, db').
Proof.
  unfold DjangoTransactionsRepo.create.
  destruct (DjangoTransactionsRepo.validate sp) as [dsl|e0] eqn:Ev;
    [|discriminate].
  unfold atomic.
  match goal with
  | |- (match ?x with _ => _ end) = _ -> _ =>
      destruct x as [[tx1|e1] db1] eqn:Eb
  end; [|discriminate].
  intros H; inversion H; subst tx1 db1. clear H.
  destruct (find_ledger db l) as [ledger|] eqn:El; [|discriminate].
  unfold mbind in Eb.
  destruct d as [dv|]; [|discriminate].
  destruct (transaction_insert (ledgerID ledger) (Some dv) de nec db)
    as [[tx0|e0] db1] eqn:Ei; [|discriminate].
  destruct (for_each dsl (DjangoTransactionsRepo.create_split tx0) db1)
    as [[u|e2] db2] eqn:Ef; [|discriminate].
  destruct (for_each tg (DjangoTransactionsRepo.attach_tag tx0) db2)
    as [[u'|e3] db3] eqn:Et; [|discriminate].
  unfold ret in Eb. inversion Eb; subst tx0 db3. clear Eb.
  destruct u, u'.
  exists dsl, dv, ledger, db1, db2. repeat split; auto.
Qed.

(** The rows the loop over the splits stores: one per split, in the order
    of the list, with the key of the resolved account and the normalized
    amount; no other table changes. *)
Lemma create_split_rows (tx : Transaction)
  (dsl : list (SplitDict * Decimal)) :
  forall db db' u,
  for_each dsl (DjangoTransactionsRepo.create_split tx) db = (Ok u, db') ->
  exists rows,
    splits db' = (splits db ++ rows)%list
    /\ Forall2 (fun sa row =>
                  exists a,
                    DjangoTransactionsRepo.resolve_account db (fst sa) = Ok a
                    /\ split_account row = accountID a
                    /\ (split_amount row = snd sa
                        /\ split_value row = float_of_decimal (snd sa))
                    /\ split_transaction row = transactionID tx) dsl rows
    /\ tags db' = tags db
    /\ transaction_tags db' = transaction_tags db
    /\ next_tag db' = next_tag db
    /\ next_account db' = next_account db.
Proof.
  induction dsl as [|[s a] rest IH]; intros db db' u H.
  - simpl in H. inversion H; subst. exists []. rewrite app_nil_r.
    repeat split; auto.
  - simpl in H. unfold mbind in H.
    unfold DjangoTransactionsRepo.create_split in H at 1. simpl fst in H.
    simpl snd in H.
    destruct (DjangoTransactionsRepo.resolve_account db s) as [acc|] eqn:Er;
      [|discriminate].
    unfold split_insert in H at 1.
    match type of H with
    | for_each _ _ ?d = _ => remember d as db1 eqn:Hdb1
    end.
    apply IH in H. destruct H as [rows [Hs [Hf [Ht [Htt [Hnt Hna]]]]]].
    exists (mkSplit (next_split db) (transactionID tx) (accountID acc) a
              (float_of_decimal a)
            :: rows).
    assert (Hacc : accounts db1 = accounts db) by (subst db1; reflexivity).
    repeat split.
    + rewrite Hs. subst db1. simpl. rewrite <- app_assoc. reflexivity.
    + constructor.
      * exists acc. simpl. auto.
      * eapply Forall2_impl; [|exact Hf].
        intros sa row [a0 [H1 H2]]. exists a0. split; [|exact H2].
        rewrite <- H1. symmetry. apply resolve_account_ext. exact Hacc.
    + rewrite Ht. subst db1. reflexivity.
    + rewrite Htt. subst db1. reflexivity.
    + rewrite Hnt. subst db1. reflexivity.
    + rewrite Hna. subst db1. reflexivity.
Qed.

End CreateSteps.

Section TagLoop.

Lemma NoDup_map_inj {A B : Type} (f : A -> B) (l : list A) (a b : A) :
  NoDup (map f l) -> In a l -> In b l -> f a = f b -> a = b.
Proof.
  induction l as [|x r IH]; simpl; intros Hn Ha Hb He; [contradiction|].
  inversion Hn as [|? ? Hx Hr]; subst.
  destruct Ha as [Ha|Ha], Hb as [Hb|Hb]; subst; auto.
  - exfalso. apply Hx. rewrite He. apply in_map. exact Hb.
  - exfalso. apply Hx. rewrite <- He. apply in_map. exact Ha.
Qed.

Lemma NoDup_snoc {A : Type} (l : list A) (a : A) :
  NoDup l -> ~ In a l -> NoDup (l ++ [a])%list.
Proof.
  intros Hn Ha. apply (Permutation_NoDup (l := a :: l)).
  - apply Permutation_cons_append.
  - constructor; assumption.
Qed.

Lemma find_tag_some (db : DB) (n : string) (t : Tag) :
  find_tag db n = Some t -> In t (tags db) /\ tag_name t = n.
Proof.
  unfold find_tag. intros H. apply find_some in H. destruct H as [Hi He].
  split; [exact Hi|]. apply String.eqb_eq. exact He.
Qed.

Lemma find_tag_none (db : DB) (n : string) :
  find_tag db n = None -> ~ In n (map tag_name (tags db)).
Proof.
  unfold find_tag. intros H Hin. apply in_map_iff in Hin.
  destruct Hin as [t [Hn Ht]].
  pose proof (find_none _ _ H t Ht) as Hf. simpl in Hf.
  rewrite Hn, String.eqb_refl in Hf. discriminate.
Qed.

Lemma only_tags_grow_refl (db : DB) : only_tags_grow db db.
Proof.
  unfold only_tags_grow. split; [exists []; rewrite app_nil_r; reflexivity|].
  split; [exists []; rewrite app_nil_r; reflexivity|].
  split; [apply keeps_refl|auto].
Qed.

Lemma only_tags_grow_trans (a b c : DB) :
  only_tags_grow a b -> only_tags_grow b c -> only_tags_grow a c.
Proof.
  unfold only_tags_grow.
  intros [[t1 T1] [[p1 P1] [K1 [S1 [R1 [A1 N1]]]]]]
         [[t2 T2] [[p2 P2] [K2 [S2 [R2 [A2 N2]]]]]].
  split; [exists (t1 ++ t2)%list; rewrite T2, T1, app_assoc; reflexivity|].
  split; [exists (p1 ++ p2)%list; rewrite P2, P1, app_assoc; reflexivity|].
  split; [eapply keeps_trans; eauto|].
  repeat split; congruence.
Qed.

(** A name among the tags of a transaction stays there when tags and
    attachments are added. *)
Lemma tag_names_grow (db db' : DB) (k : Z) (n : string) :
  only_tags_grow db db' ->
  In n (tag_names_of db k) -> In n (tag_names_of db' k).
Proof.
  intros [[t1 T1] [[p1 P1] _]]. unfold tag_names_of.
  rewrite !in_map_iff. intros [t [Hn Hf]]. exists t. split; [exact Hn|].
  apply filter_In in Hf. destruct Hf as [Hi He].
  apply filter_In. split.
  - rewrite T1. apply in_or_app. left. exact Hi.
  - rewrite P1, existsb_app, He. reflexivity.
Qed.

Lemma attached_pair (db : DB) (k : Z) (t : Tag) :
  In t (tags db) ->
  existsb (fun p => (fst p =? k) && (snd p =? tag_id t)) (transaction_tags db)
  = true ->
  In (tag_name t) (tag_names_of db k).
Proof.
  intros Hi He. unfold tag_names_of. apply in_map. apply filter_In.
  split; assumption.
Qed.

(** One iteration of the loop over the tags. *)
Lemma attach_tag_step (tx : Transaction) (n : string) (db : DB) :
  NoDup (map tag_id (tags db)) ->
  Forall (fun t => tag_id t < next_tag db) (tags db) ->
  exists db',
    DjangoTransactionsRepo.attach_tag tx n db = (Ok tt, db')
    /\ only_tags_grow db db'
    /\ NoDup (map tag_id (tags db'))
    /\ Forall (fun t => tag_id t < next_tag db') (tags db')
    /\ (unique_tag_names db -> unique_tag_names db')
    /\ In n (tag_names_of db' (transactionID tx))
    /\ (forall p, In p (transaction_tags db') ->
        In p (transaction_tags db)
        \/ (fst p = transactionID tx
            /\ exists t, In t (tags db') /\ tag_id t = snd p
                         /\ tag_name t = n)).
Proof.
  intros Hnd Hlt.
  unfold DjangoTransactionsRepo.attach_tag, mbind, tag_get_or_create.
  destruct (find_tag db n) as [t|] eqn:Ef.
  - apply find_tag_some in Ef. destruct Ef as [Hin Hname].
    unfold tags_add.
    destruct (existsb _ (transaction_tags db)) eqn:Ee.
    + exists db. split; [reflexivity|]. split; [apply only_tags_grow_refl|].
      split; [exact Hnd|]. split; [exact Hlt|]. split; [auto|].
      split; [rewrite <- Hname; apply attached_pair; assumption|].
      intros p Hp. left. exact Hp.
    + eexists. split; [reflexivity|]. simpl.
      split.
      { unfold only_tags_grow, keeps_accounts_and_transactions. simpl.
        split; [exists []; rewrite app_nil_r; reflexivity|].
        split; [eexists; reflexivity|]. repeat split; reflexivity. }
      split; [exact Hnd|]. split; [exact Hlt|]. split; [auto|].
      split.
      { rewrite <- Hname. apply attached_pair; simpl; [exact Hin|].
        rewrite existsb_app. simpl. rewrite !Z.eqb_refl. simpl.
        apply orb_true_r. }
      intros p Hp. apply in_app_or in Hp. destruct Hp as [Hp|Hp];
        [left; exact Hp|]. right. simpl in Hp.
      destruct Hp as [Hp|[]]. subst p. simpl. split; [reflexivity|].
      exists t. auto.
  - pose proof (find_tag_none _ _ Ef) as Hnone.
    set (t := mkTag (next_tag db) n).
    assert (Hnd' : NoDup (map tag_id (tags db ++ [t])%list)).
    { rewrite map_app. simpl. apply NoDup_snoc; [exact Hnd|].
      intros Hc. apply in_map_iff in Hc.
      destruct Hc as [x [Hx Hi]]. rewrite Forall_forall in Hlt.
      apply Hlt in Hi. lia. }
    assert (Hlt' : Forall (fun x => tag_id x < next_tag db + 1)
                     (tags db ++ [t])%list).
    { apply Forall_app. split.
      - eapply Forall_impl; [|exact Hlt]. simpl. intros; lia.
      - constructor; [simpl; lia | constructor]. }
    assert (Hu' : unique_tag_names db ->
                  NoDup (map tag_name (tags db ++ [t])%list)).
    { unfold unique_tag_names. intros Hu. rewrite map_app. simpl.
      apply NoDup_snoc; assumption. }
    unfold tags_add. cbn [tag_id transaction_tags].
    match goal with
    | |- context [if ?c then _ else _] => destruct c eqn:Ee
    end.
    + eexists. split; [reflexivity|]. cbn [tags next_tag transaction_tags].
      split.
      { unfold only_tags_grow, keeps_accounts_and_transactions. simpl.
        split; [eexists; reflexivity|].
        split; [exists []; rewrite app_nil_r; reflexivity|].
        repeat split; reflexivity. }
      split; [exact Hnd'|]. split; [exact Hlt'|]. split; [exact Hu'|].
      split.
      { change n with (tag_name t). apply attached_pair.
        - simpl. apply in_or_app. right. left. reflexivity.
        - exact Ee. }
      intros p Hp. left. exact Hp.
    + eexists. split; [reflexivity|]. cbn [tags next_tag transaction_tags].
      split.
      { unfold only_tags_grow, keeps_accounts_and_transactions. simpl.
        split; [eexists; reflexivity|].
        split; [eexists; reflexivity|].
        repeat split; reflexivity. }
      split; [exact Hnd'|]. split; [exact Hlt'|]. split; [exact Hu'|].
      split.
      { change n with (tag_name t). apply attached_pair.
        - simpl. apply in_or_app. right. left. reflexivity.
        - simpl. rewrite existsb_app. simpl. rewrite !Z.eqb_refl. simpl.
          apply orb_true_r. }
      intros p Hp. apply in_app_or in Hp. destruct Hp as [Hp|Hp];
        [left; exact Hp|]. right. simpl in Hp.
      destruct Hp as [Hp|[]]. subst p. simpl. split; [reflexivity|].
      exists t. split; [apply in_or_app; right; left; reflexivity|].
      split; reflexivity.
Qed.

End TagLoop.

Section TagLoopAll.

(** The loop over the tags never raises.  Every given name ends up among
    the tags of the transaction, and an attachment it adds links the
    transaction to a tag of one of the given names. *)
Lemma attach_tag_loop (tx : Transaction) (tg : list string) :
  forall db,
  NoDup (map tag_id (tags db)) ->
  Forall (fun t => tag_id t < next_tag db) (tags db) ->
  exists db',
    for_each tg (DjangoTransactionsRepo.attach_tag tx) db = (Ok tt, db')
    /\ only_tags_grow db db'
    /\ NoDup (map tag_id (tags db'))
    /\ Forall (fun t => tag_id t < next_tag db') (tags db')
    /\ (unique_tag_names db -> unique_tag_names db')
    /\ (forall n, In n tg -> In n (tag_names_of db' (transactionID tx)))
    /\ (forall p, In p (transaction_tags db') ->
        In p (transaction_tags db)
        \/ (fst p = transactionID tx
            /\ exists t, In t (tags db') /\ tag_id t = snd p
                         /\ In (tag_name t) tg)).
Proof.
  induction tg as [|n rest IH]; intros db Hnd Hlt.
  - exists db. simpl. split; [reflexivity|].
    split; [apply only_tags_grow_refl|]. split; [exact Hnd|].
    split; [exact Hlt|]. split; [auto|]. split; [intros n []|].
    intros p Hp. left. exact Hp.
  - destruct (attach_tag_step tx n db Hnd Hlt)
      as [db1 [E1 [G1 [N1 [L1 [U1 [I1 P1]]]]]]].
    destruct (IH db1 N1 L1) as [db' [E2 [G2 [N2 [L2 [U2 [I2 P2]]]]]]].
    exists db'. simpl. unfold mbind. rewrite E1. cbv beta iota.
    split; [exact E2|].
    split; [eapply only_tags_grow_trans; eauto|]. split; [exact N2|].
    split; [exact L2|]. split; [auto|]. split.
    + intros m [Hm|Hm].
      * subst m. eapply tag_names_grow; eauto.
      * apply I2. exact Hm.
    + intros p Hp. destruct (P2 p Hp) as [H|[Hf [t [Ht [Hid Hn]]]]].
      * destruct (P1 p H) as [H1|[Hf [t [Ht [Hid Hn]]]]]; [left; exact H1|].
        right. split; [exact Hf|]. exists t.
        destruct G2 as [[t2 T2] _].
        split; [rewrite T2; apply in_or_app; left; exact Ht|].
        split; [exact Hid | left; symmetry; exact Hn].
      * right. split; [exact Hf|]. exists t.
        split; [exact Ht|]. split; [exact Hid | right; exact Hn].
Qed.

(** [create] leaves the import records alone, whatever its outcome. *)
Lemma create_keeps_import_records (l : Z) (d : option date) (de : string)
  (sp : list SplitDict) (tg : list string) (nec : bool) (db db' : DB)
  (r : result Transaction) :
  DjangoTransactionsRepo.create l d de sp tg nec db = (r, db') ->
  import_records db' = import_records db
  /\ accounts db' = accounts db
  /\ ledgers db' = ledgers db
  /\ next_account db' = next_account db.
Proof.
  intros H. destruct r as [tx|e].
  - apply create_ok_steps in H.
    destruct H as [dsl [dv [ledger [db1 [db2 [_ [_ [_ [Hi [Hs Ht]]]]]]]]]].
    unfold transaction_insert in Hi. inversion Hi; subst tx db1. clear Hi.
    pose proof (create_splits_ok _ _ _ _ _ Hs) as [K2 _].
    pose proof (create_split_rows _ _ _ _ _ Hs) as [_ [_ [_ [_ [_ [_ A2]]]]]].
    destruct (attach_tags_ok
                (mkTransaction (next_transaction db) (ledgerID ledger) dv de
                   nec) tg db2) as [db3 [Ht' [K3 _]]].
    rewrite Ht in Ht'. inversion Ht'; subst db3.
    destruct K2 as [A [_ [_ [L I]]]]. destruct K3 as [A' [_ [_ [L' I']]]].
    simpl in *.
    assert (N3 : next_account db' = next_account db2).
    { clear - Ht. revert db2 Ht. induction tg as [|n rest IH]; intros db2 Ht.
      - simpl in Ht. inversion Ht. reflexivity.
      - simpl in Ht. unfold mbind in Ht.
        unfold DjangoTransactionsRepo.attach_tag in Ht at 1.
        unfold mbind, tag_get_or_create, tags_add in Ht.
        destruct (find_tag db2 n).
        + destruct (existsb _ (transaction_tags db2)).
          * apply IH in Ht. exact Ht.
          * apply IH in Ht. exact Ht.
        + simpl in Ht.
          match type of Ht with
          | context [if ?c then _ else _] => destruct c
          end; apply IH in Ht; exact Ht. }
    repeat split; congruence.
  - apply create_raises in H. destruct H as [H _]. subst db'. auto.
Qed.

End TagLoopAll.

(* ================================================================= *)
(** ** Failure, stored rows and lookups of [create] *)

Section CreateOutcome.

(** X1.  A [create] that raises leaves the store as it found it, in both
    repositories, whatever the cause.  The Django repository raises a
    [ValidationError], the [InvalidOperation] of a quantization that
    overflows, or the [IntegrityError] of a missing date; the in-memory
    one a [ValidationError] or that [InvalidOperation]. *)
Theorem failed_create_changes_nothing (l : Z) (de : string)
  (sp : list SplitDict) (tg : list string) (nec : bool) :
  (forall d db db' e,
     DjangoTransactionsRepo.create l d de sp tg nec db = (Raise e, db') ->
     db' = db
     /\ (is_ValidationError e = true \/ e = quantize_error
         \/ e = date_null_error))
  /\ (forall d m m' e,
        InMemoryTransactionsRepo.create l d de sp tg nec m = (Raise e, m') ->
        m' = m /\ (is_ValidationError e = true \/ e = quantize_error)).
Proof.
  split.
  - intros d db db' e H. eapply create_raises; eauto.
  - intros d m m' e H. eapply memory_create_raises; eauto.
Qed.

(** A transaction without a date: the insert is refused and the store is
    the one before the call. *)
Lemma failed_create_changes_nothing_witness :
  snd (DjangoTransactionsRepo.create 1 None "lunch" example_splits ["food"]
         true example_db) = example_db.
Proof.
  destruct (failed_create_changes_nothing 1 "lunch" example_splits ["food"]
              true) as [H _].
  destruct (H None example_db
              (snd (DjangoTransactionsRepo.create 1 None "lunch"
                      example_splits ["food"] true example_db))
              date_null_error) as [Hs _].
  - reflexivity.
  - exact Hs.
Defined.

Lemma find_snoc {A : Type} (f : A -> bool) (l : list A) (x : A) :
  find f (l ++ [x])%list
  = match find f l with
    | Some y => Some y
    | None => if f x then Some x else None
    end.
Proof.
  induction l as [|y r IH]; simpl; [reflexivity|].
  destruct (f y); [reflexivity | exact IH].
Qed.

Lemma find_fresh {A : Type} (key : A -> Z) (l : list A) (k : Z) :
  Forall (fun x => key x < k) l -> find (fun x => key x =? k) l = None.
Proof.
  induction 1 as [|x r Hx _ IH]; simpl; [reflexivity|].
  destruct (Z.eqb_spec (key x) k); [lia | exact IH].
Qed.

Lemma find_ledger_some (db : DB) (l : Z) (ledger : Ledger) :
  find_ledger db l = Some ledger -> ledgerID ledger = l.
Proof.
  unfold find_ledger. intros H. apply find_some in H.
  destruct H as [_ H]. apply Z.eqb_eq. exact H.
Qed.

Lemma rows_of_splits (db : DB) (k : Z) (sp : list SplitDict) :
  forall ds rows,
  normalized_amounts DjangoTransactionsRepo._normalize_amount sp = Some ds ->
  Forall2 (fun sa row =>
             exists a,
               DjangoTransactionsRepo.resolve_account db (fst sa) = Ok a
               /\ split_account row = accountID a
               /\ (split_amount row = snd sa
                   /\ split_value row = float_of_decimal (snd sa))
               /\ split_transaction row = k) (combine sp ds) rows ->
  Forall2 (fun s row =>
             exists raw q a,
               amount s = Some raw
               /\ DjangoTransactionsRepo._normalize_amount raw = Ok q
               /\ DjangoTransactionsRepo.resolve_account db s = Ok a
               /\ split_account row = accountID a
               /\ split_value row = float_of_decimal q
               /\ split_transaction row = k) sp rows.
Proof.
  induction sp as [|s r IH]; intros ds rows Hn Hf.
  - simpl in Hf. inversion Hf. constructor.
  - simpl in Hn. destruct (amount s) as [raw|] eqn:Ea; [|discriminate].
    destruct (DjangoTransactionsRepo._normalize_amount raw) as [q|] eqn:Eq;
      [|discriminate].
    destruct (normalized_amounts _ r) as [ds'|] eqn:Er; [|discriminate].
    inversion Hn; subst ds. simpl in Hf.
    inversion Hf as [|sa row l1 l2 [a [H1 [H2 [[_ H3] H4]]]] Hrest]; subst.
    constructor.
    + exists raw, q, a. simpl in *. repeat split; assumption.
    + eapply IH; eauto.
Qed.

(** X2.  What a successful [create] of the Django repository stores: one
    transaction with the next key, in the ledger asked for, with the
    date, description and flag given; and one split row per split of the
    list, in the order of the list, each with the key of the account its
    split resolves to and, as its amount, the double that [float()] makes
    of the normalized amount: the double nearest to it, which is not the
    normalized decimal itself in general.  Accounts, ledgers and import
    records are untouched. *)
Theorem created_transaction_rows (l : Z) (d : option date) (de : string)
  (sp : list SplitDict) (tg : list string) (nec : bool) (db db' : DB)
  (tx : Transaction) :
  splits_wf db ->
  DjangoTransactionsRepo.create l d de sp tg nec db = (Ok tx, db') ->
  d = Some (tx_date tx)
  /\ tx = mkTransaction (next_transaction db) l (tx_date tx) de nec
  /\ transactions db' = (transactions db ++ [tx])%list
  /\ accounts db' = accounts db
  /\ ledgers db' = ledgers db
  /\ import_records db' = import_records db
  /\ Forall2 (fun s row =>
                exists raw q a,
                  amount s = Some raw
                  /\ DjangoTransactionsRepo._normalize_amount raw = Ok q
                  /\ DjangoTransactionsRepo.resolve_account db s = Ok a
                  /\ split_account row = accountID a
                  /\ split_value row = float_of_decimal q
                  /\ split_transaction row = transactionID tx)
             sp (splits_of db' (transactionID tx)).
Proof.
  intros Hwf Hc.
  pose proof (create_keeps_import_records _ _ _ _ _ _ _ _ _ Hc)
    as [HI [HA [HL _]]].
  pose proof (create_ok_inv _ _ _ _ _ _ _ _ _ Hc)
    as [ds0 [dv0 [ledger0 [news0 [_ [_ [_ [_ [_ [_ [HT _]]]]]]]]]]].
  apply create_ok_steps in Hc.
  destruct Hc as [dsl [dv [ledger [db1 [db2 [Hv [Hd [Hl [Hi [Hs Ht]]]]]]]]]].
  apply find_ledger_some in Hl.
  assert (Htx : tx = mkTransaction (next_transaction db) l dv de nec).
  { unfold transaction_insert in Hi. inversion Hi. rewrite Hl. reflexivity. }
  assert (Hs1 : splits db1 = splits db /\ accounts db1 = accounts db).
  { unfold transaction_insert in Hi. inversion Hi. split; reflexivity. }
  destruct Hs1 as [Hs1 Ha1]. clear Hi.
  apply validate_ok_iff in Hv. destruct Hv as [_ [ds [Hds [Hdsl _]]]].
  pose proof (create_split_rows _ _ _ _ _ Hs) as [rows [Hrows [Hf _]]].
  destruct (attach_tags_ok tx tg db2) as [db3 [Ht' [_ Hs3]]].
  rewrite Ht in Ht'. inversion Ht'; subst db3. clear Ht'.
  assert (Hsplits : splits db' = (splits db ++ rows)%list).
  { rewrite Hs3, Hrows, Hs1. reflexivity. }
  assert (Hof : splits_of db' (transactionID tx) = rows).
  { eapply splits_of_new; eauto.
    - rewrite Htx. reflexivity.
    - clear - Hf. induction Hf as [|sa row l1 l2 [a [_ [_ [_ H]]]] _ IH];
        constructor; auto. }
  rewrite Hof.
  split; [rewrite Hd, Htx; reflexivity|].
  split; [rewrite Htx at 1; rewrite Htx; reflexivity|].
  split; [exact HT|]. split; [exact HA|]. split; [exact HL|].
  split; [exact HI|].
  eapply rows_of_splits; [exact Hds|]. rewrite <- Hdsl.
  eapply Forall2_impl; [|exact Hf].
  intros sa row [a [H1 H2]]. exists a. split; [|exact H2].
  rewrite <- H1. symmetry. apply resolve_account_ext. exact Ha1.
Qed.

(** The example transaction: its two rows carry the doubles 5.0 and
    -5.0 on account 1. *)
Lemma created_transaction_rows_witness :
  transactions example_created_db = [example_tx]
  /\ map split_value (splits_of example_created_db 1)
     = [mkFloat (5 * 2 ^ 50) (-50); mkFloat (- (5 * 2 ^ 50)) (-50)].
Proof.
  destruct (created_transaction_rows 1 (Some example_date) "lunch"
              example_splits ["food"] true example_db example_created_db
              example_tx) as [_ [_ [H _]]].
  - unfold splits_wf. constructor.
  - reflexivity.
  - split; [exact H | reflexivity].
Defined.

End CreateOutcome.

Section CreateThenGet.

(** X3.  Insert and lookup.  In a store whose keys come from the
    counters, a transaction that [create] returns is the one [get] finds
    under its key, lookups of other keys are as before, and the keys
    still come from the counters afterwards.  The same holds in the
    in-memory repository, where the unfiltered listing also shows the
    new transaction. *)
Theorem create_then_get (l : Z) (de : string) (sp : list SplitDict)
  (tg : list string) (nec : bool) :
  (forall d db db' tx,
     keys_wf db ->
     DjangoTransactionsRepo.create l d de sp tg nec db = (Ok tx, db') ->
     DjangoTransactionsRepo.get db' (transactionID tx) = Some tx
     /\ (forall k, k <> transactionID tx ->
         DjangoTransactionsRepo.get db' k = DjangoTransactionsRepo.get db k)
     /\ keys_wf db')
  /\ (forall d m m' tx,
        mem_keys_wf m ->
        InMemoryTransactionsRepo.create l d de sp tg nec m = (Ok tx, m') ->
        InMemoryTransactionsRepo.get m' (t_id tx) = Some tx
        /\ (forall k, k <> t_id tx ->
            InMemoryTransactionsRepo.get m' k
            = InMemoryTransactionsRepo.get m k)
        /\ mem_keys_wf m'
        /\ In tx (InMemoryTransactionsRepo.list_transactions m' no_filters)).
Proof.
  split.
  - intros d db db' tx [Hwt Hwa] Hc.
    pose proof (create_keeps_import_records _ _ _ _ _ _ _ _ _ Hc)
      as [_ [HA [_ HN]]].
    apply create_ok_inv in Hc.
    destruct Hc as [ds [dv [ledger [news
      [_ [_ [_ [_ [_ [Htx [HT [_ [_ [_ [_ Hnext]]]]]]]]]]]]]]].
    assert (Hid : transactionID tx = next_transaction db)
      by (rewrite Htx; reflexivity).
    unfold DjangoTransactionsRepo.get. rewrite HT. split; [|split].
    + rewrite find_snoc, Hid, (find_fresh transactionID _ _ Hwt).
      rewrite <- Hid, Z.eqb_refl. reflexivity.
    + intros k Hk. rewrite find_snoc.
      destruct (find _ (transactions db)); [reflexivity|].
      destruct (Z.eqb_spec (transactionID tx) k); [congruence|reflexivity].
    + unfold keys_wf. rewrite HT, Hnext, HA, HN. split; [|exact Hwa].
      apply Forall_app. split.
      * eapply Forall_impl; [|exact Hwt]. simpl. intros; lia.
      * constructor; [lia | constructor].
  - intros d m m' tx [Hwt Hwa] Hc.
    assert (Hm : m' = mkMem (acc_store m) (acc_next m) (tx_store m ++ [tx])
                       (tx_next m + 1)).
    { unfold InMemoryTransactionsRepo.create in Hc.
      destruct sp as [|s0 sp0]; [discriminate|].
      destruct (InMemoryTransactionsRepo.build_splits m (s0 :: sp0) [] zero2)
        as [[dsl total]|]; [|discriminate].
      destruct (quantize total) as [t|]; [|discriminate].
      destruct (dec_neb t zero2); [discriminate|].
      inversion Hc. reflexivity. }
    apply memory_create_ok_inv in Hc.
    destruct Hc as [ds [_ [_ [_ [_ [HT Hid]]]]]].
    unfold InMemoryTransactionsRepo.get. rewrite HT.
    split; [|split; [|split]].
    + rewrite find_snoc, Hid, (find_fresh t_id _ _ Hwt).
      rewrite <- Hid, Z.eqb_refl. reflexivity.
    + intros k Hk. rewrite find_snoc.
      destruct (find _ (tx_store m)); [reflexivity|].
      destruct (Z.eqb_spec (t_id tx) k); [congruence|reflexivity].
    + unfold mem_keys_wf. rewrite Hm. simpl. split; [|exact Hwa].
      apply Forall_app. split.
      * eapply Forall_impl; [|exact Hwt]. simpl. intros; lia.
      * constructor; [lia | constructor].
    + unfold InMemoryTransactionsRepo.list_transactions.
      apply (Permutation_in _ (Permutation_sym (sorted_perm _))).
      apply filter_In. split; [rewrite HT; apply in_or_app; right; left;
                               reflexivity|].
      reflexivity.
Qed.

(** The example transaction is found under key 1 in both repositories. *)
Lemma create_then_get_witness :
  DjangoTransactionsRepo.get example_created_db 1 = Some example_tx
  /\ InMemoryTransactionsRepo.get example_created_mem 1 = Some example_stub.
Proof.
  destruct (create_then_get 1 "lunch" example_splits ["food"] true)
    as [H1 H2].
  split.
  - destruct (H1 (Some example_date) example_db example_created_db
                example_tx) as [H _].
    + unfold keys_wf. split; [constructor|].
      constructor; [reflexivity | constructor].
    + reflexivity.
    + exact H.
  - destruct (H2 example_date example_mem example_created_mem example_stub)
      as [H _].
    + unfold mem_keys_wf. split; [constructor|].
      constructor; [reflexivity | constructor].
    + reflexivity.
    + exact H.
Defined.

(** X4.  Tags of a created transaction.  In a store whose tag keys are
    distinct and come from the counter, and where nothing is attached to
    a transaction that does not exist yet, the tags of the transaction
    that [create] returns are exactly the names given; tag names that
    were unique stay unique (an existing tag is reused, not stored
    again); and the store keeps these properties. *)
Theorem created_transaction_tags (l : Z) (d : option date) (de : string)
  (sp : list SplitDict) (tg : list string) (nec : bool) (db db' : DB)
  (tx : Transaction) :
  tags_wf db ->
  DjangoTransactionsRepo.create l d de sp tg nec db = (Ok tx, db') ->
  (forall n, In n (tag_names_of db' (transactionID tx)) <-> In n tg)
  /\ (unique_tag_names db -> unique_tag_names db')
  /\ tags_wf db'.
Proof.
  intros [Hnd [Hlt Hpairs]] Hc.
  pose proof (create_ok_inv _ _ _ _ _ _ _ _ _ Hc)
    as [ds0 [dv0 [ledger0 [news0
      [_ [_ [_ [_ [_ [_ [_ [_ [_ [_ [_ Hnext]]]]]]]]]]]]]]].
  apply create_ok_steps in Hc.
  destruct Hc as [dsl [dv [ledger [db1 [db2 [_ [_ [_ [Hi [Hs Ht]]]]]]]]]].
  assert (Htx : transactionID tx = next_transaction db).
  { unfold transaction_insert in Hi. inversion Hi. reflexivity. }
  assert (H1 : tags db1 = tags db /\ transaction_tags db1 = transaction_tags db
               /\ next_tag db1 = next_tag db).
  { unfold transaction_insert in Hi. inversion Hi. repeat split. }
  destruct H1 as [T1 [P1 N1]]. clear Hi.
  pose proof (create_split_rows _ _ _ _ _ Hs) as [_ [_ [_ [T2 [P2 [N2 _]]]]]].
  destruct (attach_tag_loop tx tg db2) as [db3 [Ht' [G [Hnd' [Hlt' [Hu [Hin Hp]]]]]]].
  { rewrite T2, T1. exact Hnd. }
  { rewrite T2, N2, T1, N1. exact Hlt. }
  rewrite Ht in Ht'. inversion Ht'; subst db3. clear Ht'.
  split; [|split].
  - intros n. split; [|apply Hin].
    unfold tag_names_of. rewrite in_map_iff. intros [t [Hn Hf]].
    apply filter_In in Hf. destruct Hf as [Hti He].
    apply existsb_exists in He. destruct He as [p [Hpi Hpe]].
    apply andb_true_iff in Hpe. destruct Hpe as [Hp1 Hp2].
    apply Z.eqb_eq in Hp1. apply Z.eqb_eq in Hp2.
    destruct (Hp p Hpi) as [Hold|[_ [t0 [Ht0 [Hid Hname]]]]].
    + rewrite P2, P1 in Hold. rewrite Forall_forall in Hpairs.
      apply Hpairs in Hold. lia.
    + assert (t0 = t).
      { eapply (NoDup_map_inj tag_id); eauto. congruence. }
      subst t0. rewrite <- Hn. exact Hname.
  - intros Hun. apply Hu. unfold unique_tag_names. rewrite T2, T1. exact Hun.
  - unfold tags_wf. split; [exact Hnd'|]. split; [exact Hlt'|].
    rewrite Hnext. rewrite Forall_forall. intros p Hpi.
    destruct (Hp p Hpi) as [Hold|[Hf _]].
    + rewrite P2, P1 in Hold. rewrite Forall_forall in Hpairs.
      apply Hpairs in Hold. lia.
    + rewrite Hf, Htx. lia.
Qed.

(** The example transaction has the one tag given. *)
Lemma created_transaction_tags_witness :
  In "food" (tag_names_of example_created_db 1)
  /\ ~ In "home" (tag_names_of example_created_db 1).
Proof.
  destruct (created_transaction_tags 1 (Some example_date) "lunch"
              example_splits ["food"] true example_db example_created_db
              example_tx) as [H _].
  - unfold tags_wf. split; [constructor|]. split; constructor.
  - reflexivity.
  - split.
    + apply (H "food"). left. reflexivity.
    + intros Hc. apply (H "home") in Hc. destruct Hc as [Hc|[]].
      discriminate Hc.
Defined.

End CreateThenGet.

(* ================================================================= *)
(** ** The accounts repositories *)

Section Accounts.

Lemma string_compare_refl (s : string) : String.compare s s = Eq.
Proof.
  pose proof (String.compare_antisym s s) as H.
  destruct (String.compare s s); simpl in H; congruence.
Qed.

Lemma string_compare_trans (a : string) :
  forall b c,
  String.compare a b <> Gt -> String.compare b c <> Gt ->
  String.compare a c <> Gt.
Proof.
  induction a as [|x a IH]; intros [|y b] [|z c]; simpl; try congruence.
  unfold Ascii.compare.
  destruct (N.compare_spec (N_of_ascii x) (N_of_ascii y)),
           (N.compare_spec (N_of_ascii y) (N_of_ascii z)),
           (N.compare_spec (N_of_ascii x) (N_of_ascii z));
    try congruence; try lia; eauto.
Qed.

Lemma string_leb_trans (a b c : string) :
  String.leb a b = true -> String.leb b c = true -> String.leb a c = true.
Proof.
  unfold String.leb. intros H1 H2.
  pose proof (string_compare_trans a b c) as H.
  destruct (String.compare a b); try discriminate;
    destruct (String.compare b c); try discriminate;
    destruct (String.compare a c); try reflexivity;
    exfalso; apply H; congruence.
Qed.

Lemma string_ltb_leb (a b : string) :
  String.ltb a b = true -> String.leb a b = true /\ a <> b.
Proof.
  unfold String.ltb, String.leb. intros H. split.
  - destruct (String.compare a b); try discriminate; reflexivity.
  - intros He. subst b. rewrite string_compare_refl in H. discriminate.
Qed.

Lemma string_ltb_false (a b : string) :
  String.ltb a b = false -> String.leb b a = true.
Proof.
  unfold String.ltb, String.leb. rewrite (String.compare_antisym b a).
  destruct (String.compare a b); simpl; congruence.
Qed.

Lemma insert_by_name_perm (x : _AccountStub) (l : list _AccountStub) :
  Permutation (InMemoryAccountsRepo.insert_by_name x l) (x :: l).
Proof.
  induction l as [|y r IH]; simpl; [apply Permutation_refl|].
  destruct (String.ltb (a_name y) (a_name x)); [|apply Permutation_refl].
  eapply perm_trans; [apply perm_skip; exact IH | apply perm_swap].
Qed.

Lemma insert_by_name_sorted (x : _AccountStub) (l : list _AccountStub) :
  StronglySorted (fun a b => String.leb (a_name a) (a_name b) = true) l ->
  StronglySorted (fun a b => String.leb (a_name a) (a_name b) = true)
    (InMemoryAccountsRepo.insert_by_name x l).
Proof.
  induction 1 as [|y r Hs IH Hy]; simpl.
  - constructor; constructor.
  - destruct (String.ltb (a_name y) (a_name x)) eqn:El.
    + constructor; [exact IH|].
      apply string_ltb_leb in El. destruct El as [El _].
      rewrite Forall_forall. intros z Hz.
      apply (Permutation_in _ (insert_by_name_perm x r)) in Hz.
      destruct Hz as [Hz|Hz]; [subst z; exact El|].
      rewrite Forall_forall in Hy. apply Hy. exact Hz.
    + apply string_ltb_false in El.
      constructor; [constructor; assumption|].
      constructor; [exact El|].
      eapply Forall_impl; [|exact Hy]. simpl. intros z Hz.
      eapply string_leb_trans; eauto.
Qed.

Lemma insert_by_name_stable (n : string) (x : _AccountStub)
  (l : list _AccountStub) :
  filter (fun a => String.eqb (a_name a) n)
    (InMemoryAccountsRepo.insert_by_name x l)
  = filter (fun a => String.eqb (a_name a) n) (x :: l).
Proof.
  induction l as [|y r IH]; [reflexivity|].
  cbn [InMemoryAccountsRepo.insert_by_name].
  destruct (String.ltb (a_name y) (a_name x)) eqn:El; [|reflexivity].
  apply string_ltb_leb in El. destruct El as [_ Hne].
  cbn [filter] in *. rewrite IH.
  destruct (String.eqb_spec (a_name x) n) as [Hx|Hx];
    destruct (String.eqb_spec (a_name y) n) as [Hy|Hy];
    try reflexivity. congruence.
Qed.

(** X5.  [InMemoryAccountsRepo.list] returns every stored account
    once, in ascending order of the names, and accounts of one name in
    the order in which they were created. *)
Theorem list_accounts_sorted (m : Mem) :
  Permutation (InMemoryAccountsRepo.list_accounts m) (acc_store m)
  /\ StronglySorted (fun a b => String.leb (a_name a) (a_name b) = true)
       (InMemoryAccountsRepo.list_accounts m)
  /\ (forall n,
      filter (fun a => String.eqb (a_name a) n)
        (InMemoryAccountsRepo.list_accounts m)
      = filter (fun a => String.eqb (a_name a) n) (acc_store m)).
Proof.
  unfold InMemoryAccountsRepo.list_accounts.
  induction (acc_store m) as [|x r [IH1 [IH2 IH3]]]; simpl.
  - split; [apply Permutation_refl|]. split; [constructor | reflexivity].
  - split; [|split].
    + eapply perm_trans; [apply insert_by_name_perm|].
      apply perm_skip. exact IH1.
    + apply insert_by_name_sorted. exact IH2.
    + intros n. rewrite insert_by_name_stable. simpl. rewrite IH3.
      reflexivity.
Qed.

End Accounts.

Section AccountLookups.

Lemma find_account_key (db : DB) (k : Z) (x : Account) :
  find_account db k = Some x -> accountID x = k.
Proof.
  unfold find_account. intros H. apply find_some in H.
  destruct H as [_ H]. apply Z.eqb_eq. exact H.
Qed.

(** X6.  Creating an account and looking it up.  In a store whose keys
    come from the counters, the account that [create] returns is in the
    ledger asked for, which exists afterwards, and is the one [get] finds
    under its key.  [get_by_name] finds it only when the name was not
    taken: otherwise it keeps returning the oldest account of that name.
    A parent is recorded only when it is the key of an existing account.
    The in-memory repository behaves the same for [get] and
    [get_by_name]. *)
Theorem account_create_then_get (n ty : string) :
  (forall p act l db db' a,
     keys_wf db ->
     DjangoAccountsRepo.create n ty p act l db = (Ok a, db') ->
     DjangoAccountsRepo.get db' (accountID a) = Some a
     /\ DjangoAccountsRepo.get_by_name db' n
        = match DjangoAccountsRepo.get_by_name db n with
          | Some old => Some old
          | None => Some a
          end
     /\ acc_ledger a = l
     /\ find_ledger db' l <> None
     /\ (forall k, acc_parent a = Some k ->
         exists x, DjangoAccountsRepo.get db k = Some x /\ accountID x = k)
     /\ keys_wf db')
  /\ (forall l m,
        mem_keys_wf m ->
        let (a, m') := InMemoryAccountsRepo.create n ty l m in
        InMemoryAccountsRepo.get m' (a_id a) = Some a
        /\ InMemoryAccountsRepo.get_by_name m' n
           = match InMemoryAccountsRepo.get_by_name m n with
             | Some old => Some old
             | None => Some a
             end
        /\ mem_keys_wf m').
Proof.
  split.
  - intros p act l db db' a [Hwt Hwa] Hc.
    unfold DjangoAccountsRepo.create, mbind in Hc.
    set (parent_obj :=
           if truthy_int p
           then match p with
                | Some p0 => option_map accountID (find_account db p0)
                | None => None
                end
           else None) in *.
    assert (Hparent : forall k, parent_obj = Some k ->
              exists x, DjangoAccountsRepo.get db k = Some x
                        /\ accountID x = k).
    { intros k Hk. unfold parent_obj in Hk.
      destruct (truthy_int p); [|discriminate].
      destruct p as [p0|]; [|discriminate].
      destruct (find_account db p0) as [x|] eqn:Ef; [|discriminate].
      simpl in Hk. inversion Hk; subst k.
      pose proof (find_account_key _ _ _ Ef) as Hx.
      exists x. unfold DjangoAccountsRepo.get. rewrite Hx. auto. }
    assert (Hfresh : find (fun x => accountID x =? next_account db)
                       (accounts db) = None)
      by (apply (find_fresh accountID); exact Hwa).
    unfold ledger_get_or_create in Hc.
    destruct (find_ledger db l) as [ledger|] eqn:El;
      unfold account_insert in Hc; inversion Hc; subst a; clear Hc;
      cbn [accountID acc_ledger acc_parent];
      unfold DjangoAccountsRepo.get, DjangoAccountsRepo.get_by_name,
        find_account, find_account_by_name, keys_wf, find_ledger;
      cbn [accounts next_account transactions next_transaction ledgers];
      rewrite !find_snoc, Hfresh; cbn [accountID acc_name];
      rewrite Z.eqb_refl, String.eqb_refl.
    + split; [reflexivity|]. split; [reflexivity|]. split; [reflexivity|].
      split; [unfold find_ledger in El; rewrite El; discriminate|].
      split; [exact Hparent|]. split; [exact Hwt|].
      apply Forall_app. split.
      * eapply Forall_impl; [|exact Hwa]. simpl. intros; lia.
      * constructor; [simpl; lia | constructor].
    + split; [reflexivity|]. split; [reflexivity|]. split; [reflexivity|].
      split.
      { unfold find_ledger in El. rewrite El. cbn [ledgerID].
        rewrite Z.eqb_refl. discriminate. }
      split; [exact Hparent|]. split; [exact Hwt|].
      apply Forall_app. split.
      * eapply Forall_impl; [|exact Hwa]. simpl. intros; lia.
      * constructor; [simpl; lia | constructor].
  - intros l m [Hwt Hwa]. unfold InMemoryAccountsRepo.create.
    unfold InMemoryAccountsRepo.get, InMemoryAccountsRepo.get_by_name,
      mem_keys_wf.
    cbn [acc_store acc_next tx_store tx_next a_id a_name].
    rewrite !find_snoc, (find_fresh a_id _ _ Hwa).
    cbn [a_id a_name]. rewrite Z.eqb_refl, String.eqb_refl.
    split; [reflexivity|]. split; [reflexivity|]. split; [exact Hwt|].
    apply Forall_app. split.
    + eapply Forall_impl; [|exact Hwa]. simpl. intros; lia.
    + constructor; [simpl; lia | constructor].
Qed.

(** A second "Cash" in ledger 1: it is found under its key 2, and the
    lookup by name still returns the first one. *)
Lemma account_create_then_get_witness :
  DjangoAccountsRepo.get example_twice_db 2
  = Some (mkAccount 2 1 "Cash" "ASSET" None true)
  /\ DjangoAccountsRepo.get_by_name example_twice_db "Cash"
     = Some (mkAccount 1 1 "Cash" "ASSET" None true).
Proof.
  destruct (account_create_then_get "Cash" "ASSET") as [H _].
  destruct (H None true 1 example_db example_twice_db
              (mkAccount 2 1 "Cash" "ASSET" None true)) as [H1 [H2 _]].
  - unfold keys_wf. split; [constructor|].
    constructor; [reflexivity | constructor].
  - reflexivity.
  - split; [exact H1 | exact H2].
Defined.

End AccountLookups.

(* ================================================================= *)
(** ** The two splits of an imported row *)

Section ImportedSplits.

Lemma round_half_even_opp (n m : Z) :
  0 < m -> round_half_even (- n) m = - round_half_even n m.
Proof.
  intros Hm. unfold round_half_even.
  pose proof (Z.div_mod n m ltac:(lia)) as Hn.
  pose proof (Z.mod_pos_bound n m Hm) as Hr.
  destruct (Z.eq_dec (n mod m) 0) as [Hz|Hz].
  - assert (Hq : (- n) / m = - (n / m)).
    { symmetry. apply (Z.div_unique (- n) m (- (n / m)) 0); lia. }
    assert (Hr' : (- n) mod m = 0).
    { symmetry. apply (Z.mod_unique (- n) m (- (n / m)) 0); lia. }
    rewrite Hq, Hr', Hz.
    destruct (Z.ltb_spec (2 * 0) m); [reflexivity | lia].
  - assert (Hq : (- n) / m = - (n / m) - 1).
    { symmetry. apply (Z.div_unique (- n) m (- (n / m) - 1) (m - n mod m));
        lia. }
    assert (Hr' : (- n) mod m = m - n mod m).
    { symmetry. apply (Z.mod_unique (- n) m (- (n / m) - 1) (m - n mod m));
        lia. }
    rewrite Hq, Hr'.
    assert (He : Z.even (- (n / m) - 1) = negb (Z.even (n / m))).
    { replace (- (n / m) - 1) with (- Z.succ (n / m)) by lia.
      rewrite Z.even_opp, Z.even_succ, <- Z.negb_even. reflexivity. }
    rewrite He.
    destruct (Z.ltb_spec (2 * (n mod m)) m);
      destruct (Z.ltb_spec m (2 * (n mod m)));
      destruct (Z.ltb_spec (2 * (m - n mod m)) m);
      destruct (Z.ltb_spec m (2 * (m - n mod m)));
      try lia.
    destruct (Z.even (n / m)); simpl; lia.
Qed.

Lemma rescale_neg (d : Decimal) (e : Z) :
  rescale (dec_neg d) e = - rescale d e.
Proof.
  unfold rescale, dec_neg. cbn [coef expo].
  destruct (Z.leb_spec e (expo d)); [lia|].
  apply round_half_even_opp. apply Z.pow_pos_nonneg; lia.
Qed.

Lemma quantize_neg (d q : Decimal) :
  quantize d = Ok q -> quantize (dec_neg d) = Ok (dec_neg q).
Proof.
  unfold quantize. rewrite rescale_neg, Z.abs_opp.
  destruct (Z.abs (rescale d cents) <? 10 ^ prec); [|discriminate].
  intros H. inversion H. reflexivity.
Qed.

(** The amount and its negation pass the checks of [create]. *)
Lemma imported_pair_valid (d q : Decimal) (a1 a2 : option Z)
  (n1 n2 : option string) :
  Z.abs (coef d) < 10 ^ prec ->
  quantize d = Ok q ->
  DjangoTransactionsRepo.validate
    [mkSplitDict (Some (PyDec d)) a1 n1;
     mkSplitDict (Some (PyDec (py_neg d))) a2 n2]
  = Ok [(mkSplitDict (Some (PyDec d)) a1 n1, q);
        (mkSplitDict (Some (PyDec (py_neg d))) a2 n2, dec_neg q)].
Proof.
  intros Hd Hq.
  assert (Hneg : py_neg d = dec_neg d).
  { unfold py_neg. apply fix_prec_small. unfold dec_neg. cbn [coef].
    rewrite Z.abs_opp. exact Hd. }
  pose proof (quantize_neg _ _ Hq) as Hq'.
  pose proof (quantize_normalized _ _ Hq) as Hn.
  pose proof (quantize_normalized _ _ Hq') as Hn'.
  apply validate_ok_iff. split; [discriminate|].
  exists [q; dec_neg q]. split; [|split].
  - cbn [normalized_amounts amount].
    unfold DjangoTransactionsRepo._normalize_amount. cbn [Decimal_of_str].
    rewrite Hq, Hneg, Hq'. reflexivity.
  - reflexivity.
  - cbn [fold_left]. rewrite (dec_add_zero2_l _ Hn).
    destruct Hn as [He _]. destruct Hn' as [He' _].
    rewrite dec_add_cents; auto.
    + unfold dec_neg. cbn [coef]. rewrite Z.add_opp_diag_r. reflexivity.
    + unfold dec_neg. cbn [coef]. rewrite Z.add_opp_diag_r.
      unfold prec. simpl. lia.
Qed.

(** X7.  The importer hands [create] the amount of the row and its
    negation.  When the amount has at most 28 digits and fits two decimal
    places, the two splits pass the balance check of [create]: they are
    stored as the quantized amount and its opposite.  (Unary minus rounds
    to 28 digits first, so a longer amount can be quantized differently
    on the two sides.) *)
Theorem imported_splits_balance (d q : Decimal) (a1 a2 : option Z)
  (n1 n2 : option string) :
  Z.abs (coef d) < 10 ^ prec ->
  quantize d = Ok q ->
  DjangoTransactionsRepo.validate
    [mkSplitDict (Some (PyDec d)) a1 n1;
     mkSplitDict (Some (PyDec (py_neg d))) a2 n2]
  = Ok [(mkSplitDict (Some (PyDec d)) a1 n1, q);
        (mkSplitDict (Some (PyDec (py_neg d))) a2 n2, dec_neg q)].
Proof. apply imported_pair_valid. Qed.

(** The amount -50.00 of scenario 1, and an amount of thirty digits whose
    two splits are refused as unbalanced. *)
Lemma imported_splits_balance_witness :
  DjangoTransactionsRepo.validate
    [mkSplitDict (Some (PyDec (mkDec (-5000) (-2)))) (Some 1) None;
     mkSplitDict (Some (PyDec (py_neg (mkDec (-5000) (-2))))) (Some 2) None]
  = Ok [(mkSplitDict (Some (PyDec (mkDec (-5000) (-2)))) (Some 1) None,
         mkDec (-5000) (-2));
        (mkSplitDict (Some (PyDec (py_neg (mkDec (-5000) (-2))))) (Some 2)
           None, mkDec 5000 (-2))].
Proof.
  apply (imported_splits_balance (mkDec (-5000) (-2)) (mkDec (-5000) (-2))).
  - vm_compute. reflexivity.
  - reflexivity.
Defined.

Example long_amount_unbalanced :
  let d := mkDec 123456789012345678901234512501 (-5) in
  DjangoTransactionsRepo.validate
    [mkSplitDict (Some (PyDec d)) (Some 1) None;
     mkSplitDict (Some (PyDec (py_neg d))) (Some 2) None]
  = Raise (ValidationError "Transaction not balanced: splits sum to 0.01").
Proof. vm_compute. reflexivity. Qed.

End ImportedSplits.

(* ================================================================= *)
(** ** The in-memory repository against the Django one *)

Section Siblings.

Lemma normalize_agree (raw : PyVal) (q : Decimal) :
  InMemoryTransactionsRepo._normalize_amount raw = Ok q
  <-> DjangoTransactionsRepo._normalize_amount raw = Ok q.
Proof.
  unfold InMemoryTransactionsRepo._normalize_amount,
    DjangoTransactionsRepo._normalize_amount.
  destruct (Decimal_of_str raw) as [d|].
  - destruct (quantize d) as [q0|e]; split; intros H; try discriminate;
      exact H.
  - split; discriminate.
Qed.

Lemma normalized_amounts_agree (sp : list SplitDict) :
  normalized_amounts InMemoryTransactionsRepo._normalize_amount sp
  = normalized_amounts DjangoTransactionsRepo._normalize_amount sp.
Proof.
  induction sp as [|s r IH]; [reflexivity|].
  cbn [normalized_amounts]. destruct (amount s) as [raw|]; [|reflexivity].
  rewrite IH.
  destruct (InMemoryTransactionsRepo._normalize_amount raw) as [q|e] eqn:Em.
  - apply normalize_agree in Em. rewrite Em. reflexivity.
  - destruct (DjangoTransactionsRepo._normalize_amount raw) as [q|e'] eqn:Ed;
      [|reflexivity].
    apply normalize_agree in Ed. congruence.
Qed.

(** X8.  The two [_normalize_amount] return the same decimals, and they
    differ in what they raise: the Django one raises a [ValidationError]
    for a text that is not a number and lets the [InvalidOperation] of an
    overflowing quantization through; the in-memory one raises a
    [ValidationError] in both cases.  As a consequence the in-memory
    [create] accepts a list of splits exactly when the checks of the
    Django [create] before its atomic block accept it and every split
    names an account the in-memory lookup resolves.  The in-memory
    transaction then keeps the normalized decimals that those checks
    compute; the rows of the Django store do not hold these decimals but
    the doubles that [float()] makes of them. *)
Theorem in_memory_create_agrees (l : Z) (d : date) (de : string)
  (sp : list SplitDict) (tg : list string) (nec : bool) (m : Mem) :
  (forall raw,
     match DjangoTransactionsRepo._normalize_amount raw,
           InMemoryTransactionsRepo._normalize_amount raw with
     | Ok q, Ok q' => q = q'
     | Raise e, Raise e' =>
         e' = ValidationError ("Invalid amount: " ++ py_str raw)
         /\ (e = ValidationError ("Invalid amount value: " ++ py_str raw)
             /\ Decimal_of_str raw = None
             \/ e = quantize_error /\ Decimal_of_str raw <> None)
     | _, _ => False
     end)
  /\ ((exists tx m',
         InMemoryTransactionsRepo.create l d de sp tg nec m = (Ok tx, m'))
      <-> (exists dsl, DjangoTransactionsRepo.validate sp = Ok dsl)
          /\ Forall (fun s => exists k,
                       InMemoryTransactionsRepo.resolve_account_id m s
                       = Ok k) sp)
  /\ (forall tx m' dsl,
        InMemoryTransactionsRepo.create l d de sp tg nec m = (Ok tx, m') ->
        DjangoTransactionsRepo.validate sp = Ok dsl ->
        map s_amount (t_splits tx) = map snd dsl)
  /\ (forall tx m' d' db db' tx',
        splits_wf db ->
        InMemoryTransactionsRepo.create l d de sp tg nec m = (Ok tx, m') ->
        DjangoTransactionsRepo.create l d' de sp tg nec db = (Ok tx', db') ->
        map split_value (splits_of db' (transactionID tx'))
        = map (fun s => float_of_decimal (s_amount s)) (t_splits tx)).
Proof.
  split; [|split; [|split]].
  - intros raw.
    unfold InMemoryTransactionsRepo._normalize_amount,
      DjangoTransactionsRepo._normalize_amount.
    destruct (Decimal_of_str raw) as [x|] eqn:Ex.
    + destruct (quantize x) as [q|e] eqn:Eq; [reflexivity|].
      apply quantize_raises in Eq. destruct Eq as [Eq _].
      split; [reflexivity|]. right. split; [exact Eq | discriminate].
    + split; [reflexivity|]. left. split; reflexivity.
  - split.
    + intros [tx [m' Hc]].
      assert (Hres : Forall (fun s => exists k,
                       InMemoryTransactionsRepo.resolve_account_id m s
                       = Ok k) sp).
      { unfold InMemoryTransactionsRepo.create in Hc.
        destruct sp as [|s0 sp0]; [discriminate|].
        destruct (InMemoryTransactionsRepo.build_splits m (s0 :: sp0) []
                    zero2) as [[acc total]|e] eqn:Eb; [|discriminate].
        clear Hc. revert Eb. generalize (s0 :: sp0). generalize zero2.
        generalize (@nil _SplitStub). clear.
        intros acc0 t0 sp. revert acc0 t0.
        induction sp as [|s r IH]; intros acc0 t0 Eb; [constructor|].
        cbn [InMemoryTransactionsRepo.build_splits] in Eb.
        destruct (amount s) as [raw|]; [|discriminate].
        destruct (InMemoryTransactionsRepo._normalize_amount raw) as [a|];
          [|discriminate].
        cbn [bind] in Eb.
        destruct (InMemoryTransactionsRepo.resolve_account_id m s)
          as [k|] eqn:Er; [|discriminate].
        cbn [bind] in Eb. constructor; [exists k; exact Er|].
        eapply IH; eauto. }
      split; [|exact Hres].
      apply memory_create_ok_inv in Hc.
      destruct Hc as [ds [Hne [Hds [Hq _]]]].
      exists (combine sp ds). apply validate_ok_iff. split; [exact Hne|].
      exists ds. rewrite <- normalized_amounts_agree. auto.
    + intros [[dsl Hv] Hres].
      apply validate_ok_iff in Hv. destruct Hv as [Hne [ds [Hds [_ Hq]]]].
      rewrite <- normalized_amounts_agree in Hds.
      destruct (build_splits_spec m sp [] zero2 ds Hds Hres) as [acc' Hb].
      unfold InMemoryTransactionsRepo.create.
      destruct sp as [|s0 sp0]; [congruence|].
      rewrite Hb, Hq.
      change (dec_neb zero2 zero2) with false. cbv iota.
      eexists. eexists. reflexivity.
  - intros tx m' dsl Hc Hv.
    apply memory_create_ok_inv in Hc.
    destruct Hc as [ds [_ [Hds [_ [Hs _]]]]].
    apply validate_ok_iff in Hv. destruct Hv as [_ [ds' [Hds' [Hdsl _]]]].
    rewrite normalized_amounts_agree in Hds.
    assert (ds' = ds) by congruence. subst ds'.
    assert (Hlen : List.length ds = List.length sp).
    { eapply normalized_amounts_Forall; eauto.
      apply django_normalize_normalized. }
    rewrite Hs, Hdsl. clear - Hlen. revert ds Hlen.
    induction sp as [|s r IH]; intros [|a ds] Hlen; simpl in *;
      try discriminate; auto.
    f_equal. apply IH. congruence.
  - intros tx m' d' db db' tx' Hwf Hm Hd.
    apply memory_create_ok_inv in Hm.
    destruct Hm as [dsm [_ [Hdsm [_ [Hsm _]]]]].
    rewrite normalized_amounts_agree in Hdsm.
    pose proof (create_ok_inv _ _ _ _ _ _ _ _ _ Hd)
      as [ds [dv [ledger [news
        [_ [Hds [_ [_ [_ [Htx [_ [HS [Ham [Hft _]]]]]]]]]]]]]].
    assert (Hsd : map s_amount (t_splits tx) = ds) by congruence.
    apply create_ok_steps in Hd.
    destruct Hd as [dsl [dv0 [ledger0 [db1 [db2 [_ [_ [_ [Hi [Hs2 Ht]]]]]]]]]].
    assert (Hs1 : splits db1 = splits db).
    { unfold transaction_insert in Hi. inversion Hi. reflexivity. }
    pose proof (create_split_rows _ _ _ _ _ Hs2) as [rows [Hrows [Hf _]]].
    destruct (attach_tags_ok tx' tg db2) as [db3 [Ht' [_ Hs3]]].
    rewrite Ht in Ht'. inversion Ht'; subst db3. clear Ht'.
    assert (Hnews : news = rows).
    { apply (app_inv_head (splits db)). rewrite <- HS, Hs3, Hrows, Hs1.
      reflexivity. }
    subst news.
    assert (Hof : splits_of db' (transactionID tx') = rows).
    { eapply splits_of_new; eauto. rewrite Htx. reflexivity. }
    rewrite Hof, <- (map_map s_amount float_of_decimal), Hsd, <- Ham.
    rewrite map_map. clear - Hf.
    induction Hf as [|sa row l1 l2 [a [_ [_ [[H1 H2] _]]]] _ IH];
      [reflexivity|].
    cbn [map]. rewrite H2, H1, IH. reflexivity.
Qed.

(** The example splits pass in both repositories: the in-memory
    transaction keeps 5.00 and -5.00, the rows of the Django store the
    doubles of these. *)
Lemma in_memory_create_agrees_witness :
  map s_amount (t_splits example_stub)
  = [mkDec 500 (-2); mkDec (-500) (-2)]
  /\ map split_value (splits_of example_created_db (transactionID example_tx))
     = map (fun s => float_of_decimal (s_amount s)) (t_splits example_stub).
Proof.
  destruct (in_memory_create_agrees 1 example_date "lunch" example_splits
              ["food"] true example_mem) as [_ [_ [H1 H2]]].
  split.
  - apply (H1 example_stub example_created_mem
             [(split_by_id "5.00" 1, mkDec 500 (-2));
              (split_by_id "-5.00" 1, mkDec (-500) (-2))]).
    + reflexivity.
    + reflexivity.
  - apply (H2 example_stub example_created_mem (Some example_date)
             example_db example_created_db example_tx).
    + unfold splits_wf. constructor.
    + reflexivity.
    + reflexivity.
Defined.

End Siblings.

(* ================================================================= *)
(** ** The rows of an import *)

Section ImportRows.

Context (L : Libs).

Lemma only_accounts_grow_refl (db : DB) : only_accounts_grow db db.
Proof.
  unfold only_accounts_grow. split; [exists []; rewrite app_nil_r|];
    repeat split; reflexivity.
Qed.

Lemma only_accounts_grow_trans (a b c : DB) :
  only_accounts_grow a b -> only_accounts_grow b c -> only_accounts_grow a c.
Proof.
  unfold only_accounts_grow.
  intros [[n1 A1] [T1 [S1 [G1 [P1 [I1 [R1 [N1 M1]]]]]]]]
         [[n2 A2] [T2 [S2 [G2 [P2 [I2 [R2 [N2 M2]]]]]]]].
  split; [exists (n1 ++ n2)%list; rewrite A2, A1, app_assoc; reflexivity|].
  repeat split; congruence.
Qed.

(** [_ensure_account] always returns an account of the name asked for,
    stored in the table of accounts, and touches nothing but accounts
    and ledgers. *)
Lemma ensure_account_ok (n ty : string) (l : Z) (db : DB) :
  exists a db',
    _ensure_account n ty l db = (Ok a, db')
    /\ only_accounts_grow db db'
    /\ In a (accounts db')
    /\ acc_name a = n.
Proof.
  assert (Hc : exists a db',
            DjangoAccountsRepo.create n ty None true l db = (Ok a, db')
            /\ only_accounts_grow db db'
            /\ In a (accounts db')
            /\ acc_name a = n).
  { unfold DjangoAccountsRepo.create, mbind, ledger_get_or_create.
    destruct (find_ledger db l); unfold account_insert;
      eexists; eexists; (split; [reflexivity|]);
      unfold only_accounts_grow; cbn;
      (split; [split; [eexists; reflexivity | repeat split]|]);
      (split; [apply in_or_app; right; left; reflexivity | reflexivity]). }
  unfold _ensure_account.
  destruct (DjangoAccountsRepo.get_by_name db n) as [acc|] eqn:Eg;
    [|exact Hc].
  destruct (acc_ledger acc =? l); [|exact Hc].
  apply find_by_name_some in Eg. destruct Eg as [Hin Hname].
  exists acc, db. split; [reflexivity|].
  split; [apply only_accounts_grow_refl|]. split; assumption.
Qed.

(** A row either fails before anything is stored, or gets as far as
    [create] after its category account is ensured; the splits it hands
    to [create] are the amount on the asset account and its negation on
    the category account. *)
Lemma row_body_outcome (rules_list : Rules) (l : Z)
  (asset_acc : Account) (row : Row) (k : string) (db db' : DB)
  (r : result Transaction) :
  row_body L rules_list l asset_acc row k db = (r, db') ->
  (exists e, r = Raise e /\ db' = db)
  \/ (exists db1 d text amt acc tg nec,
        _parse_amount (row_get row k) = Ok amt
        /\ only_accounts_grow db db1
        /\ In acc (accounts db1)
        /\ DjangoTransactionsRepo.create l d text
             [mkSplitDict (Some (PyDec amt)) (Some (accountID asset_acc))
                None;
              mkSplitDict (Some (PyDec (py_neg amt)))
                (Some (accountID acc)) None] tg nec db1 = (r, db')).
Proof.
  unfold row_body, mbind, lift.
  destruct (_parse_amount (row_get row k)) as [amt|e] eqn:Ea;
    [|intros H; inversion H; left; eexists; split; reflexivity].
  match goal with
  | |- context [match_rules L ?t rules_list] =>
      destruct (match_rules L t rules_list) as [matched|e]
  end; [|intros H; inversion H; left; eexists; split; reflexivity].
  match goal with
  | |- (let '(c, n) := ?x in _) _ = _ -> _ => destruct x as [[c|] nec]
  end.
  - assert (Hgo : forall n ty,
              (let (r0, db'0) := _ensure_account n ty l db in
               match r0 with
               | Ok a =>
                   DjangoTransactionsRepo.create l
                     match first_key row ["date"; "transaction date"] with
                     | Some k0 => _parse_date L (row_get row k0)
                     | None => Some (today L)
                     end
                     (let t :=
                        strip
                          (match
                             first_key row
                               ["payee"; "description"; "merchant"]
                           with
                           | Some k0 =>
                               if row_has row k0
                               then cell_text (row_get row k0)
                               else ""
                           | None => ""
                           end ++ " " ++
                           (if row_has row "desc"
                            then cell_text (row_get row "desc")
                            else
                              match low_keys_get row "description" with
                              | Some desc_key =>
                                  cell_text (row_get row desc_key)
                              | None => ""
                              end)) in
                      if is_empty t then "Imported Transaction" else t)
                     [mkSplitDict (Some (PyDec amt))
                        (Some (accountID asset_acc)) None;
                      mkSplitDict (Some (PyDec (py_neg amt)))
                        (Some (accountID a)) None]
                     (parse_tags row (first_key row ["tags"; "tag"])) nec
                     db'0
               | Raise e => (Raise e, db'0)
               end) = (r, db') ->
              (exists e, r = Raise e /\ db' = db)
              \/ (exists db1 d text amt0 acc tg nec0,
                    Ok amt = Ok amt0
                    /\ only_accounts_grow db db1
                    /\ In acc (accounts db1)
                    /\ DjangoTransactionsRepo.create l d text
                         [mkSplitDict (Some (PyDec amt0))
                            (Some (accountID asset_acc)) None;
                          mkSplitDict (Some (PyDec (py_neg amt0)))
                            (Some (accountID acc)) None] tg nec0 db1
                       = (r, db'))).
    { intros n ty.
      destruct (ensure_account_ok n ty l db) as [a [db1 [He [Hg [Hi _]]]]].
      rewrite He. intros H. right. exists db1.
      do 2 eexists. exists amt, a. do 2 eexists.
      split; [reflexivity|]. split; [exact Hg|]. split; [exact Hi|].
      exact H. }
    match goal with
    | |- context [negb (contains ":" ?c)] =>
        destruct (negb (contains ":" c));
        [destruct (dec_ltb amt (mkDec 0 0))|]
    end; apply Hgo.
  - intros H; inversion H; left; eexists; split; reflexivity.
Qed.

(** One iteration of the loop never raises: it stores one transaction
    and records its key, or it records an error and stores no
    transaction, split or tag. *)
Lemma process_row_spec (rules_list : Rules) (l : Z)
  (asset_acc : Account) (idx : Z) (row : Row) (p : Progress) (db : DB) :
  exists p' db',
    process_row L rules_list l asset_acc idx row p db = (Ok p', db')
    /\ import_records db' = import_records db
    /\ (exists new, accounts db' = (accounts db ++ new)%list)
    /\ ((exists tx,
           transactions db' = (transactions db ++ [tx])%list
           /\ created p' = created p + 1
           /\ row_errors p' = row_errors p
           /\ created_tx_ids p'
              = (created_tx_ids p ++ [transactionID tx])%list)
        \/ (exists msg,
              transactions db' = transactions db
              /\ splits db' = splits db
              /\ tags db' = tags db
              /\ transaction_tags db' = transaction_tags db
              /\ created p' = created p
              /\ row_errors p'
                 = (row_errors p
                    ++ [("row " ++ str_of_int idx ++ ": " ++ msg)%string])%list
              /\ created_tx_ids p' = created_tx_ids p)).
Proof.
  unfold process_row.
  destruct (detect_amount_key row) as [[k|]|e0].
  - destruct (row_body L rules_list l asset_acc row k db) as [[tx|e] db']
      eqn:Er.
    + eexists. eexists. split; [reflexivity|]. cbn [created row_errors
        created_tx_ids].
      apply row_body_outcome in Er.
      destruct Er as [[e [He _]]|[db1 [d [text [amt [acc [tg [nec
        [_ [Hg [_ Hc]]]]]]]]]]]; [discriminate|].
      pose proof (create_keeps_import_records _ _ _ _ _ _ _ _ _ Hc)
        as [HI [HA _]].
      apply create_ok_inv in Hc.
      destruct Hc as [ds [dv [ledger [news
        [_ [_ [_ [_ [_ [_ [HT _]]]]]]]]]]].
      destruct Hg as [[new A1] [T1 [_ [_ [_ [I1 _]]]]]].
      split; [congruence|]. split; [exists new; congruence|].
      left. exists tx. rewrite HT, T1. auto.
    + eexists. eexists. split; [reflexivity|]. cbn [created row_errors
        created_tx_ids].
      apply row_body_outcome in Er.
      destruct Er as [[e0 [_ Hdb]]|[db1 [d [text [amt [acc [tg [nec
        [_ [Hg [_ Hc]]]]]]]]]]].
      * subst db'. split; [reflexivity|].
        split; [exists []; rewrite app_nil_r; reflexivity|].
        right. exists (exn_str e). repeat split; reflexivity.
      * apply create_raises in Hc. destruct Hc as [Hdb _]. subst db'.
        destruct Hg as [[new A1] [T1 [S1 [G1 [P1 [I1 _]]]]]].
        split; [exact I1|]. split; [exists new; exact A1|].
        right. exists (exn_str e). repeat split; auto.
  - eexists. eexists. split; [reflexivity|]. cbn [created row_errors
      created_tx_ids].
    split; [reflexivity|].
    split; [exists []; rewrite app_nil_r; reflexivity|].
    right. exists "No amount column found". repeat split; reflexivity.
  - eexists. eexists. split; [reflexivity|]. cbn [created row_errors
      created_tx_ids].
    split; [reflexivity|].
    split; [exists []; rewrite app_nil_r; reflexivity|].
    right. exists (exn_str e0). repeat split; reflexivity.
Qed.

(** The loop over the rows: every row gives a transaction or an error. *)
Lemma process_rows_spec (rules_list : Rules) (l : Z)
  (asset_acc : Account) (rows : list Row) :
  forall idx p db,
  exists p' db' txs errs,
    process_rows L rules_list l asset_acc idx rows p db = (Ok p', db')
    /\ transactions db' = (transactions db ++ txs)%list
    /\ created_tx_ids p'
       = (created_tx_ids p ++ map transactionID txs)%list
    /\ created p' = created p + Z.of_nat (List.length txs)
    /\ row_errors p' = (row_errors p ++ errs)%list
    /\ (List.length txs + List.length errs = List.length rows)%nat
    /\ import_records db' = import_records db
    /\ (exists new, accounts db' = (accounts db ++ new)%list).
Proof.
  induction rows as [|row rest IH]; intros idx p db.
  - exists p, db, [], []. cbn [process_rows ret map List.length].
    rewrite !app_nil_r. repeat split; try reflexivity; try lia.
    exists []. rewrite app_nil_r. reflexivity.
  - destruct (process_row_spec rules_list l asset_acc idx row p db)
      as [p1 [db1 [E1 [I1 [[n1 A1] H1]]]]].
    destruct (IH (idx + 1) p1 db1)
      as [p' [db' [txs [errs [E2 [T2 [K2 [C2 [R2 [L2 [I2 [n2 A2]]]]]]]]]]]].
    cbn [process_rows]. unfold mbind. rewrite E1.
    destruct H1 as [[tx [T1 [C1 [R1 K1]]]]|[msg [T1 [_ [_ [_ [C1 [R1 K1]]]]]]]].
    + exists p', db', (tx :: txs), errs. split; [exact E2|].
      split; [rewrite T2, T1, <- app_assoc; reflexivity|].
      split; [rewrite K2, K1, <- app_assoc; reflexivity|].
      split; [rewrite C2, C1; cbn [List.length]; lia|].
      split; [rewrite R2, R1; reflexivity|].
      split; [cbn [List.length]; lia|].
      split; [congruence|].
      exists (n1 ++ n2)%list. rewrite A2, A1, app_assoc. reflexivity.
    + exists p', db', txs,
        (("row " ++ str_of_int idx ++ ": " ++ msg) :: errs).
      split; [exact E2|].
      split; [rewrite T2, T1; reflexivity|].
      split; [rewrite K2, K1; reflexivity|].
      split; [rewrite C2, C1; reflexivity|].
      split; [rewrite R2, R1, <- app_assoc; reflexivity|].
      split; [cbn [List.length]; lia|].
      split; [congruence|].
      exists (n1 ++ n2)%list. rewrite A2, A1, app_assoc. reflexivity.
Qed.

(** The import proper: what it returns and what it stores. *)
Lemma run_import_spec (file_bytes : string) (file_name : option string)
  (rules_bytes : option string) (h : string) (l : Z) (asset : string)
  (db db' : DB) (res : CSVImportResult) :
  run_import L file_bytes file_name rules_bytes h l asset db = (Ok res, db') ->
  exists txs ir,
    skipped res = false
    /\ import_record res = Some ir
    /\ import_records db' = (import_records db ++ [ir])%list
    /\ file_hash ir = h
    /\ imported_count ir = created_count res
    /\ meta_tx_ids ir = map transactionID txs
    /\ meta_errors ir = errors res
    /\ transactions db' = (transactions db ++ txs)%list
    /\ created_count res = Z.of_nat (List.length txs)
    /\ (List.length txs + List.length (errors res)
        = List.length (csv_DictReader L file_bytes))%nat.
Proof.
  unfold run_import, mbind.
  destruct (ledger_get_or_create l _ db) as [[lg|e0] db0] eqn:E0;
    [|discriminate].
  assert (H0 : transactions db0 = transactions db
               /\ import_records db0 = import_records db).
  { unfold ledger_get_or_create in E0. destruct (find_ledger db l);
      inversion E0; split; reflexivity. }
  destruct H0 as [T0 I0].
  match goal with
  | |- (match ?x with _ => _ end) = _ -> _ =>
      destruct x as [[rules_list|e1] db1] eqn:E1; [|discriminate]
  end.
  assert (Hdb1 : db1 = db0).
  { destruct rules_bytes as [b|]; [destruct (negb (is_empty b))|];
      inversion E1; reflexivity. }
  subst db1. clear E1.
  match goal with
  | |- context [_ensure_account ?n ?ty l db0] =>
      destruct (ensure_account_ok n ty l db0)
        as [acc [db2 [E2 [[_ [T2 [_ [_ [_ [I2 _]]]]]] _]]]]
  end.
  rewrite E2.
  destruct (process_rows_spec rules_list l acc
              (csv_DictReader L file_bytes) 1 (mkProgress 0 [] []) db2)
    as [p [db3 [txs [errs [E3 [T3 [K3 [C3 [R3 [L3 [I3 _]]]]]]]]]]].
  rewrite E3. unfold atomic, import_insert, ret.
  intros H.
  assert (Hres : res = mkCSVImportResult (created p) false
                         (Some (mkImportRecord (next_import db3) h file_name
                                  (created p) (created_tx_ids p)
                                  (row_errors p)))
                         (row_errors p)) by (inversion H; reflexivity).
  assert (Hrec : import_records db'
                 = (import_records db3
                    ++ [mkImportRecord (next_import db3) h file_name
                          (created p) (created_tx_ids p) (row_errors p)])%list)
    by (inversion H; reflexivity).
  assert (Htx : transactions db' = transactions db3)
    by (inversion H; reflexivity).
  clear H. subst res.
  cbn [created row_errors created_tx_ids app] in *.
  exists txs. eexists.
  cbn [skipped import_record created_count errors].
  split; [reflexivity|]. split; [reflexivity|].
  cbn [file_hash imported_count meta_tx_ids meta_errors].
  split; [rewrite Hrec; congruence|].
  split; [reflexivity|]. split; [reflexivity|].
  split; [exact K3|]. split; [reflexivity|].
  split; [congruence|]. split; [lia|].
  rewrite R3. exact L3.
Qed.

(** X9.  An import that is not skipped accounts for every row of the
    file: each row gives one stored transaction or one error message, so
    the count of created transactions and the number of errors add up to
    the number of rows.  The transactions are appended to the store in
    the order of the rows, and the import record stored for the upload
    lists exactly their keys, with the count and the errors returned. *)
Theorem import_accounts_for_every_row (force : bool) (file_bytes : string)
  (file_name rules_fileobj : option string) (l : Z) (asset : string)
  (db db' : DB) (res : CSVImportResult) :
  import_csv L force file_bytes file_name rules_fileobj l asset db
  = (Ok res, db') ->
  skipped res = false ->
  exists txs ir,
    transactions db' = (transactions db ++ txs)%list
    /\ created_count res = Z.of_nat (List.length txs)
    /\ (List.length txs + List.length (errors res)
        = List.length (csv_DictReader L file_bytes))%nat
    /\ import_record res = Some ir
    /\ In ir (import_records db')
    /\ file_hash ir = _compute_hash file_bytes rules_fileobj
    /\ imported_count ir = created_count res
    /\ meta_tx_ids ir = map transactionID txs
    /\ meta_errors ir = errors res.
Proof.
  intros Hc Hs. unfold import_csv in Hc. cbv zeta in Hc.
  assert (Hrun : exists db0,
            transactions db0 = transactions db
            /\ run_import L file_bytes file_name rules_fileobj
                 (_compute_hash file_bytes rules_fileobj) l asset db0
               = (Ok res, db')).
  { destruct (find_import db (_compute_hash file_bytes rules_fileobj))
      as [existing|].
    - destruct force.
      + unfold mbind, import_delete in Hc. eexists. split; [|exact Hc].
        reflexivity.
      + destruct (0 <? imported_count existing).
        * inversion Hc; subst res. discriminate.
        * unfold mbind, import_delete in Hc. eexists. split; [|exact Hc].
          reflexivity.
    - exists db. split; [reflexivity | exact Hc]. }
  destruct Hrun as [db0 [T0 Hrun]].
  apply run_import_spec in Hrun.
  destruct Hrun as [txs [ir [_ [Hr [Hi [Hh [Hn [Hk [He [Ht [Hcnt Hlen]]]]]]]]]]].
  exists txs, ir. rewrite <- T0.
  repeat split; auto.
  rewrite Hi. apply in_or_app. right. left. reflexivity.
Qed.

Lemma find_import_none (db : DB) (h : string) :
  find_import db h = None -> ~ In h (map file_hash (import_records db)).
Proof.
  unfold find_import. intros H Hin. apply in_map_iff in Hin.
  destruct Hin as [r [Hh Hr]].
  pose proof (find_none _ _ H r Hr) as Hf. simpl in Hf.
  rewrite Hh, String.eqb_refl in Hf. discriminate.
Qed.

Lemma find_import_some (db : DB) (h : string) (r : ImportRecord) :
  find_import db h = Some r -> In r (import_records db) /\ file_hash r = h.
Proof.
  unfold find_import. intros H. apply find_some in H. destruct H as [Hi He].
  split; [exact Hi|]. apply String.eqb_eq. exact He.
Qed.

Lemma filter_keeps_unique_hashes (keep : ImportRecord -> bool)
  (records : list ImportRecord) :
  NoDup (map file_hash records) ->
  NoDup (map file_hash (filter keep records)).
Proof.
  induction records as [|x r IH]; simpl; intros H; [constructor|].
  inversion H as [|? ? Hx Hr]; subst.
  destruct (keep x); [|apply IH; exact Hr].
  simpl. constructor; [|apply IH; exact Hr].
  intros Hin. apply Hx. apply in_map_iff in Hin.
  destruct Hin as [y [Hy Hi]]. apply filter_In in Hi.
  rewrite <- Hy. apply in_map. apply Hi.
Qed.

(** Deleting the record found under a hash leaves no record of that
    hash, when hashes are unique. *)
Lemma delete_clears_hash (db : DB) (h : string) (existing : ImportRecord) :
  unique_hashes db ->
  find_import db h = Some existing ->
  unique_hashes (snd (import_delete existing db))
  /\ ~ In h (map file_hash (import_records (snd (import_delete existing db)))).
Proof.
  intros Hu Hf. apply find_import_some in Hf. destruct Hf as [Hin Hh].
  unfold import_delete, unique_hashes. cbn [snd import_records].
  split; [apply filter_keeps_unique_hashes; exact Hu|].
  intros Hc. apply in_map_iff in Hc. destruct Hc as [x [Hx Hi]].
  apply filter_In in Hi. destruct Hi as [Hi Hne].
  assert (x = existing).
  { eapply (NoDup_map_inj file_hash); eauto. congruence. }
  subst x. rewrite Z.eqb_refl in Hne. discriminate.
Qed.

(** X10.  Import records stay unique by hash, and a second upload of the
    same bytes is skipped.  In a store with at most one import record per
    hash, an import that returns leaves at most one record per hash, and
    the record it returns is the one found under the hash of the upload.
    If it reports at least one created transaction, importing the same
    file and rules again without the force flag -- under any file name,
    ledger or asset account -- is skipped with that count and leaves the
    store as it is. *)
Theorem reimport_is_skipped (force : bool) (file_bytes : string)
  (file_name rules_fileobj : option string) (l : Z) (asset : string)
  (db db' : DB) (res : CSVImportResult) :
  unique_hashes db ->
  import_csv L force file_bytes file_name rules_fileobj l asset db
  = (Ok res, db') ->
  unique_hashes db'
  /\ find_import db' (_compute_hash file_bytes rules_fileobj)
     = import_record res
  /\ (0 < created_count res ->
      forall file_name' l' asset',
        import_csv L false file_bytes file_name' rules_fileobj l' asset' db'
        = (Ok (mkCSVImportResult (created_count res) true
                 (import_record res) []), db')).
Proof.
  intros Hu Hc.
  set (h := _compute_hash file_bytes rules_fileobj) in *.
  assert (Hskip : forall r,
            find_import db' h = Some r ->
            0 < imported_count r ->
            forall file_name' l' asset',
              import_csv L false file_bytes file_name' rules_fileobj l'
                asset' db'
              = (Ok (mkCSVImportResult (imported_count r) true (Some r) []),
                 db')).
  { intros r Hf Hpos file_name' l' asset'. unfold import_csv. cbv zeta.
    fold h. rewrite Hf.
    destruct (Z.ltb_spec 0 (imported_count r)); [reflexivity | lia]. }
  assert (Hrun : forall db0,
            unique_hashes db0 ->
            ~ In h (map file_hash (import_records db0)) ->
            run_import L file_bytes file_name rules_fileobj h l asset db0
            = (Ok res, db') ->
            unique_hashes db'
            /\ find_import db' h = import_record res
            /\ (0 < created_count res ->
                forall file_name' l' asset',
                  import_csv L false file_bytes file_name' rules_fileobj l'
                    asset' db'
                  = (Ok (mkCSVImportResult (created_count res) true
                           (import_record res) []), db'))).
  { intros db0 Hu0 Hn0 Hr. apply run_import_spec in Hr.
    destruct Hr as [txs [ir [_ [Hir [Hrecs [Hh [Hcnt _]]]]]]].
    assert (Hfind : find_import db' h = Some ir).
    { unfold find_import. rewrite Hrecs, find_snoc.
      destruct (find _ (import_records db0)) as [x|] eqn:Ex.
      - exfalso. apply Hn0. apply find_some in Ex. destruct Ex as [Hi He].
        apply String.eqb_eq in He. rewrite <- He. apply in_map. exact Hi.
      - rewrite Hh, String.eqb_refl. reflexivity. }
    split; [|split].
    - unfold unique_hashes. rewrite Hrecs, map_app. cbn [map].
      apply NoDup_snoc; [exact Hu0 | rewrite Hh; exact Hn0].
    - rewrite Hir. exact Hfind.
    - intros Hpos. rewrite Hir, <- Hcnt. apply Hskip; [exact Hfind | lia]. }
  unfold import_csv in Hc. cbv zeta in Hc. fold h in Hc.
  destruct (find_import db h) as [existing|] eqn:Ef.
  - destruct (delete_clears_hash db h existing Hu Ef) as [Hu1 Hn1].
    destruct force.
    + unfold mbind in Hc.
      change (import_delete existing db)
        with (Ok tt, snd (import_delete existing db)) in Hc.
      cbv beta iota in Hc. eapply Hrun; eauto.
    + destruct (Z.ltb_spec 0 (imported_count existing)) as [Hpos|Hpos].
      * inversion Hc; subst res db'. cbn [import_record created_count].
        split; [exact Hu|]. split; [exact Ef|].
        intros _. apply Hskip; assumption.
      * unfold mbind in Hc.
        change (import_delete existing db)
          with (Ok tt, snd (import_delete existing db)) in Hc.
        cbv beta iota in Hc. eapply Hrun; eauto.
  - apply find_import_none in Ef. eapply Hrun; eauto.
Qed.

(** X11.  One row of the file.  The loop body never raises.  Either the
    row is imported: exactly one transaction is appended and its key
    recorded; or it is reported: an error message that starts with the
    row number is appended and no transaction, split, tag or attachment
    is stored.  In both cases the import records are untouched and
    accounts are only added (the category account of a row stays even
    when the row fails afterwards). *)
Theorem row_is_stored_or_reported (rules_list : Rules) (l : Z)
  (asset_acc : Account) (idx : Z) (row : Row) (p : Progress) (db : DB) :
  exists p' db',
    process_row L rules_list l asset_acc idx row p db = (Ok p', db')
    /\ import_records db' = import_records db
    /\ (exists new, accounts db' = (accounts db ++ new)%list)
    /\ ((exists tx,
           transactions db' = (transactions db ++ [tx])%list
           /\ created p' = created p + 1
           /\ row_errors p' = row_errors p
           /\ created_tx_ids p'
              = (created_tx_ids p ++ [transactionID tx])%list)
        \/ (exists msg,
              transactions db' = transactions db
              /\ splits db' = splits db
              /\ tags db' = tags db
              /\ transaction_tags db' = transaction_tags db
              /\ created p' = created p
              /\ row_errors p'
                 = (row_errors p
                    ++ [("row " ++ str_of_int idx ++ ": " ++ msg)%string])%list
              /\ created_tx_ids p' = created_tx_ids p)).
Proof. apply process_row_spec. Qed.

End ImportRows.

Section ImportRowsExamples.

(** Scenario 1: one row, one transaction, no error. *)
Lemma import_accounts_for_every_row_witness :
  created_count scenario_result
  + Z.of_nat (List.length (errors scenario_result))
  = Z.of_nat (List.length (csv_DictReader scenario_libs "bytes")).
Proof.
  destruct (import_accounts_for_every_row scenario_libs false "bytes"
              (Some "bank.csv") None 1 "ASSET:Bank" empty_db scenario_db
              scenario_result) as [txs [ir [_ [Hc [Hl _]]]]].
  - vm_compute. reflexivity.
  - reflexivity.
  - rewrite Hc, <- Hl, Nat2Z.inj_add. reflexivity.
Defined.

(** Scenario 2: the upload of scenario 1 once more, under another name. *)
Lemma reimport_is_skipped_witness :
  import_csv scenario_libs false "bytes" (Some "again.csv") None 1
    "ASSET:Bank" scenario_db
  = (Ok (mkCSVImportResult (created_count scenario_result) true
           (import_record scenario_result) []), scenario_db).
Proof.
  destruct (reimport_is_skipped scenario_libs false "bytes"
              (Some "bank.csv") None 1 "ASSET:Bank" empty_db scenario_db
              scenario_result) as [_ [_ H]].
  - unfold unique_hashes. constructor.
  - vm_compute. reflexivity.
  - apply H. vm_compute. reflexivity.
Defined.

End ImportRowsExamples.

(* ================================================================= *)
(** ** Rows that cannot be imported, and accounts ensured twice *)

Section RowErrors.

Context (L : Libs).

Lemma lstrip_blank (s : string) :
  all_chars is_space s = true -> lstrip s = "".
Proof.
  induction s as [|c r IH]; [reflexivity|].
  cbn [all_chars lstrip]. intros H. apply andb_true_iff in H.
  destruct H as [Hc Hr]. rewrite Hc. apply IH. exact Hr.
Qed.

Lemma parse_amount_blank (s : string) :
  all_chars is_space s = true ->
  _parse_amount (Some s) = Raise conversion_error.
Proof.
  intros H. unfold _parse_amount, strip. rewrite (lstrip_blank s H).
  reflexivity.
Qed.

Lemma detect_amount_key_plain (row : Row) :
  restkey row = None -> detect_amount_key row = Ok (find_amount_key row).
Proof. intros H. unfold detect_amount_key, low_keys. rewrite H. reflexivity. Qed.

Lemma detect_amount_key_surplus (row : Row) (cells : list string) :
  restkey row = Some cells -> detect_amount_key row = Raise none_has_no_lower.
Proof. intros H. unfold detect_amount_key, low_keys. rewrite H. reflexivity. Qed.

Lemma process_row_parse_error (rules_list : Rules) (l : Z)
  (asset_acc : Account) (idx : Z) (row : Row) (p : Progress) (db : DB)
  (k : string) (e : exn) :
  detect_amount_key row = Ok (Some k) ->
  _parse_amount (row_get row k) = Raise e ->
  process_row L rules_list l asset_acc idx row p db
  = (Ok (mkProgress (created p)
           (row_errors p ++ ["row " ++ str_of_int idx ++ ": " ++ exn_str e])
           (created_tx_ids p)), db).
Proof.
  intros Hk He. unfold process_row. rewrite Hk.
  unfold row_body, mbind, lift. rewrite He. reflexivity.
Qed.

(** X12.  Rows without a usable amount.  A line with more cells than the
    header has names is reported with the text of the [AttributeError]
    of line 197, whatever its cells hold.  Of the other rows, one with
    no amount column, one whose amount cell is missing, and one whose
    amount cell is empty or blank are reported with "No amount column
    found", "Amount missing" and the text of the decimal conversion
    error.  Each is reported under its row number and leaves the store
    exactly as it was: not even the category account is created. *)
Theorem row_without_amount_is_reported (rules_list : Rules)
  (l : Z) (asset_acc : Account) (idx : Z) (row : Row) (p : Progress)
  (db : DB) :
  let reported msg :=
    (Ok (mkProgress (created p)
           (row_errors p ++ ["row " ++ str_of_int idx ++ ": " ++ msg])
           (created_tx_ids p)), db) in
  (forall cells,
     restkey row = Some cells ->
     process_row L rules_list l asset_acc idx row p db
     = reported "'NoneType' object has no attribute 'lower'")
  /\ (restkey row = None -> find_amount_key row = None ->
      process_row L rules_list l asset_acc idx row p db
      = reported "No amount column found")
  /\ (forall k,
        restkey row = None -> find_amount_key row = Some k ->
        row_get row k = None ->
        process_row L rules_list l asset_acc idx row p db
        = reported "Amount missing")
  /\ (forall k s,
        restkey row = None -> find_amount_key row = Some k ->
        row_get row k = Some s -> all_chars is_space s = true ->
        process_row L rules_list l asset_acc idx row p db
        = reported "[<class 'decimal.ConversionSyntax'>]").
Proof.
  cbv zeta. split; [|split; [|split]].
  - intros cells H. unfold process_row.
    rewrite (detect_amount_key_surplus row cells H). reflexivity.
  - intros Hr H. unfold process_row.
    rewrite (detect_amount_key_plain row Hr), H. reflexivity.
  - intros k Hr Hk Hg.
    apply (process_row_parse_error rules_list l asset_acc idx row p db k
             (ValueError "Amount missing")).
    + rewrite (detect_amount_key_plain row Hr), Hk. reflexivity.
    + rewrite Hg. reflexivity.
  - intros k s Hr Hk Hg Hs.
    apply (process_row_parse_error rules_list l asset_acc idx row p db k
             conversion_error).
    + rewrite (detect_amount_key_plain row Hr), Hk. reflexivity.
    + rewrite Hg. apply parse_amount_blank. exact Hs.
Qed.

End RowErrors.

Section RowErrorsExamples.

(** A row with a date and a blank amount, and the line [5,Shop,extra]
    under the header [amount,payee]. *)
Lemma row_without_amount_is_reported_witness :
  process_row example_libs (Some []) 1
    (mkAccount 1 1 "Cash" "ASSET" None true) 3
    (mkRow [("date", Some "2024-01-15"); ("amount", Some "  ")] None)
    (mkProgress 0 [] []) example_db
  = (Ok (mkProgress 0 ["row 3: [<class 'decimal.ConversionSyntax'>]"] []),
     example_db)
  /\ process_row example_libs (Some []) 1
       (mkAccount 1 1 "Cash" "ASSET" None true) 4
       (mkRow [("amount", Some "5"); ("payee", Some "Shop")]
          (Some ["extra"]))
       (mkProgress 0 [] []) example_db
     = (Ok (mkProgress 0
              ["row 4: 'NoneType' object has no attribute 'lower'"] []),
        example_db).
Proof.
  split.
  - destruct (row_without_amount_is_reported example_libs (Some []) 1
                (mkAccount 1 1 "Cash" "ASSET" None true) 3
                (mkRow [("date", Some "2024-01-15"); ("amount", Some "  ")]
                   None)
                (mkProgress 0 [] []) example_db) as [_ [_ [_ H]]].
    apply (H "amount" "  "); reflexivity.
  - destruct (row_without_amount_is_reported example_libs (Some []) 1
                (mkAccount 1 1 "Cash" "ASSET" None true) 4
                (mkRow [("amount", Some "5"); ("payee", Some "Shop")]
                   (Some ["extra"]))
                (mkProgress 0 [] []) example_db) as [H _].
    apply (H ["extra"]). reflexivity.
Defined.

End RowErrorsExamples.

Section EnsureTwice.

(** X13.  [_ensure_account] twice.  When the name is free, or the oldest
    account of that name belongs to the target ledger, the account
    returned has that name and ledger and is stored, and asking again --
    with any fallback type -- returns the same account and changes
    nothing. *)
Theorem ensure_account_idempotent (n ty ty' : string) (l : Z)
  (db db' : DB) (a : Account) :
  (forall old, DjangoAccountsRepo.get_by_name db n = Some old ->
               acc_ledger old = l) ->
  _ensure_account n ty l db = (Ok a, db') ->
  _ensure_account n ty' l db' = (Ok a, db')
  /\ acc_name a = n
  /\ acc_ledger a = l
  /\ In a (accounts db').
Proof.
  intros Hold He. unfold _ensure_account in *.
  destruct (DjangoAccountsRepo.get_by_name db n) as [old|] eqn:Eg.
  - pose proof (Hold old eq_refl) as Hl.
    assert (Hq : (acc_ledger old =? l) = true) by (apply Z.eqb_eq; exact Hl).
    rewrite Hq in He. inversion He; subst a db'. rewrite Eg, Hq.
    apply find_by_name_some in Eg. destruct Eg as [Hin Hn]. auto.
  - destruct (accounts_create_spec n ty l db) as [db1 [Hc Ha]].
    rewrite Hc in He. inversion He; subst a db1. clear He.
    assert (Hg : DjangoAccountsRepo.get_by_name db' n
                 = Some (mkAccount (next_account db) l n ty None true)).
    { unfold DjangoAccountsRepo.get_by_name, find_account_by_name in *.
      rewrite Ha, find_snoc, Eg. cbn [acc_name].
      rewrite String.eqb_refl. reflexivity. }
    rewrite Hg. cbn [acc_ledger acc_name]. rewrite Z.eqb_refl.
    split; [reflexivity|]. split; [reflexivity|]. split; [reflexivity|].
    rewrite Ha. apply in_or_app. right. left. reflexivity.
Qed.

(** "Food" is not in the example store: the first call creates account
    2, the second returns it. *)
Lemma ensure_account_idempotent_witness :
  _ensure_account "Food" "INCOME" 1
    (snd (_ensure_account "Food" "EXPENSE" 1 example_db))
  = (Ok (mkAccount 2 1 "Food" "EXPENSE" None true),
     snd (_ensure_account "Food" "EXPENSE" 1 example_db)).
Proof.
  destruct (ensure_account_idempotent "Food" "EXPENSE" "INCOME" 1 example_db
              (snd (_ensure_account "Food" "EXPENSE" 1 example_db))
              (mkAccount 2 1 "Food" "EXPENSE" None true)) as [H _].
  - intros old H. discriminate H.
  - reflexivity.
  - exact H.
Defined.

End EnsureTwice.

(* ================================================================= *)
(** ** The shape of the content hash *)

Section HashShape.

Lemma compress_length (hv block : list Z) :
  List.length hv = 8%nat ->
  List.length (Sha256.compress hv block) = 8%nat.
Proof.
  intros H. unfold Sha256.compress.
  rewrite length_map, length_combine, H.
  match goal with
  | |- context [Sha256.list_of ?s] =>
      destruct s as [[[[[[[a b] c] d] e] f] g] h]
  end.
  reflexivity.
Qed.

Lemma sha256_length (msg : list Z) : List.length (Sha256.sha256 msg) = 8%nat.
Proof.
  unfold Sha256.sha256.
  generalize (Sha256.blocks (List.length (Sha256.pad msg)) (Sha256.pad msg)).
  assert (H : List.length Sha256.H0 = 8%nat) by reflexivity.
  revert H. generalize Sha256.H0.
  intros hv H bl. revert hv H.
  induction bl as [|b r IH]; intros hv H; [exact H|].
  cbn [fold_left]. apply IH. apply compress_length. exact H.
Qed.

Lemma hex_digit_lower (n : Z) :
  0 <= n < 16 -> is_lower_hex (Sha256.hex_digit n) = true.
Proof.
  intros H.
  assert (Hall : forallb (fun k => is_lower_hex
                                     (Sha256.hex_digit (Z.of_nat k)))
                   (seq 0 16) = true) by reflexivity.
  rewrite forallb_forall in Hall.
  specialize (Hall (Z.to_nat n)). rewrite Z2Nat.id in Hall by lia.
  apply Hall. apply in_seq. lia.
Qed.

Lemma hex_of_shape (n : nat) (x : Z) :
  String.length (Sha256.hex_of n x) = n
  /\ all_chars is_lower_hex (Sha256.hex_of n x) = true.
Proof.
  induction n as [|k [IH1 IH2]]; [split; reflexivity|].
  cbn [Sha256.hex_of String.length all_chars]. split.
  - rewrite IH1. reflexivity.
  - rewrite IH2, hex_digit_lower; [reflexivity|].
    apply Z.mod_pos_bound. lia.
Qed.

Lemma append_shape (p : ascii -> bool) (a b : string) :
  String.length (a ++ b) = (String.length a + String.length b)%nat
  /\ (all_chars p a = true -> all_chars p b = true ->
      all_chars p (a ++ b) = true).
Proof.
  induction a as [|c r [IH1 IH2]]; [split; auto|].
  cbn [append String.length all_chars]. split.
  - rewrite IH1. reflexivity.
  - intros Ha Hb. apply andb_true_iff in Ha. destruct Ha as [Hc Hr].
    rewrite Hc, IH2; auto.
Qed.

Lemma concat_shape (p : ascii -> bool) (k : nat) (l : list string) :
  Forall (fun s => String.length s = k /\ all_chars p s = true) l ->
  String.length (concat "" l) = (List.length l * k)%nat
  /\ all_chars p (concat "" l) = true.
Proof.
  induction 1 as [|s r [Hs1 Hs2] Hr [IH1 IH2]]; [split; reflexivity|].
  destruct r as [|s' r'].
  - cbn [concat List.length]. split; [lia | exact Hs2].
  - change (concat "" (s :: s' :: r')) with (s ++ "" ++ concat "" (s' :: r')).
    change ("" ++ concat "" (s' :: r')) with (concat "" (s' :: r')).
    destruct (append_shape p s (concat "" (s' :: r'))) as [A1 A2].
    split.
    + rewrite A1, IH1, Hs1. cbn [List.length]. lia.
    + apply A2; assumption.
Qed.

(** X14.  The content hash is always a string of 64 characters, each one
    of [0-9a-f], whatever the file and the rules: it fits the column
    [ImportRecord.file_hash] of 64 characters. *)
Theorem compute_hash_shape (file_bytes : string)
  (rules_bytes : option string) :
  String.length (_compute_hash file_bytes rules_bytes) = 64%nat
  /\ all_chars is_lower_hex (_compute_hash file_bytes rules_bytes) = true.
Proof.
  unfold _compute_hash. cbv zeta.
  match goal with
  | |- context [Sha256.hexdigest ?h] => generalize h
  end.
  intros h. unfold Sha256.hexdigest.
  destruct (concat_shape is_lower_hex 8
              (map (Sha256.hex_of 8) (Sha256.sha256 (Sha256.bytes_of h))))
    as [H1 H2].
  - apply Forall_forall. intros s Hs. apply in_map_iff in Hs.
    destruct Hs as [x [Hx _]]. subst s. apply hex_of_shape.
  - rewrite length_map, sha256_length in H1. split; [exact H1 | exact H2].
Qed.

End HashShape.

(* ================================================================= *)
(** ** The amount column of a row *)

Section AmountColumn.

Lemma low_keys_get_some (row : Row) (c k : string) :
  low_keys_get row c = Some k -> In k (map fst (columns row)) /\ lower k = c.
Proof.
  unfold low_keys_get. intros H. apply find_some in H.
  destruct H as [Hi He]. split.
  - apply in_rev. exact Hi.
  - apply String.eqb_eq. exact He.
Qed.

Lemma low_keys_get_none (row : Row) (c k : string) :
  low_keys_get row c = None -> In k (map fst (columns row)) -> lower k <> c.
Proof.
  unfold low_keys_get. intros H Hi He.
  apply in_rev in Hi. pose proof (find_none _ _ H k Hi) as Hf.
  simpl in Hf. rewrite He, String.eqb_refl in Hf. discriminate.
Qed.

Lemma lower_empty (k : string) : lower k = "" -> k = "".
Proof. destruct k; [reflexivity | discriminate]. Qed.

Lemma first_key_some (row : Row) (cs : list string) (k : string) :
  first_key row cs = Some k -> In k (map fst (columns row)) /\ In (lower k) cs.
Proof.
  induction cs as [|c r IH]; [discriminate|].
  cbn [first_key]. destruct (low_keys_get row c) as [k0|] eqn:E.
  - destruct (is_empty k0).
    + intros H. destruct (IH H). split; [assumption | right; assumption].
    + intros H. inversion H; subst k0. apply low_keys_get_some in E.
      destruct E as [E1 E2]. split; [exact E1 | left; auto].
  - intros H. destruct (IH H). split; [assumption | right; assumption].
Qed.

Lemma first_key_none (row : Row) (cs : list string) (k : string) :
  Forall (fun c => c <> "") cs ->
  first_key row cs = None -> In k (map fst (columns row)) -> ~ In (lower k) cs.
Proof.
  induction 1 as [|c r Hc _ IH]; [intros _ _ []|].
  cbn [first_key]. destruct (low_keys_get row c) as [k0|] eqn:E.
  - destruct (is_empty k0) eqn:Ee; [|discriminate].
    apply low_keys_get_some in E. destruct E as [_ E].
    destruct k0; [|discriminate]. simpl in E. congruence.
  - intros H Hi [Hl|Hl].
    + eapply low_keys_get_none; eauto.
    + eapply IH; eauto.
Qed.

Lemma first_key_head (row : Row) (c : string) (cs : list string)
  (k0 : string) :
  c <> "" -> In k0 (map fst (columns row)) -> lower k0 = c ->
  exists k, first_key row (c :: cs) = Some k /\ lower k = c.
Proof.
  intros Hc Hi Hl. cbn [first_key].
  destruct (low_keys_get row c) as [k|] eqn:E.
  - apply low_keys_get_some in E. destruct E as [_ E].
    destruct k as [|x k']; [simpl in E; congruence|].
    exists (String x k'). split; [reflexivity | exact E].
  - exfalso. eapply low_keys_get_none; eauto.
Qed.

(** X15.  The amount column.  For a line with more cells than the
    header has names, no column is looked for: line 197 raises.  For
    every other row, the key the importer reads the amount from is a
    column of the row whose name, lower-cased, is "amount", "amt",
    "value" or "transaction amount", or starts with "amount"; the
    importer finds no amount column exactly when no column has such a
    name; and a column named "amount" in any letter case takes
    precedence over every other candidate. *)
Theorem find_amount_key_spec (row : Row) :
  (detect_amount_key row = Raise none_has_no_lower <-> restkey row <> None)
  /\ (forall k, detect_amount_key row = Ok (Some k) ->
      restkey row = None
      /\ In k (map fst (columns row)) /\ is_amount_column k = true)
  /\ (detect_amount_key row = Ok None <->
      restkey row = None
      /\ forall k, In k (map fst (columns row)) ->
                   is_amount_column k = false)
  /\ (forall k0,
        restkey row = None ->
        In k0 (map fst (columns row)) -> lower k0 = "amount" ->
        exists k, detect_amount_key row = Ok (Some k) /\ lower k = "amount").
Proof.
  assert (Hne : Forall (fun c => c <> "") amount_candidates).
  { repeat constructor; discriminate. }
  assert (Hsome : forall k, find_amount_key row = Some k ->
                    In k (map fst (columns row))
                    /\ is_amount_column k = true).
  { intros k. unfold find_amount_key.
    destruct (first_key row _) as [k1|] eqn:E.
    - intros H. inversion H; subst k1. apply first_key_some in E.
      destruct E as [E1 E2]. split; [exact E1|].
      unfold is_amount_column. apply orb_true_iff. left.
      apply existsb_exists. exists (lower k). split; [exact E2|].
      apply String.eqb_refl.
    - intros H. apply find_some in H. destruct H as [H1 H2].
      split; [exact H1|]. unfold is_amount_column. rewrite H2.
      apply orb_true_r. }
  assert (Hnone : find_amount_key row = None <->
                  forall k, In k (map fst (columns row)) ->
                            is_amount_column k = false).
  { split.
    - intros H k Hk. unfold find_amount_key in H.
      destruct (first_key row _) as [k1|] eqn:E; [discriminate|].
      unfold is_amount_column. apply orb_false_iff. split.
      + destruct (existsb _ amount_candidates) eqn:Ex; [|reflexivity].
        exfalso. apply existsb_exists in Ex. destruct Ex as [c [Hc He]].
        apply String.eqb_eq in He. subst c.
        exact (first_key_none row _ k Hne E Hk Hc).
      + exact (find_none _ _ H k Hk).
    - intros H. destruct (find_amount_key row) as [k|] eqn:E; [|reflexivity].
      destruct (Hsome k eq_refl) as [H1 H2]. rewrite (H k H1) in H2.
      discriminate. }
  unfold detect_amount_key, low_keys.
  destruct (restkey row) as [cells|]; cbn [bind].
  - split; [split; [discriminate | reflexivity]|].
    split; [discriminate|]. split; [|discriminate].
    split; [discriminate | intros [H _]; discriminate].
  - split; [split; [discriminate | intros H; exfalso; apply H; reflexivity]|].
    split; [|split].
    + intros k H. inversion H as [Hk]. split; [reflexivity|].
      apply Hsome. exact Hk.
    + split.
      * intros H. split; [reflexivity|]. apply Hnone. congruence.
      * intros [_ H]. apply Hnone in H. rewrite H. reflexivity.
    + intros k0 _ Hi Hl. unfold find_amount_key.
      destruct (first_key_head row "amount" ["amt"; "value";
                  "transaction amount"] k0) as [k [Hk Hlk]];
        [discriminate | exact Hi | exact Hl |].
      rewrite Hk. exists k. split; [reflexivity | exact Hlk].
Qed.

(** A statement with the columns "Date", "Value" and "AMOUNT (EUR)": the
    amount is read from "Value". *)
Lemma find_amount_key_spec_witness :
  In "Value" ["Date"; "Value"; "AMOUNT (EUR)"]
  /\ is_amount_column "Value" = true.
Proof.
  destruct (find_amount_key_spec
              (mkRow [("Date", Some "2024-01-15"); ("Value", Some "5.00");
                      ("AMOUNT (EUR)", Some "6.00")] None)) as [_ [H _]].
  apply (H "Value"). reflexivity.
Defined.

End AmountColumn.

(* ================================================================= *)
(** ** The accounts an import creates *)

Section ImportedAccounts.

Context (L : Libs).

Lemma detect_type_in (n : string) :
  In (detect_type_from_name n) importer_types.
Proof.
  unfold detect_type_from_name, importer_types.
  destruct (contains "asset" (lower n)); [simpl; auto|].
  destruct (contains "liabil" (lower n)); [simpl; auto|].
  destruct (contains "income" (lower n)); [simpl; auto|].
  destruct (contains "expense" (lower n)); simpl; auto.
Qed.

Lemma ensure_account_new (n ty : string) (l : Z) (db db' : DB)
  (r : result Account) :
  In ty importer_types ->
  _ensure_account n ty l db = (r, db') ->
  exists new,
    accounts db' = (accounts db ++ new)%list
    /\ Forall (imported_account l) new.
Proof.
  intros Hty He.
  assert (Hc : forall r0 db0,
            DjangoAccountsRepo.create n ty None true l db = (r0, db0) ->
            exists new,
              accounts db0 = (accounts db ++ new)%list
              /\ Forall (imported_account l) new).
  { intros r0 db0 Hc.
    destruct (accounts_create_spec n ty l db) as [db1 [Hc1 Ha]].
    rewrite Hc1 in Hc. inversion Hc; subst r0 db0.
    eexists. split; [exact Ha|]. constructor; [|constructor].
    unfold imported_account. cbn. auto. }
  unfold _ensure_account in He.
  destruct (DjangoAccountsRepo.get_by_name db n) as [acc|];
    [|eapply Hc; eauto].
  destruct (acc_ledger acc =? l); [|eapply Hc; eauto].
  inversion He; subst. exists []. rewrite app_nil_r.
  split; [reflexivity | constructor].
Qed.

Lemma row_body_new_accounts (rules_list : Rules) (l : Z)
  (asset_acc : Account) (row : Row) (k : string) (db db' : DB)
  (r : result Transaction) :
  row_body L rules_list l asset_acc row k db = (r, db') ->
  exists new,
    accounts db' = (accounts db ++ new)%list
    /\ Forall (imported_account l) new.
Proof.
  assert (Hnone : forall e,
            (Raise e, db) = (r, db') ->
            exists new,
              accounts db' = (accounts db ++ new)%list
              /\ Forall (imported_account l) new).
  { intros e H. inversion H; subst. exists []. rewrite app_nil_r.
    split; [reflexivity | constructor]. }
  unfold row_body, mbind, lift.
  destruct (_parse_amount (row_get row k)) as [amt|e]; [|apply Hnone].
  match goal with
  | |- context [match_rules L ?t rules_list] =>
      destruct (match_rules L t rules_list) as [matched|e]
  end; [|apply Hnone].
  match goal with
  | |- (let '(c, n) := ?x in _) _ = _ -> _ => destruct x as [[c|] nec]
  end; [|apply Hnone].
  assert (Hgo : forall n ty d text tg,
            In ty importer_types ->
            (let (r0, db'0) := _ensure_account n ty l db in
             match r0 with
             | Ok a =>
                 DjangoTransactionsRepo.create l d text
                   [mkSplitDict (Some (PyDec amt))
                      (Some (accountID asset_acc)) None;
                    mkSplitDict (Some (PyDec (py_neg amt)))
                      (Some (accountID a)) None] tg nec db'0
             | Raise e => (Raise e, db'0)
             end) = (r, db') ->
            exists new,
              accounts db' = (accounts db ++ new)%list
              /\ Forall (imported_account l) new).
  { intros n ty d text tg Hty.
    destruct (_ensure_account n ty l db) as [[a|e] db1] eqn:He; intros H.
    - apply (ensure_account_new n ty l db db1 (Ok a) Hty) in He.
      apply create_keeps_import_records in H.
      destruct H as [_ [HA _]]. rewrite HA. exact He.
    - inversion H; subst.
      apply (ensure_account_new n ty l db db' (Raise e) Hty) in He.
      exact He. }
  match goal with
  | |- context [negb (contains ":" ?c)] =>
      destruct (negb (contains ":" c));
      [destruct (dec_ltb amt (mkDec 0 0))|]
  end; apply Hgo.
  - unfold importer_types. simpl. auto.
  - unfold importer_types. simpl. auto.
  - apply detect_type_in.
Qed.

Lemma process_rows_new_accounts (rules_list : Rules) (l : Z)
  (asset_acc : Account) (rows : list Row) :
  forall idx p db r db',
  process_rows L rules_list l asset_acc idx rows p db = (r, db') ->
  exists new,
    accounts db' = (accounts db ++ new)%list
    /\ Forall (imported_account l) new.
Proof.
  induction rows as [|row rest IH]; intros idx p db r db' H.
  - inversion H; subst. exists []. rewrite app_nil_r.
    split; [reflexivity | constructor].
  - cbn [process_rows] in H. unfold mbind in H.
    destruct (process_row L rules_list l asset_acc idx row p db)
      as [[p1|e1] db1] eqn:E1.
    + assert (H1 : exists new,
                accounts db1 = (accounts db ++ new)%list
                /\ Forall (imported_account l) new).
      { unfold process_row in E1.
        destruct (detect_amount_key row) as [[k|]|e0].
        - destruct (row_body L rules_list l asset_acc row k db)
            as [[tx|e] db2] eqn:Er;
            apply row_body_new_accounts in Er; inversion E1; subst;
            exact Er.
        - inversion E1; subst. exists []. rewrite app_nil_r.
          split; [reflexivity | constructor].
        - inversion E1; subst. exists []. rewrite app_nil_r.
          split; [reflexivity | constructor]. }
      apply IH in H. destruct H1 as [n1 [A1 F1]]. destruct H as [n2 [A2 F2]].
      exists (n1 ++ n2)%list. split.
      * rewrite A2, A1, app_assoc. reflexivity.
      * apply Forall_app. split; assumption.
    + exfalso.
      destruct (process_row_spec L rules_list l asset_acc idx row p db)
        as [p2 [db2 [E2 _]]].
      rewrite E2 in E1. discriminate.
Qed.

(** X16.  The accounts of an import.  Whatever its outcome, an import
    only adds to the table of accounts, and every account it adds is in
    the ledger of the import, has one of the types ASSET, LIABILITY,
    INCOME and EXPENSE (never EQUITY), has no parent and is active. *)
Theorem import_creates_accounts_in_ledger (force : bool)
  (file_bytes : string) (file_name rules_fileobj : option string) (l : Z)
  (asset : string) (db db' : DB) (r : result CSVImportResult) :
  import_csv L force file_bytes file_name rules_fileobj l asset db = (r, db') ->
  exists new,
    accounts db' = (accounts db ++ new)%list
    /\ Forall (imported_account l) new.
Proof.
  assert (Hnil : forall d : DB,
            accounts d = accounts db ->
            exists new,
              accounts d = (accounts db ++ new)%list
              /\ Forall (imported_account l) new).
  { intros d Hd. exists []. rewrite app_nil_r.
    split; [exact Hd | constructor]. }
  assert (Hrun : forall h db0,
            accounts db0 = accounts db ->
            run_import L file_bytes file_name rules_fileobj h l asset db0
            = (r, db') ->
            exists new,
              accounts db' = (accounts db ++ new)%list
              /\ Forall (imported_account l) new).
  { intros h db0 Hdb0. unfold run_import, mbind.
    destruct (ledger_get_or_create l _ db0) as [[lg|e0] db1] eqn:E0.
    2:{ unfold ledger_get_or_create in E0.
        destruct (find_ledger db0 l); discriminate. }
    assert (A1 : accounts db1 = accounts db).
    { unfold ledger_get_or_create in E0. destruct (find_ledger db0 l);
        inversion E0; subst; simpl; exact Hdb0. }
    match goal with
    | |- (match ?x with _ => _ end) = _ -> _ =>
        destruct x as [[rules_list|e1] db2] eqn:E1
    end.
    2:{ intros H. inversion H; subst. apply Hnil.
        destruct rules_fileobj as [b|]; [destruct (negb (is_empty b))|];
          inversion E1; subst; exact A1. }
    assert (Hdb2 : db2 = db1).
    { destruct rules_fileobj as [b|]; [destruct (negb (is_empty b))|];
        inversion E1; reflexivity. }
    subst db2. clear E1.
    destruct (_ensure_account asset (detect_type_from_name asset) l db1)
      as [[acc|e2] db3] eqn:E2.
    2:{ destruct (ensure_account_ok asset (detect_type_from_name asset) l
                    db1) as [a [d [Hx _]]]. rewrite Hx in E2. discriminate. }
    apply (ensure_account_new _ _ _ _ _ _ (detect_type_in asset)) in E2.
    destruct E2 as [n1 [A3 F1]].
    destruct (process_rows L rules_list l acc 1
                (csv_DictReader L file_bytes) (mkProgress 0 [] []) db3)
      as [[p|e3] db4] eqn:E3.
    2:{ destruct (process_rows_spec L rules_list l acc
                    (csv_DictReader L file_bytes) 1 (mkProgress 0 [] []) db3)
          as [p' [d [t [e [Hx _]]]]]. rewrite Hx in E3. discriminate. }
    apply process_rows_new_accounts in E3. destruct E3 as [n2 [A4 F2]].
    unfold atomic, import_insert, ret. intros H.
    assert (A5 : accounts db' = accounts db4) by (inversion H; reflexivity).
    exists (n1 ++ n2)%list. split.
    - rewrite A5, A4, A3, A1, app_assoc. reflexivity.
    - apply Forall_app. split; assumption. }
  unfold import_csv. cbv zeta.
  destruct (find_import db _) as [existing|].
  - destruct force; [|destruct (0 <? imported_count existing)].
    + unfold mbind, import_delete. apply Hrun. reflexivity.
    + intros H. inversion H; subst. apply Hnil. reflexivity.
    + unfold mbind, import_delete. apply Hrun. reflexivity.
  - apply Hrun. reflexivity.
Qed.

End ImportedAccounts.

Section ImportedAccountsExamples.

(** Scenario 1 creates the asset account and the category account. *)
Lemma import_creates_accounts_in_ledger_witness :
  exists new,
    accounts scenario_db = (accounts empty_db ++ new)%list
    /\ Forall (imported_account 1) new.
Proof.
  apply (import_creates_accounts_in_ledger scenario_libs false "bytes"
           (Some "bank.csv") None 1 "ASSET:Bank" empty_db scenario_db
           (Ok scenario_result)).
  vm_compute. reflexivity.
Defined.

End ImportedAccountsExamples.

(* ================================================================= *)
(** ** [AccountService.create_account] *)

Section ServiceAccounts.

(** X17.  [create_account] never raises the [ValidationError] its code
    names: with an empty name, or a type outside ASSET, LIABILITY,
    EQUITY, INCOME and EXPENSE, the call ends in a [NameError] and
    stores nothing.  Otherwise it returns what the repository's [create]
    returns for ledger 1: one account is appended, with the name and the
    type given.  So accounts that were all named and typed stay so. *)
Theorem create_account_outcome (name ty : string) (parent : option Z)
  (act : bool) (db : DB) :
  let (r, db') := AccountService.create_account name ty parent act db in
  match r with
  | AccountService.Returned a =>
      name <> "" /\ In ty AccountService.account_types
      /\ DjangoAccountsRepo.create name ty parent act 1 db = (Ok a, db')
      /\ accounts db' = (accounts db ++ [a])%list
      /\ acc_name a = name /\ account_type a = ty /\ acc_ledger a = 1
  | AccountService.NameError msg =>
      (name = "" \/ ~ In ty AccountService.account_types)
      /\ msg = AccountService.undefined_name /\ db' = db
  | AccountService.Raised _ => False
  end
  /\ (Forall service_account (accounts db) ->
      Forall service_account (accounts db')).
Proof.
  unfold AccountService.create_account.
  destruct name as [|c name'].
  - cbn [is_empty]. split; [|auto]. split; [left; reflexivity | auto].
  - cbn [is_empty].
    destruct (existsb (String.eqb ty) AccountService.account_types) eqn:Et.
    + cbn [negb].
      assert (Hty : In ty AccountService.account_types).
      { apply existsb_exists in Et. destruct Et as [x [Hx He]].
        apply String.eqb_eq in He. subst x. exact Hx. }
      unfold DjangoAccountsRepo.create, mbind, ledger_get_or_create.
      destruct (find_ledger db 1); unfold account_insert;
        cbn [accounts acc_name account_type acc_ledger];
        (split; [repeat split; try discriminate; auto|]);
        intros Hall; apply Forall_app; (split; [exact Hall|]);
        (constructor; [|constructor]); unfold service_account;
        cbn [acc_name account_type]; (split; [discriminate | exact Hty]).
    + cbn [negb]. split; [|auto]. split; [|auto]. right. intros Hin.
      assert (existsb (String.eqb ty) AccountService.account_types = true).
      { apply existsb_exists. exists ty. split; [exact Hin|].
        apply String.eqb_refl. }
      congruence.
Qed.

End ServiceAccounts.

Section ServiceAccountsExamples.

(** "Savings" created through the service in the store of the examples:
    every account is still named and typed. *)
Lemma create_account_outcome_witness :
  Forall service_account
    (accounts (snd (AccountService.create_account "Savings" "ASSET" None true
                      example_db))).
Proof.
  pose proof (create_account_outcome "Savings" "ASSET" None true example_db)
    as H.
  destruct (AccountService.create_account "Savings" "ASSET" None true
              example_db) as [r db'].
  destruct H as [_ H]. apply H.
  constructor; [|constructor].
  split; [discriminate | left; reflexivity].
Defined.

End ServiceAccountsExamples.

(* ================================================================= *)
(** ** Tags of a row and keywords of a rule *)

Section TagsAndKeywords.

Context (L : Libs).

Lemma rstrip_idem (s : string) : rstrip (rstrip s) = rstrip s.
Proof.
  induction s as [|c r IH]; [reflexivity|].
  cbn [rstrip].
  destruct (is_space c && is_empty (rstrip r)) eqn:E; [reflexivity|].
  cbn [rstrip]. rewrite IH, E. reflexivity.
Qed.

Lemma lstrip_rstrip_lstrip (s : string) :
  lstrip (rstrip (lstrip s)) = rstrip (lstrip s).
Proof.
  induction s as [|c r IH]; [reflexivity|].
  cbn [lstrip]. destruct (is_space c) eqn:Ec; [exact IH|].
  cbn [rstrip]. rewrite Ec. cbn [andb lstrip]. rewrite Ec. reflexivity.
Qed.

Lemma strip_idem (s : string) : strip (strip s) = strip s.
Proof.
  unfold strip. rewrite lstrip_rstrip_lstrip. apply rstrip_idem.
Qed.

Lemma is_empty_false (s : string) : is_empty s = false <-> s <> "".
Proof. destruct s; simpl; split; congruence. Qed.

(** X18.  Tags and keywords are kept trimmed.  Every tag the importer
    reads from a row, and every keyword it reads from a rule, is a
    non-empty string without whitespace at either end; a tag cell or a
    matcher made of separators and blanks gives none.  Hence a keyword
    rule never matches through an empty keyword, and a text that holds
    no keyword of the rule is not matched by it. *)
Theorem tags_and_keywords_trimmed :
  (forall row k t, In t (parse_tags row k) -> trimmed t)
  /\ (forall m kw, In kw (keywords m) -> trimmed kw)
  /\ (forall m, all_chars (fun c => is_space c || Ascii.eqb c ",") m = true ->
      keywords m = [])
  /\ (forall text r m,
        matcher_type r = Some "keyword" -> matcher r = Some m ->
        _match_rule L text [r] = Some r ->
        exists kw, In kw (keywords m) /\ trimmed kw
                   /\ contains (lower kw) (lower text) = true).
Proof.
  assert (Hk : forall m kw, In kw (keywords m) -> trimmed kw).
  { intros m kw H. unfold keywords in H. apply in_map_iff in H.
    destruct H as [p [Hp Hi]]. apply filter_In in Hi.
    destruct Hi as [_ Hne]. subst kw. split.
    - apply is_empty_false. destruct (is_empty (strip p)); [discriminate|].
      reflexivity.
    - apply strip_idem. }
  split; [|split; [exact Hk|split]].
  - intros row k t H. unfold parse_tags in H.
    destruct k as [k|]; [|destruct H].
    destruct (truthy_str (row_get row k)); [|destruct H].
    apply filter_In in H. destruct H as [Hi Hne].
    apply in_map_iff in Hi. destruct Hi as [p [Hp _]]. subst t. split.
    + apply is_empty_false. destruct (is_empty (strip p)); [discriminate|].
      reflexivity.
    + apply strip_idem.
  - intros m Hm. unfold keywords.
    assert (Hall : Forall (fun p => all_chars is_space p = true)
                     (split "," m)).
    { clear - Hm. induction m as [|c r IH]; [repeat constructor|].
      cbn [all_chars] in Hm. apply andb_true_iff in Hm.
      destruct Hm as [Hc Hr]. specialize (IH Hr). cbn [split].
      destruct (Ascii.eqb c ",") eqn:Ec.
      - constructor; [reflexivity | exact IH].
      - rewrite orb_false_r in Hc.
        destruct (split "," r) as [|h t].
        + constructor; [|constructor]. cbn [all_chars]. rewrite Hc.
          reflexivity.
        + inversion IH; subst. constructor; [|assumption].
          cbn [all_chars]. rewrite Hc. assumption. }
    induction Hall as [|p ps Hp _ IH]; [reflexivity|].
    assert (Hs : strip p = "")
      by (unfold strip; rewrite (lstrip_blank p Hp); reflexivity).
    cbn [filter]. rewrite Hs. cbn [is_empty negb]. exact IH.
  - intros text r m Hmt Hm H. cbn [_match_rule] in H.
    rewrite Hmt, Hm in H.
    destruct (truthy_str (Some m)); [|discriminate].
    change (String.eqb "keyword" "keyword") with true in H. cbv iota in H.
    destruct (existsb (fun kw => contains (lower kw) (lower text))
                (keywords m)) eqn:Ex; [|discriminate].
    apply existsb_exists in Ex. destruct Ex as [kw [Hin Hc]].
    exists kw. split; [exact Hin|]. split; [apply (Hk m); exact Hin|].
    exact Hc.
Qed.

End TagsAndKeywords.

Section TagsAndKeywordsExamples.

(** The tags of a cell with blanks and an empty entry. *)
Lemma tags_and_keywords_trimmed_witness : trimmed "food".
Proof.
  destruct (tags_and_keywords_trimmed example_libs) as [H _].
  apply (H (mkRow [("tags", Some " food | |home ")] None) (Some "tags")
           "food").
  vm_compute. left. reflexivity.
Defined.

End TagsAndKeywordsExamples.

(* ================================================================= *)
(** ** A created transaction in the listings *)

Section CreateThenList.

Lemma Forall2_In_l {A B : Type} (R : A -> B -> Prop) (l1 : list A)
  (l2 : list B) (x : A) :
  Forall2 R l1 l2 -> In x l1 -> exists y, In y l2 /\ R x y.
Proof.
  induction 1 as [|a b r1 r2 Hab _ IH]; intros Hin; [destruct Hin|].
  destruct Hin as [Hin|Hin].
  - subst a. exists b. split; [left; reflexivity | exact Hab].
  - destruct (IH Hin) as [y [Hy HR]]. exists y.
    split; [right; exact Hy | exact HR].
Qed.

Lemma In_combine_l {A B : Type} (l1 : list A) (l2 : list B) (x : A) :
  List.length l2 = List.length l1 -> In x l1 ->
  exists y, In (x, y) (combine l1 l2).
Proof.
  revert l2. induction l1 as [|a r IH]; intros [|b l2] Hlen Hin;
    simpl in *; try discriminate; try contradiction.
  destruct Hin as [Hin|Hin].
  - subst a. exists b. left. reflexivity.
  - destruct (IH l2 ltac:(congruence) Hin) as [y Hy]. exists y.
    right. exact Hy.
Qed.

Lemma tag_names_mono (db db' : DB) (k : Z) (n : string) (t1 : list Tag)
  (p1 : list (Z * Z)) :
  tags db' = (tags db ++ t1)%list ->
  transaction_tags db' = (transaction_tags db ++ p1)%list ->
  In n (tag_names_of db k) -> In n (tag_names_of db' k).
Proof.
  intros T1 P1. unfold tag_names_of.
  rewrite !in_map_iff. intros [t [Hn Hf]]. exists t. split; [exact Hn|].
  apply filter_In in Hf. destruct Hf as [Hi He].
  apply filter_In. split.
  - rewrite T1. apply in_or_app. left. exact Hi.
  - rewrite P1, existsb_app, He. reflexivity.
Qed.

(** X19.  Create, then list (Django repository).  In a store with sound
    split and tag keys, the transaction that [create] returns is in the
    unfiltered listing, in the listing of each of its tags, in the
    listing of each account its splits resolve to, and in the listing of
    a date range exactly when its date is in the range; and every
    transaction that a filter listed before the call is still listed by
    that filter after it. *)
Theorem created_transaction_is_listed (l : Z) (d : option date)
  (de : string) (sp : list SplitDict) (tg : list string) (nec : bool)
  (db db' : DB) (tx : Transaction) :
  splits_wf db -> tags_wf db ->
  DjangoTransactionsRepo.create l d de sp tg nec db = (Ok tx, db') ->
  In tx (DjangoTransactionsRepo.list_query db' no_filters)
  /\ (forall n, In n tg ->
      In tx (DjangoTransactionsRepo.list_query db'
               (mkFilters None None None (Some n))))
  /\ (forall s a, In s sp ->
      DjangoTransactionsRepo.resolve_account db s = Ok a ->
      In tx (DjangoTransactionsRepo.list_query db'
               (mkFilters None None (Some (accountID a)) None)))
  /\ (forall lo hi,
      In tx (DjangoTransactionsRepo.list_query db'
               (mkFilters (Some lo) (Some hi) None None))
      <-> lo <= tx_date tx <= hi)
  /\ (forall f t, In t (DjangoTransactionsRepo.list_query db f) ->
      In t (DjangoTransactionsRepo.list_query db' f)).
Proof.
  intros Hwf [Hnd [Hlt Hpairs]] Hc.
  pose proof (create_ok_inv _ _ _ _ _ _ _ _ _ Hc)
    as [ds0 [dv0 [ledger0 [news0
      [_ [_ [_ [_ [_ [_ [HT [HS _]]]]]]]]]]]].
  apply create_ok_steps in Hc.
  destruct Hc as [dsl [dv [ledger [db1 [db2 [Hv [Hd [Hl [Hi [Hs Ht]]]]]]]]]].
  assert (H1 : tags db1 = tags db
               /\ transaction_tags db1 = transaction_tags db
               /\ next_tag db1 = next_tag db
               /\ accounts db1 = accounts db
               /\ splits db1 = splits db).
  { unfold transaction_insert in Hi. inversion Hi. repeat split. }
  destruct H1 as [T1 [P1 [N1 [A1 S1]]]]. clear Hi.
  pose proof (create_split_rows _ _ _ _ _ Hs)
    as [rows [Hrows [Hf [T2 [P2 [N2 _]]]]]].
  destruct (attach_tag_loop tx tg db2)
    as [db3 [Ht' [G [_ [_ [_ [Hin _]]]]]]].
  { rewrite T2, T1. exact Hnd. }
  { rewrite T2, N2, T1, N1. exact Hlt. }
  rewrite Ht in Ht'. inversion Ht'; subst db3. clear Ht'.
  destruct G as [[t1 T3] [[p1 P3] [_ [S3 _]]]].
  assert (Hmem : In tx (transactions db')).
  { rewrite HT. apply in_or_app. right. left. reflexivity. }
  unfold DjangoTransactionsRepo.list_query.
  split; [|split; [|split; [|split]]].
  - apply filter_In. split; [exact Hmem | reflexivity].
  - intros n Hn. apply filter_In. split; [exact Hmem|].
    apply django_matches_spec. cbn [date_from date_to f_account_id f_tag].
    repeat split; try discriminate.
    intros n0 Hn0 _. inversion Hn0; subst n0. apply Hin. exact Hn.
  - intros s a Hsin Hres. apply filter_In. split; [exact Hmem|].
    apply django_matches_spec. cbn [date_from date_to f_account_id f_tag].
    repeat split; try discriminate.
    intros k Hk _. inversion Hk; subst k.
    apply validate_ok_iff in Hv. destruct Hv as [_ [ds [Hds [Hdsl _]]]].
    assert (Hlen : List.length ds = List.length sp).
    { eapply normalized_amounts_Forall; eauto.
      apply django_normalize_normalized. }
    destruct (In_combine_l sp ds s Hlen Hsin) as [q Hq].
    rewrite <- Hdsl in Hq.
    destruct (Forall2_In_l _ _ _ _ Hf Hq) as [row [Hrow [a' [R1 [R2 [_ R4]]]]]].
    cbn [fst] in R1.
    rewrite (resolve_account_ext db db1 s A1) in R1.
    assert (a' = a) by congruence. subst a'.
    exists row. split; [|split; assumption].
    rewrite S3, Hrows. apply in_or_app. right. exact Hrow.
  - intros lo hi. rewrite filter_In, django_matches_spec.
    cbn [date_from date_to f_account_id f_tag]. split.
    + intros [_ [H1 [H2 _]]]. split; [apply H1 | apply H2]; reflexivity.
    + intros [H1 H2]. split; [exact Hmem|].
      repeat split; try discriminate; intros x Hx; inversion Hx; subst;
        assumption.
  - intros f t. rewrite !filter_In, !django_matches_spec.
    intros [Hold [D1 [D2 [D3 D4]]]]. split.
    + rewrite HT. apply in_or_app. left. exact Hold.
    + split; [exact D1|]. split; [exact D2|]. split.
      * intros k Hk Hk0. destruct (D3 k Hk Hk0) as [s [Hsi Hsp]].
        exists s. split; [|exact Hsp]. rewrite HS. apply in_or_app.
        left. exact Hsi.
      * intros n Hn Hn0.
        eapply (tag_names_mono db db'); [| |apply (D4 n Hn Hn0)].
        -- rewrite T3, T2, T1. reflexivity.
        -- rewrite P3, P2, P1. reflexivity.
Qed.

(** The example transaction is listed under its tag "food". *)
Lemma created_transaction_is_listed_witness :
  In example_tx
    (DjangoTransactionsRepo.list_query example_created_db
       (mkFilters None None None (Some "food"))).
Proof.
  destruct (created_transaction_is_listed 1 (Some example_date) "lunch"
              example_splits ["food"] true example_db example_created_db
              example_tx) as [_ [H _]].
  - unfold splits_wf. constructor.
  - unfold tags_wf. split; [constructor|]. split; constructor.
  - reflexivity.
  - apply H. left. reflexivity.
Defined.

(** X20.  Create, then list (in-memory repository).  The transaction
    that [create] returns is in the unfiltered listing, in the listing of
    each tag given, in the listing of each account one of its splits
    refers to, and in the listing of a date range exactly when its
    date is in the range; transactions listed before are still
    listed. *)
Theorem created_stub_is_listed (l : Z) (d : date) (de : string)
  (sp : list SplitDict) (tg : list string) (nec : bool) (m m' : Mem)
  (tx : _TransactionStub) :
  InMemoryTransactionsRepo.create l d de sp tg nec m = (Ok tx, m') ->
  t_date tx = d /\ t_tags tx = tg /\ t_ledger_id tx = l
  /\ In tx (InMemoryTransactionsRepo.list_transactions m' no_filters)
  /\ (forall n, In n tg ->
      In tx (InMemoryTransactionsRepo.list_transactions m'
               (mkFilters None None None (Some n))))
  /\ (forall s, In s (t_splits tx) ->
      In tx (InMemoryTransactionsRepo.list_transactions m'
               (mkFilters None None (Some (s_account_id s)) None)))
  /\ (forall lo hi,
      In tx (InMemoryTransactionsRepo.list_transactions m'
               (mkFilters (Some lo) (Some hi) None None))
      <-> lo <= d <= hi)
  /\ (forall f t, In t (InMemoryTransactionsRepo.list_transactions m f) ->
      In t (InMemoryTransactionsRepo.list_transactions m' f)).
Proof.
  intros Hc.
  assert (Hlist : forall mm f t,
            In t (InMemoryTransactionsRepo.list_transactions mm f)
            <-> In t (tx_store mm)
                /\ InMemoryTransactionsRepo.matches f t = true).
  { intros mm f t. unfold InMemoryTransactionsRepo.list_transactions.
    split.
    - intros H. apply (Permutation_in _ (sorted_perm _)) in H.
      apply filter_In in H. exact H.
    - intros H. apply (Permutation_in _ (Permutation_sym (sorted_perm _))).
      apply filter_In. exact H. }
  assert (Htx : exists dsl,
            tx = mkTransactionStub (tx_next m) d de nec tg dsl l).
  { unfold InMemoryTransactionsRepo.create in Hc.
    destruct sp as [|s0 sp0]; [discriminate|].
    destruct (InMemoryTransactionsRepo.build_splits m (s0 :: sp0) [] zero2)
      as [[dsl total]|]; [|discriminate].
    destruct (quantize total) as [t|]; [|discriminate].
    destruct (dec_neb t zero2); [discriminate|].
    exists dsl. inversion Hc. reflexivity. }
  destruct Htx as [dsl Htx].
  apply memory_create_ok_inv in Hc.
  destruct Hc as [ds [_ [_ [_ [_ [HT _]]]]]].
  assert (Hmem : In tx (tx_store m')).
  { rewrite HT. apply in_or_app. right. left. reflexivity. }
  split; [rewrite Htx; reflexivity|].
  split; [rewrite Htx; reflexivity|].
  split; [rewrite Htx; reflexivity|].
  split; [|split; [|split; [|split]]].
  - apply Hlist. split; [exact Hmem | reflexivity].
  - intros n Hn. apply Hlist. split; [exact Hmem|].
    apply memory_matches_spec. cbn [date_from date_to f_account_id f_tag].
    repeat split; try discriminate.
    intros n0 Hn0 _. inversion Hn0; subst n0. rewrite Htx. exact Hn.
  - intros s Hs. apply Hlist. split; [exact Hmem|].
    apply memory_matches_spec. cbn [date_from date_to f_account_id f_tag].
    repeat split; try discriminate.
    intros k Hk _. inversion Hk; subst k. exists s. auto.
  - intros lo hi. rewrite Hlist, memory_matches_spec.
    cbn [date_from date_to f_account_id f_tag].
    assert (Hd : t_date tx = d) by (rewrite Htx; reflexivity).
    rewrite Hd. split.
    + intros [_ [H1 [H2 _]]]. split; [apply H1 | apply H2]; reflexivity.
    + intros [H1 H2]. split; [exact Hmem|].
      repeat split; try discriminate; intros x Hx; inversion Hx; subst;
        assumption.
  - intros f t Ht. apply Hlist in Ht. destruct Ht as [Hi Hm].
    apply Hlist. split; [|exact Hm]. rewrite HT. apply in_or_app.
    left. exact Hi.
Qed.

(** The example transaction is listed for account 1. *)
Lemma created_stub_is_listed_witness :
  In example_stub
    (InMemoryTransactionsRepo.list_transactions example_created_mem
       (mkFilters None None (Some 1) None)).
Proof.
  destruct (created_stub_is_listed 1 example_date "lunch" example_splits
              ["food"] true example_mem example_created_mem example_stub)
    as [_ [_ [_ [_ [_ [H _]]]]]].
  - reflexivity.
  - apply (H (mkSplitStub 1 (mkDec 500 (-2)))). left. reflexivity.
Defined.

End CreateThenList.

(* ================================================================= *)
(** ** Rows that are imported *)

Section ImportedRows.

Context (L : Libs).






End ImportedRows.

Section ImportedRowsExamples.


End ImportedRowsExamples.

(* ================================================================= *)
(** ** When an import raises *)

Section ImportRaises.

Context (L : Libs).

Lemma run_import_outcome (file_bytes : string) (file_name : option string)
  (rules_bytes : option string) (h : string) (l : Z) (asset : string)
  (db : DB) :
  match run_import L file_bytes file_name rules_bytes h l asset db with
  | (Ok _, _) =>
      forall b, rules_bytes = Some b -> b <> "" ->
                exists y, yaml_safe_load L b = Ok y
  | (Raise e, db') =>
      (exists b, rules_bytes = Some b /\ b <> ""
                 /\ yaml_safe_load L b = Raise e)
      /\ transactions db' = transactions db
      /\ splits db' = splits db
      /\ accounts db' = accounts db
      /\ tags db' = tags db
      /\ import_records db' = import_records db
  end.
Proof.
  unfold run_import, mbind.
  destruct (ledger_get_or_create l _ db) as [[lg|e0] db0] eqn:E0.
  2:{ unfold ledger_get_or_create in E0.
      destruct (find_ledger db l); discriminate. }
  assert (H0 : transactions db0 = transactions db
               /\ splits db0 = splits db
               /\ accounts db0 = accounts db
               /\ tags db0 = tags db
               /\ import_records db0 = import_records db).
  { unfold ledger_get_or_create in E0. destruct (find_ledger db l);
      inversion E0; repeat split. }
  assert (Hrest : forall rules_list,
            exists res db',
              (let (r, db1) :=
                 _ensure_account asset (detect_type_from_name asset) l db0 in
               match r with
               | Ok asset_acc =>
                   let (r0, db2) :=
                     process_rows L rules_list l asset_acc 1
                       (csv_DictReader L file_bytes) (mkProgress 0 [] [])
                       db1 in
                   match r0 with
                   | Ok p =>
                       let (r1, db3) :=
                         atomic
                           (import_insert h file_name (created p)
                              (created_tx_ids p) (row_errors p)) db2 in
                       match r1 with
                       | Ok ir =>
                           ret (mkCSVImportResult (created p) false (Some ir)
                                  (row_errors p)) db3
                       | Raise e => (Raise e, db3)
                       end
                   | Raise e => (Raise e, db2)
                   end
               | Raise e => (Raise e, db1)
               end) = (Ok res, db')).
  { intros rules_list.
    destruct (ensure_account_ok asset (detect_type_from_name asset) l db0)
      as [acc [db1 [E1 _]]].
    rewrite E1.
    destruct (process_rows_spec L rules_list l acc
                (csv_DictReader L file_bytes) 1 (mkProgress 0 [] []) db1)
      as [p [db2 [txs [errs [E2 _]]]]].
    rewrite E2. unfold atomic, import_insert, ret.
    eexists. eexists. reflexivity. }
  destruct rules_bytes as [b|].
  - destruct b as [|c b'].
    + cbn [is_empty negb].
      destruct (Hrest (Some (rules_from_db db0))) as [res [db' Hr]].
      rewrite Hr. intros b Hb Hne. inversion Hb; subst b. congruence.
    + cbn [is_empty negb]. unfold _load_rules_from_yaml_bytes.
      cbn [is_empty].
      destruct (yaml_safe_load L (String c b')) as [y|e] eqn:Ey.
      * assert (Hy : forall b, Some (String c b') = Some b -> b <> "" ->
                  exists y0, yaml_safe_load L b = Ok y0).
        { intros b Hb _. inversion Hb; subst b. exists y. exact Ey. }
        cbn [bind].
        destruct y as [|[rs|]|rs];
          [destruct (Hrest (Some [])) as [res [db' Hr]]
          |destruct (Hrest rs) as [res [db' Hr]]
          |destruct (Hrest (Some [])) as [res [db' Hr]]
          |destruct (Hrest (Some rs)) as [res [db' Hr]]];
          rewrite Hr; exact Hy.
      * cbn [bind]. split.
        -- exists (String c b'). split; [reflexivity|].
           split; [discriminate | exact Ey].
        -- exact H0.
  - destruct (Hrest (Some (rules_from_db db0))) as [res [db' Hr]].
    rewrite Hr. intros b Hb. discriminate.
Qed.

(** X22.  When an import raises.  [import_csv] raises only when a
    non-empty rules file is given and loading it fails, with the
    exception of the loader; no transaction, split, account or tag is
    stored then, but an earlier import record of the same upload that the
    call was to replace (force flag, or a count of zero) is already
    deleted.  Without a rules file, with an empty one, or with one that
    loads, the import returns a result: row errors are reported, not
    raised.  (The reader of the [csv] library is taken to yield its rows
    without raising.) *)
Theorem import_raises_only_on_rules (force : bool) (file_bytes : string)
  (file_name rules_fileobj : option string) (l : Z) (asset : string)
  (db : DB) :
  (forall e db',
     import_csv L force file_bytes file_name rules_fileobj l asset db
     = (Raise e, db') ->
     (exists b, rules_fileobj = Some b /\ b <> ""
                /\ yaml_safe_load L b = Raise e)
     /\ transactions db' = transactions db
     /\ splits db' = splits db
     /\ accounts db' = accounts db
     /\ tags db' = tags db
     /\ match find_import db (_compute_hash file_bytes rules_fileobj) with
        | Some existing => ~ In existing (import_records db')
        | None => import_records db' = import_records db
        end)
  /\ ((forall b, rules_fileobj = Some b -> b <> "" ->
       exists y, yaml_safe_load L b = Ok y) ->
      exists res db',
        import_csv L force file_bytes file_name rules_fileobj l asset db
        = (Ok res, db')).
Proof.
  set (h := _compute_hash file_bytes rules_fileobj).
  assert (Hdel : forall existing,
            ~ In existing
                (import_records (snd (import_delete existing db)))).
  { intros existing Hin. unfold import_delete in Hin.
    cbn [snd import_records] in Hin. apply filter_In in Hin.
    destruct Hin as [_ Hne]. rewrite Z.eqb_refl in Hne. discriminate. }
  assert (Hsame : forall existing,
            (import_delete existing ;;;
             run_import L file_bytes file_name rules_fileobj h l asset) db
            = run_import L file_bytes file_name rules_fileobj h l asset
                (snd (import_delete existing db))).
  { intros existing. reflexivity. }
  split.
  - intros e db' Hc. unfold import_csv in Hc. cbv zeta in Hc. fold h in Hc.
    destruct (find_import db h) as [existing|] eqn:Ef.
    + assert (Hrun : run_import L file_bytes file_name rules_fileobj h l
                       asset (snd (import_delete existing db))
                     = (Raise e, db')).
      { destruct force; [rewrite Hsame in Hc; exact Hc|].
        destruct (0 <? imported_count existing); [discriminate|].
        rewrite Hsame in Hc. exact Hc. }
      pose proof (run_import_outcome file_bytes file_name rules_fileobj h l
                    asset (snd (import_delete existing db))) as Ho.
      rewrite Hrun in Ho.
      destruct Ho as [Hb [T [S [A [G I]]]]].
      split; [exact Hb|]. split; [exact T|]. split; [exact S|].
      split; [exact A|]. split; [exact G|].
      rewrite I. apply Hdel.
    + pose proof (run_import_outcome file_bytes file_name rules_fileobj h l
                    asset db) as Ho.
      rewrite Hc in Ho. destruct Ho as [Hb [T [S [A [G I]]]]].
      repeat split; assumption.
  - intros Hload.
    assert (Hok : forall db0,
              exists res db',
                run_import L file_bytes file_name rules_fileobj h l asset db0
                = (Ok res, db')).
    { intros db0.
      pose proof (run_import_outcome file_bytes file_name rules_fileobj h l
                    asset db0) as Ho.
      destruct (run_import L file_bytes file_name rules_fileobj h l asset
                  db0) as [[res|e] db'].
      - exists res, db'. reflexivity.
      - destruct Ho as [[b [Hb [Hne Hy]]] _].
        destruct (Hload b Hb Hne) as [y Hy']. congruence. }
    unfold import_csv. cbv zeta. fold h.
    destruct (find_import db h) as [existing|].
    + destruct force; [rewrite Hsame; apply Hok|].
      destruct (0 <? imported_count existing).
      * eexists. eexists. reflexivity.
      * rewrite Hsame. apply Hok.
    + apply Hok.
Qed.

End ImportRaises.

Section ImportRaisesExamples.

(** The libraries of the examples load every rules file: the import of
    the bytes of scenario 1 with a rules file returns.  With a rules
    file that cannot be decoded the import raises and stores no
    transaction. *)
Lemma import_raises_only_on_rules_witness :
  (exists res db',
     import_csv scenario_libs false "bytes" (Some "bank.csv")
       (Some "rules: []") 1 "ASSET:Bank" empty_db = (Ok res, db'))
  /\ transactions
       (snd (import_csv undecodable_libs true "bytes" (Some "bank.csv")
               (Some undecodable_rules) 1 "ASSET:Bank" empty_db))
     = transactions empty_db.
Proof.
  split.
  - destruct (import_raises_only_on_rules scenario_libs false "bytes"
                (Some "bank.csv") (Some "rules: []") 1 "ASSET:Bank"
                empty_db) as [_ H].
    apply H. intros b _ _. exists YNone. reflexivity.
  - destruct (import_raises_only_on_rules undecodable_libs true "bytes"
                (Some "bank.csv") (Some undecodable_rules) 1 "ASSET:Bank"
                empty_db) as [H _].
    destruct (H (ValueError "'utf-8' codec can't decode byte 0xff in position 0: invalid start byte")
                (snd (import_csv undecodable_libs true "bytes"
                        (Some "bank.csv") (Some undecodable_rules) 1
                        "ASSET:Bank" empty_db))) as [_ [Ht _]].
    + vm_compute. reflexivity.
    + exact Ht.
Defined.

End ImportRaisesExamples.
